(** * homebridge-switchbot: the status refresh / parse / publish core

    A shallow embedding of [src/device/device.ts] (class [deviceBase]),
    [src/device/iosensor.ts] (class [IOSensor]) and [src/device/motion.ts]
    (class [Motion]), and the properties of the specification checked on it.

    Conventions of the embedding.
    - A JavaScript [number] is a rational ([Q]); NaN and the infinities are
      outside the model.  Comparisons are the exact ones of [Q].
    - [undefined]/[null] is [None]; truthiness of a string is non-emptiness,
      of a number is being non-zero.
    - A method of a class is a computation in the state monad [Eff] over the
      record that stands for [this]; [await] is sequencing.
    - Side effects on collaborators (log calls, radio scan, cloud fetch, host
      characteristic updates, MQTT, history) are recorded, in order, in the
      [events] trace of the object.  The [debugLog], [debugWarnLog],
      [debugErrorLog] and [debugSuccessLog] diagnostics are not recorded,
      but for the one place ([statusCode]) where the log method is itself
      computed. *)

From Stdlib Require Import QArith Qminmax ZArith String List Bool Lia.
From Stdlib Require Import Ascii.
From stdpp Require Import base gmap strings pretty.
Import ListNotations.

Local Open Scope string_scope.
Local Open Scope list_scope.
Local Open Scope Q_scope.

(** ** JavaScript helpers *)

(** [a ?? b] *)
Definition nullish {A : Type} (a : option A) (b : A) : A :=
  match a with Some x => x | None => b end.

(** Truthiness of an optional number and of an optional string. *)
Definition truthy_num (a : option Q) : bool :=
  match a with Some x => negb (Qeq_bool x 0) | None => false end.

Definition truthy_str (a : option string) : bool :=
  match a with Some s => negb (String.eqb s "") | None => false end.

(** [a !== undefined], also the truthiness of an object reference. *)
Definition defined {A : Type} (a : option A) : bool :=
  match a with Some _ => true | None => false end.

(** [a === s] for an optional string [a] and a string [s]. *)
Definition strict_eq_str (a : option string) (s : string) : bool :=
  match a with Some x => String.eqb x s | None => false end.

(** [a < b] and [a > b] on numbers. *)
Definition Qltb (a b : Q) : bool := negb (Qle_bool b a).
Definition Qgtb (a b : Q) : bool := Qltb b a.

(** [a < b] and [a > b] where [a] may be [undefined]: the comparison of
    [undefined] with a number is false, either way. *)
Definition lt_num (a : option Q) (b : Q) : bool :=
  match a with Some x => Qltb x b | None => false end.

Definition gt_num (a : option Q) (b : Q) : bool :=
  match a with Some x => Qgtb x b | None => false end.

(** [if (v !== undefined) m[k] = v] on a map. *)
Definition put `{Countable K} {V : Type} (k : K) (v : option V)
    (m : gmap K V) : gmap K V :=
  match v with Some x => <[k := x]> m | None => m end.

(** *** Strings

    Strings are sequences of ASCII characters; on those the operations
    below are the JavaScript ones. *)

(** [c.toLowerCase()] on one character. *)
Definition lower_ascii (c : ascii) : ascii :=
  let n := nat_of_ascii c in
  if (65 <=? n)%nat && (n <=? 90)%nat then ascii_of_nat (n + 32) else c.

(** [s.toLowerCase()] *)
Fixpoint toLowerCase (s : string) : string :=
  match s with
  | EmptyString => EmptyString
  | String c r => String (lower_ascii c) (toLowerCase r)
  end.

(** [l.join(sep)] *)
Fixpoint join (sep : string) (l : list string) : string :=
  match l with
  | [] => ""
  | [x] => x
  | x :: r => x +:+ sep +:+ join sep r
  end.

(** [s.match(/[\s\S]{1,2}/g)]: the string cut into pieces of two
    characters, the last one of one character when the length is odd; the
    empty list stands for the [null] of a string with no match. *)
Fixpoint match_pairs (s : string) : list string :=
  match s with
  | EmptyString => []
  | String a EmptyString => [String a EmptyString]
  | String a (String b r) => String a (String b EmptyString) :: match_pairs r
  end.

(** A line terminator of the regular expressions: [.] does not match it. *)
Definition line_terminator (c : ascii) : bool :=
  Ascii.eqb c (ascii_of_nat 10) || Ascii.eqb c (ascii_of_nat 13).

Fixpoint has_line_terminator (s : string) : bool :=
  match s with
  | EmptyString => false
  | String c r => line_terminator c || has_line_terminator r
  end.

(** [s.match(/./g)]: the characters of [s] that are not line terminators,
    one string each; the empty list stands for [null]. *)
Fixpoint match_chars (s : string) : list string :=
  match s with
  | EmptyString => []
  | String c r =>
      if line_terminator c then match_chars r
      else String c EmptyString :: match_chars r
  end.

(** [s] with every occurrence of the character [c] taken out. *)
Fixpoint without (c : ascii) (s : string) : string :=
  match s with
  | EmptyString => EmptyString
  | String a r => if Ascii.eqb a c then without c r else String a (without c r)
  end.

(** [s.includes(c)] for a one-character needle. *)
Fixpoint includes_char (c : ascii) (s : string) : bool :=
  match s with
  | EmptyString => false
  | String a r => Ascii.eqb a c || includes_char c r
  end.

(** The part of [s.replace(/^V|-.*$/g, '')] that the alternative [-.*$]
    does: the string is cut at the first ['-'] that has no line terminator
    after it. *)
Fixpoint cut_suffix (s : string) : string :=
  match s with
  | EmptyString => EmptyString
  | String c r =>
      if Ascii.eqb c "-"%char && negb (has_line_terminator r) then EmptyString
      else String c (cut_suffix r)
  end.

(** [s.replace(/^V|-.*$/g, '')]: one leading ['V'] goes, and so does
    everything from the first ['-'] that [-.*$] matches. *)
Definition replace_version (s : string) : string :=
  match s with
  | String c r => if Ascii.eqb c "V"%char then cut_suffix r else cut_suffix s
  | EmptyString => EmptyString
  end.

(** ** The state monad of a method *)

Definition Eff (S A : Type) : Type := S -> A * S.

Definition ret {S A : Type} (a : A) : Eff S A := fun s => (a, s).

Definition bind {S A B : Type} (m : Eff S A) (k : A -> Eff S B) : Eff S B :=
  fun s => let r := m s in k (fst r) (snd r).

Definition gets {S A : Type} (f : S -> A) : Eff S A := fun s => (f s, s).

Definition modify {S : Type} (f : S -> S) : Eff S unit := fun s => (tt, f s).

Definition skip {S : Type} : Eff S unit := ret tt.

(** The state a computation leaves behind. *)
Definition exec {S A : Type} (m : Eff S A) (s : S) : S := snd (m s).

(** Run a computation on a component of the state. *)
Definition zoom {S T A : Type} (get : S -> T) (set : T -> S -> S)
    (m : Eff T A) : Eff S A :=
  fun s => let r := m (get s) in (fst r, set (snd r) s).

Declare Scope eff_scope.
Delimit Scope eff_scope with eff.
Notation "x <- m ;; k" := (bind m (fun x => k))
  (at level 100, m at next level, right associativity) : eff_scope.
Notation "m ;; k" := (bind m (fun _ => k))
  (at level 100, right associativity) : eff_scope.
Local Open Scope eff_scope.

(** ** Host platform vocabulary (homebridge / HAP) *)

Inductive LowBatteryStatus : Type :=
| BATTERY_LEVEL_NORMAL
| BATTERY_LEVEL_LOW.

(** [CharacteristicValue]: what a characteristic can be set to.  [Err] is
    the caught exception that [apiError] hands to the host, [Text] a
    string such as a firmware revision. *)
Inductive CharacteristicValue : Type :=
| Num (q : Q)
| Flag (b : bool)
| LowBattery (s : LowBatteryStatus)
| Err (e : string)
| Text (s : string).

Module Characteristic.

Inductive t : Type :=
| BatteryLevel
| StatusLowBattery
| CurrentRelativeHumidity
| CurrentTemperature
| MotionDetected
| CurrentAmbientLightLevel
| HardwareRevision
| FirmwareRevision.

Definition to_nat (c : t) : nat :=
  match c with
  | BatteryLevel => 0
  | StatusLowBattery => 1
  | CurrentRelativeHumidity => 2
  | CurrentTemperature => 3
  | MotionDetected => 4
  | CurrentAmbientLightLevel => 5
  | HardwareRevision => 6
  | FirmwareRevision => 7
  end%nat.

Definition of_nat (n : nat) : t :=
  match n with
  | 0 => BatteryLevel
  | 1 => StatusLowBattery
  | 2 => CurrentRelativeHumidity
  | 3 => CurrentTemperature
  | 4 => MotionDetected
  | 5 => CurrentAmbientLightLevel
  | 6 => HardwareRevision
  | _ => FirmwareRevision
  end%nat.

#[export] Instance eq_dec : EqDecision t.
Proof. solve_decision. Defined.

#[export] Instance countable : Countable t.
Proof.
  refine (inj_countable' to_nat of_nat _). intros []; reflexivity.
Defined.

End Characteristic.
Export (hints) Characteristic.

(** The BLE model / model-name enumerations of node-switchbot, with the
    members [device.ts] and the two sensor classes name. *)
Inductive SwitchBotBLEModel : Type :=
| Model_Humidifier | Model_Hub2 | Model_Bot | Model_Meter | Model_MeterPlus
| Model_MeterPro | Model_MeterProCO2 | Model_OutdoorMeter | Model_Leak
| Model_MotionSensor | Model_ContactSensor | Model_Curtain | Model_Curtain3
| Model_BlindTilt | Model_PlugMiniUS | Model_PlugMiniJP | Model_Lock
| Model_LockPro | Model_ColorBulb | Model_CeilingLight | Model_CeilingLightPro
| Model_StripLight | Model_Unknown.

Inductive SwitchBotBLEModelName : Type :=
| Name_Humidifier | Name_Hub2 | Name_Bot | Name_Meter | Name_MeterPlus
| Name_MeterPro | Name_MeterProCO2 | Name_OutdoorMeter | Name_Leak
| Name_MotionSensor | Name_ContactSensor | Name_Curtain | Name_Curtain3
| Name_BlindTilt | Name_PlugMini | Name_Lock | Name_LockPro | Name_ColorBulb
| Name_CeilingLight | Name_CeilingLightPro | Name_StripLight | Name_Unknown.

#[export] Instance SwitchBotBLEModel_eq_dec : EqDecision SwitchBotBLEModel.
Proof. solve_decision. Defined.

#[export] Instance SwitchBotBLEModelName_eq_dec : EqDecision SwitchBotBLEModelName.
Proof. solve_decision. Defined.

(** ** Configuration (settings.ts records, the fields the code reads) *)

Module settings.

Record devicesConfig : Type := {
  deviceId : string;
  hubDeviceId : option string;
  connectionType : option string;
  enableCloudService : bool;
  offline : bool;
  webhook : bool;
  history : bool;
  mqttURL : option string;
  refreshRate : option Q;
  updateRate : option Q;
  pushRate : option Q;
  maxRetries : option Q;
  delayBetweenRetries : option Q;
  scanDuration : option Q;
  (* indoorOutdoorSensorConfig *)
  hide_humidity : bool;
  hide_temperature : bool;
  convertUnitTo : option string;
  (* motionConfig *)
  hide_lightsensor : bool;
  set_minLux : option Q;
  set_maxLux : option Q
}.

Record SwitchBotPlatform : Type := {
  credentials_token : option string;   (* platform.config.credentials?.token *)
  options_BLE : bool;                  (* config.options?.BLE *)
  platformRefreshRate : option Q;
  platformUpdateRate : option Q;
  platformPushRate : option Q;
  platformMaxRetries : option Q;
  platformDelayBetweenRetries : option Q
}.

End settings.
Import settings.

(** ** Effects on the collaborators *)

Inductive LogMethod : Type :=
| infoLog | successLog | debugSuccessLog | warnLog | debugWarnLog
| errorLog | debugErrorLog | debugLog.

Inductive Event : Type :=
| Log (m : LogMethod) (msg : string)
| ConnectBLE                         (* platform.connectBLE, in switchbotBLE *)
| RadioScan                          (* monitorAdvertisementPackets *)
| CloudFetch                         (* platform.retryRequest, in deviceRefreshStatus *)
| HostUpdate (c : Characteristic.t) (v : CharacteristicValue)
                                     (* Service.updateCharacteristic *)
| ContextWrite (name : string) (v : CharacteristicValue)
                                     (* accessory.context[name] = v *)
| MqttPublish (topic : string) (v : CharacteristicValue)
| HistoryEntry.

(** ** deviceBase *)

Module deviceBase.

Record t : Type := {
  platform : SwitchBotPlatform;
  device : devicesConfig;
  context : gmap string CharacteristicValue;        (* accessory.context *)
  hapValues : gmap Characteristic.t CharacteristicValue;
                                                    (* what the host shows *)
  deviceRefreshRate : Q;
  deviceUpdateRate : Q;
  devicePushRate : Q;
  deviceMaxRetries : Q;
  deviceDelayBetweenRetries : Q;
  scanDuration : Q;
  historyService : bool;                            (* non-null *)
  events : list Event
}.

Definition set_context (f : gmap string CharacteristicValue -> gmap string CharacteristicValue) (this : t) : t :=
  {| platform := platform this; device := device this;
     context := f (context this); hapValues := hapValues this;
     deviceRefreshRate := deviceRefreshRate this;
     deviceUpdateRate := deviceUpdateRate this;
     devicePushRate := devicePushRate this;
     deviceMaxRetries := deviceMaxRetries this;
     deviceDelayBetweenRetries := deviceDelayBetweenRetries this;
     scanDuration := scanDuration this;
     historyService := historyService this; events := events this |}.

Definition set_hapValues (f : gmap Characteristic.t CharacteristicValue -> gmap Characteristic.t CharacteristicValue) (this : t) : t :=
  {| platform := platform this; device := device this;
     context := context this; hapValues := f (hapValues this);
     deviceRefreshRate := deviceRefreshRate this;
     deviceUpdateRate := deviceUpdateRate this;
     devicePushRate := devicePushRate this;
     deviceMaxRetries := deviceMaxRetries this;
     deviceDelayBetweenRetries := deviceDelayBetweenRetries this;
     scanDuration := scanDuration this;
     historyService := historyService this; events := events this |}.

Definition set_events (f : list Event -> list Event) (this : t) : t :=
  {| platform := platform this; device := device this;
     context := context this; hapValues := hapValues this;
     deviceRefreshRate := deviceRefreshRate this;
     deviceUpdateRate := deviceUpdateRate this;
     devicePushRate := devicePushRate this;
     deviceMaxRetries := deviceMaxRetries this;
     deviceDelayBetweenRetries := deviceDelayBetweenRetries this;
     scanDuration := scanDuration this;
     historyService := historyService this; events := f (events this) |}.

Definition set_rates (refresh update push retries delay scan : Q) (this : t) : t :=
  {| platform := platform this; device := device this;
     context := context this; hapValues := hapValues this;
     deviceRefreshRate := refresh;
     deviceUpdateRate := update;
     devicePushRate := push;
     deviceMaxRetries := retries;
     deviceDelayBetweenRetries := delay;
     scanDuration := scan;
     historyService := historyService this; events := events this |}.

(** Append one effect to the trace. *)
Definition emit (e : Event) : Eff t unit :=
  modify (set_events (fun es => es ++ [e])).

Definition log (m : LogMethod) (msg : string) : Eff t unit := emit (Log m msg).

(** [this.BLE] and [this.OpenAPI], set once by the constructor. *)
Definition BLE (this : t) : bool :=
  strict_eq_str (connectionType (device this)) "BLE"
  || strict_eq_str (connectionType (device this)) "BLE/OpenAPI".

Definition OpenAPI (this : t) : bool :=
  strict_eq_str (connectionType (device this)) "OpenAPI"
  || strict_eq_str (connectionType (device this)) "BLE/OpenAPI".

(** [getDeviceRateSettings], device.ts 93-120. *)
Definition getDeviceRateSettings (dev : devicesConfig) : Eff t unit :=
  this <- gets id ;;
  let p := platform this in
  let refresh := nullish (refreshRate dev) (nullish (platformRefreshRate p) 300) in
  let update := nullish (updateRate dev) (nullish (platformUpdateRate p) 5) in
  let push := nullish (pushRate dev) (nullish (platformPushRate p) (1 # 10)) in
  let retries := nullish (maxRetries dev) (nullish (platformMaxRetries p) 2) in
  let delay :=
    if truthy_num (delayBetweenRetries dev)
    then nullish (delayBetweenRetries dev) 0 * 1000
    else nullish (platformDelayBetweenRetries p) 3000 in
  let scan :=
    Qmax (nullish (settings.scanDuration dev) 1)
         (if Qgtb update 1 then update else 1) in
  modify (set_rates refresh update push retries delay scan) ;;
  if BLE this then
    if truthy_num (settings.scanDuration dev)
       && Qgtb update (nullish (settings.scanDuration dev) 0)
    then log warnLog "scanDuration is less than updateRate, overriding scanDuration with updateRate"
    else skip
  else skip.

(** The answers of the transports during one refresh cycle.  The radio
    scan and the cloud request are collaborators: what they return is an
    input of the cycle.  [ServiceData] and [Status] are the payload types
    of the device class. *)
Inductive CloudResult (Status : Type) : Type :=
| Response (statusCode : Z) (body : Status)   (* { statusCode, body } *)
| Throws (e : string).                        (* the request rejected *)
Arguments Response {Status} statusCode body.
Arguments Throws {Status} e.

Record Env (ServiceData Status : Type) : Type := {
  env_switchbotBLE : bool;          (* switchbotBLE() gave a handle, not undefined *)
  env_scan : ServiceData;           (* result of monitorAdvertisementPackets *)
  env_cloud : CloudResult Status    (* result of deviceRefreshStatus *)
}.
Arguments env_switchbotBLE {ServiceData Status} _.
Arguments env_scan {ServiceData Status} _.
Arguments env_cloud {ServiceData Status} _.

(** [switchbotBLE], device.ts 291-303: asks the platform for the radio
    handle; [undefined] when there is none. *)
Definition switchbotBLE {SD St : Type} (env : Env SD St) : Eff t bool :=
  emit ConnectBLE ;; ret (env_switchbotBLE env).

(** [monitorAdvertisementPackets], device.ts 305-331: one bounded scan.
    The method keeps the last advertisement of the device's address and
    model seen during the scan; what it returns is taken as given. *)
Definition monitorAdvertisementPackets {SD St : Type} (env : Env SD St) : Eff t SD :=
  emit RadioScan ;; ret (env_scan env).

(** [deviceRefreshStatus], device.ts 363-366. *)
Definition deviceRefreshStatus {SD St : Type} (env : Env SD St) : Eff t (CloudResult St) :=
  emit CloudFetch ;; ret (env_cloud env).

(** [successfulStatusCodes], device.ts 368-370. *)
Definition successfulStatusCodes (statusCode : Z) : bool :=
  (statusCode =? 200)%Z || (statusCode =? 100)%Z.

(** [mqtt], device.ts 399-403. *)
Definition mqtt (CharacteristicName : string) (v : CharacteristicValue) : Eff t unit :=
  this <- gets id ;;
  if truthy_str (mqttURL (device this))
  then emit (MqttPublish CharacteristicName v)
  else skip.

(** [updateCharacteristic], device.ts 383-397.  The [Service] argument is
    left out: in these classes a characteristic lives in one service. *)
Definition updateCharacteristic (c : Characteristic.t)
    (value : option CharacteristicValue) (CharacteristicName : string) : Eff t unit :=
  match value with
  | None => skip
  | Some v =>
      mqtt CharacteristicName v ;;
      this <- gets id ;;
      (if history (device this) && historyService this
       then emit HistoryEntry else skip) ;;
      modify (set_hapValues <[c := v]>) ;;
      emit (HostUpdate c v) ;;
      modify (set_context <[CharacteristicName := v]>) ;;
      emit (ContextWrite CharacteristicName v)
  end.

(** A trace entry that is neither a host update nor a context write. *)
Definition quiet (e : Event) : Prop :=
  match e with
  | HostUpdate _ _ | ContextWrite _ _ => False
  | _ => True
  end.

(** [Service.updateCharacteristic] called directly, as [offlineOff] and
    [apiError] do: the host is told, [accessory.context] is not written. *)
Definition Service_updateCharacteristic (c : Characteristic.t)
    (v : CharacteristicValue) : Eff t unit :=
  modify (set_hapValues <[c := v]>) ;;
  emit (HostUpdate c v).

(** [Service.setCharacteristic] and [Characteristic.updateValue]: the host
    is given the value, as by [Service.updateCharacteristic]. *)
Definition Service_setCharacteristic (c : Characteristic.t)
    (v : CharacteristicValue) : Eff t unit :=
  Service_updateCharacteristic c v.

(** [statusCode], device.ts 678-705. *)
Definition statusMessages (this : t) (statusCode : Z) : option string :=
  match statusCode with
  | 151 => Some "Command not supported by this deviceType"
  | 152 => Some "Device not found"
  | 160 => Some "Command is not supported"
  | 161 => Some "Device is offline"
  | 171 => Some ("Hub Device is offline. Hub: "
                 +:+ nullish (hubDeviceId (device this)) "undefined")
  | 190 => Some "Device internal error due to device states not synchronized with server, or command format is invalid"
  | 100 => Some "Command successfully sent"
  | 200 => Some "Request successful"
  | 400 => Some "Bad Request, an invalid payload request"
  | 401 => Some "Unauthorized, Authorization for the API is required, but the request has not been authenticated"
  | 403 => Some "Forbidden, The request has been authenticated but does not have appropriate permissions, or a requested resource is not found"
  | 404 => Some "Not Found, Specifies the requested path does not exist"
  | 406 => Some "Not Acceptable, a MIME type has been requested via the Accept header for a value not supported by the server"
  | 415 => Some "Unsupported Media Type, a contentType header has been defined that is not supported by the server"
  | 422 => Some "Unprocessable Entity: The server cannot process the request, often due to exceeded API limits."
  | 429 => Some "Too Many Requests, exceeded the number of requests allowed for a given time window"
  | 500 => Some "Internal Server Error, An unexpected error occurred. These errors should be rare"
  | _ => None
  end%Z.

(** Lines 698-701: the status code the classifier goes on with. *)
Definition remapStatusCode (this : t) (statusCode : Z) : Z :=
  if (statusCode =? 171)%Z
     && (strict_eq_str (hubDeviceId (device this)) (deviceId (device this))
         || strict_eq_str (hubDeviceId (device this)) "000000000000")
  then 161%Z
  else statusCode.

(** The device is its own hub: its hub id is its own id, or the all-zero
    placeholder. *)
Definition selfHub (this : t) : Prop :=
  hubDeviceId (device this) = Some (deviceId (device this))
  \/ hubDeviceId (device this) = Some "000000000000".

(** Lines 702-704: message and log method of a status code. *)
Definition logMessage (this : t) (statusCode : Z) : string :=
  match statusMessages this statusCode with
  | Some m => m
  | None => "Unknown statusCode: " +:+ pretty statusCode
            +:+ ", Submit Bugs Here: https://tinyurl.com/SwitchBotBug"
  end.

Definition logMethod (this : t) (statusCode : Z) : LogMethod :=
  if (statusCode =? 100)%Z || (statusCode =? 200)%Z then debugLog
  else match statusMessages this statusCode with
       | Some _ => errorLog
       | None => infoLog
       end.

Definition classify (this : t) (statusCode : Z) : Event :=
  Log (logMethod this statusCode)
      (logMessage this statusCode +:+ ", statusCode: " +:+ pretty statusCode).

Definition statusCode (statusCode : Z) : Eff t unit :=
  this <- gets id ;;
  let statusCode := remapStatusCode this statusCode in
  emit (classify this statusCode).

(** The constructor, device.ts 55-85: the fields of a fresh object.  The
    log, config-dump, MQTT and AccessoryInformation set-up it also does
    has no part in what follows.  [historyService] starts as [null]. *)
Definition new (platform : SwitchBotPlatform)
    (context : gmap string CharacteristicValue) (device : devicesConfig) : t :=
  exec (getDeviceRateSettings device)
    {| platform := platform; device := device; context := context;
       hapValues := ∅;
       deviceRefreshRate := 0; deviceUpdateRate := 0; devicePushRate := 0;
       deviceMaxRetries := 0; deviceDelayBetweenRetries := 0; scanDuration := 0;
       historyService := false; events := [] |}.

(** [getLightLevel], device.ts 230-240. *)
Definition getLightLevel (lightLevel set_minLux set_maxLux spaceBetweenLevels : Q) : Q :=
  let numberOfLevels := spaceBetweenLevels + 1 in
  if Qeq_bool lightLevel 1 then set_minLux
  else if Qeq_bool lightLevel numberOfLevels then set_maxLux
  else ((set_maxLux - set_minLux) / spaceBetweenLevels) * (lightLevel - 1).

(** The status codes [statusMessages] knows as failures. *)
Definition failure_codes : list Z :=
  [151; 152; 160; 161; 171; 190; 400; 401; 403; 404; 406; 415; 422; 429; 500]%Z.

(** What one call of [updateCharacteristic] adds to the trace. *)
Definition publication (this : t) (c : Characteristic.t)
    (value : option CharacteristicValue) (name : string) : list Event :=
  match value with
  | None => []
  | Some v =>
      (if truthy_str (mqttURL (device this)) then [MqttPublish name v] else [])
      ++ (if history (device this) && historyService this then [HistoryEntry] else [])
      ++ [HostUpdate c v; ContextWrite name v]
  end.

(** *** Retrying a radio command *)

(** What a promise settles to. *)
Inductive Outcome (A : Type) : Type :=
| Resolved (a : A)
| Rejected (e : string).
Arguments Resolved {A} a.
Arguments Rejected {A} e.

(** The state of a recursion that is given [fuel] calls of [fn]: settled, or
    still retrying when the fuel is used up. *)
Inductive Pending (A : Type) : Type :=
| Settles (o : Outcome A)
| StillRetrying.
Arguments Settles {A} o.
Arguments StillRetrying {A}.

(** [retryBLE], device.ts 122-132.  [fn call] is what the [call]-th
    invocation of [fn] settles to; [max] is an integer.  The one-second
    sleep between two attempts is not recorded. *)
Fixpoint retryBLE {A : Type} (fuel : nat) (max : Z) (fn : nat -> Outcome A)
    (call : nat) : Eff t (Pending A) :=
  match fuel with
  | O => ret StillRetrying
  | S fuel' =>
      match fn call with
      | Resolved a => ret (Settles (Resolved a))
      | Rejected e =>
          if (max =? 0)%Z then ret (Settles (Rejected e))
          else
            log warnLog e ;;
            log infoLog "Retrying" ;;
            retryBLE fuel' (max - 1)%Z fn (S call)
      end
  end.

(** The log of [n] failed attempts, from call number [call] on. *)
Fixpoint retry_log {A : Type} (fn : nat -> Outcome A) (call n : nat) : list Event :=
  match n with
  | O => []
  | S n' =>
      match fn call with
      | Rejected e => [Log warnLog e; Log infoLog "Retrying"]
      | Resolved _ => []
      end ++ retry_log fn (S call) n'
  end.

(** *** MQTT topic *)

(** The [mac] of [mqttPublish], device.ts 247:
    [deviceId?.toLowerCase().match(/[\s\S]{1,2}/g)?.join(':')]. *)
Definition mqttMac (deviceId : option string) : option string :=
  match deviceId with
  | None => None
  | Some id =>
      match match_pairs (toLowerCase id) with
      | [] => None
      | l => Some (join ":" l)
      end
  end.

(** The topic [mqttPublish] publishes to, device.ts 249-251.
    [device.deviceType] is not a field of the configuration record above
    and is an argument. *)
Definition mqttPublish_topic (deviceType : string) (deviceId topic : option string) : string :=
  "homebridge-switchbot/" +:+ deviceType +:+ "/"
  +:+ nullish (mqttMac deviceId) "undefined"
  +:+ (if truthy_str topic then "/" +:+ nullish topic "" else "").

(** *** The radio scan *)

(** An advertisement packet: the sender's address and its service data. *)
Record ad (SD : Type) : Type := {
  address : string;
  serviceData : SD
}.
Arguments address {SD} _.
Arguments serviceData {SD} _.

(** The handler [monitorAdvertisementPackets] installs, device.ts 314-321:
    an advertisement of the device's address and model replaces the
    payload kept so far. *)
Definition onadvertisement {SD : Type} (model_of : SD -> SwitchBotBLEModel)
    (bleMac : option string) (bleModel : SwitchBotBLEModel)
    (kept : SD) (a : ad SD) : SD :=
  if strict_eq_str bleMac (address a)
     && bool_decide (model_of (serviceData a) = bleModel)
  then serviceData a
  else kept.

(** What [monitorAdvertisementPackets] returns, device.ts 313-330, for the
    advertisements [ads] received during the scan, in order.  [initial] is
    the payload [{ model: bleModel, modelName: bleModelName }] the scan
    starts from; [device.bleMac] and [device.bleModel] are arguments. *)
Definition scanned {SD : Type} (model_of : SD -> SwitchBotBLEModel)
    (bleMac : option string) (bleModel : SwitchBotBLEModel)
    (initial : SD) (ads : list (ad SD)) : SD :=
  fold_left (onadvertisement model_of bleMac bleModel) ads initial.

(** *** Firmware version *)

(** The [deviceVersion] of [getDeviceContext], device.ts 655-666, from the
    four places a version can come from. *)
Definition deviceFirmwareVersion (firmware version context_version platform_version : option string) : string :=
  nullish firmware
    (nullish version (nullish context_version (nullish platform_version "0.0.0"))).

Definition deviceVersion (firmware version context_version platform_version : option string) : string :=
  let version :=
    deviceFirmwareVersion firmware version context_version platform_version in
  if negb (includes_char "."%char version) then
    match match_chars (replace_version version) with
    | [] => "0.0.0"
    | l => join "." l
    end
  else replace_version version.

(** *** Device context *)

(** The device models and the friendly BLE names of node-switchbot, with
    the members [getDeviceContext] names. *)
Inductive SwitchBotModel : Type :=
| Device_Humidifier | Device_HubMini | Device_HubPlus | Device_Hub2
| Device_Bot | Device_Meter | Device_MeterPlusUS | Device_MeterPlusJP
| Device_MeterPro | Device_MeterProCO2 | Device_OutdoorMeter
| Device_WaterDetector | Device_MotionSensor | Device_ContactSensor
| Device_Curtain | Device_Curtain3 | Device_BlindTilt | Device_Plug
| Device_PlugMiniUS | Device_PlugMiniJP | Device_Lock | Device_LockPro
| Device_ColorBulb | Device_K10 | Device_K10Pro | Device_WoSweeper
| Device_WoSweeperMini | Device_RobotVacuumCleanerS1
| Device_RobotVacuumCleanerS1Plus | Device_RobotVacuumCleanerS10
| Device_CeilingLight | Device_CeilingLightPro | Device_StripLight
| Device_IndoorCam | Device_Remote | Device_UniversalRemote
| Device_BatteryCirculatorFan | Device_Unknown.

Inductive SwitchBotBLEModelFriendlyName : Type :=
| Friendly_Humidifier | Friendly_Hub2 | Friendly_Bot | Friendly_Meter
| Friendly_MeterPlus | Friendly_MeterPro | Friendly_MeterProCO2
| Friendly_OutdoorMeter | Friendly_Leak | Friendly_MotionSensor
| Friendly_ContactSensor | Friendly_Curtain | Friendly_Curtain3
| Friendly_BlindTilt | Friendly_PlugMini | Friendly_Lock | Friendly_LockPro
| Friendly_ColorBulb | Friendly_CeilingLight | Friendly_CeilingLightPro
| Friendly_StripLight | Friendly_Unknown.

(** A row of the [deviceMapping] table. *)
Record DeviceContext : Type := entry {
  ctx_model : SwitchBotModel;
  ctx_bleModel : SwitchBotBLEModel;
  ctx_bleModelName : SwitchBotBLEModelName;
  ctx_bleModelFriendlyName : SwitchBotBLEModelFriendlyName
}.

(** [deviceMapping], device.ts 406-641, and [defaultDevice], 642-647. *)
Definition deviceMapping : list (string * DeviceContext) :=
  [
    ("Humidifier", entry Device_Humidifier Model_Humidifier Name_Humidifier Friendly_Humidifier);
    ("Hub Mini", entry Device_HubMini Model_Unknown Name_Unknown Friendly_Unknown);
    ("Hub Plus", entry Device_HubPlus Model_Unknown Name_Unknown Friendly_Unknown);
    ("Hub 2", entry Device_Hub2 Model_Hub2 Name_Hub2 Friendly_Hub2);
    ("Bot", entry Device_Bot Model_Bot Name_Bot Friendly_Bot);
    ("Meter", entry Device_Meter Model_Meter Name_Meter Friendly_Meter);
    ("MeterPlus", entry Device_MeterPlusUS Model_MeterPlus Name_MeterPlus Friendly_MeterPlus);
    ("Meter Plus (JP)", entry Device_MeterPlusJP Model_MeterPlus Name_MeterPlus Friendly_MeterPlus);
    ("Meter Pro", entry Device_MeterPro Model_MeterPro Name_MeterPro Friendly_MeterPro);
    ("MeterPro(CO2)", entry Device_MeterProCO2 Model_MeterProCO2 Name_MeterProCO2 Friendly_MeterProCO2);
    ("WoIOSensor", entry Device_OutdoorMeter Model_OutdoorMeter Name_OutdoorMeter Friendly_OutdoorMeter);
    ("Water Detector", entry Device_WaterDetector Model_Leak Name_Leak Friendly_Leak);
    ("Motion Sensor", entry Device_MotionSensor Model_MotionSensor Name_MotionSensor Friendly_MotionSensor);
    ("Contact Sensor", entry Device_ContactSensor Model_ContactSensor Name_ContactSensor Friendly_ContactSensor);
    ("Curtain", entry Device_Curtain Model_Curtain Name_Curtain Friendly_Curtain);
    ("Curtain3", entry Device_Curtain3 Model_Curtain3 Name_Curtain3 Friendly_Curtain3);
    ("WoRollerShade", entry Device_Curtain3 Model_Curtain3 Name_Curtain3 Friendly_Curtain3);
    ("Roller Shade", entry Device_Curtain3 Model_Curtain3 Name_Curtain3 Friendly_Curtain3);
    ("Blind Tilt", entry Device_BlindTilt Model_BlindTilt Name_BlindTilt Friendly_BlindTilt);
    ("Plug", entry Device_Plug Model_PlugMiniUS Name_PlugMini Friendly_PlugMini);
    ("Plug Mini (US)", entry Device_PlugMiniUS Model_PlugMiniUS Name_PlugMini Friendly_PlugMini);
    ("Plug Mini (JP)", entry Device_PlugMiniJP Model_PlugMiniJP Name_PlugMini Friendly_PlugMini);
    ("Smart Lock", entry Device_Lock Model_Lock Name_Lock Friendly_Lock);
    ("Smart Lock Pro", entry Device_LockPro Model_LockPro Name_LockPro Friendly_LockPro);
    ("Color Bulb", entry Device_ColorBulb Model_ColorBulb Name_ColorBulb Friendly_ColorBulb);
    ("K10+", entry Device_K10 Model_Unknown Name_Unknown Friendly_Unknown);
    ("K10+ Pro", entry Device_K10Pro Model_Unknown Name_Unknown Friendly_Unknown);
    ("WoSweeper", entry Device_WoSweeper Model_Unknown Name_Unknown Friendly_Unknown);
    ("WoSweeperMini", entry Device_WoSweeperMini Model_Unknown Name_Unknown Friendly_Unknown);
    ("Robot Vacuum Cleaner S1", entry Device_RobotVacuumCleanerS1 Model_Unknown Name_Unknown Friendly_Unknown);
    ("Robot Vacuum Cleaner S1 Plus", entry Device_RobotVacuumCleanerS1Plus Model_Unknown Name_Unknown Friendly_Unknown);
    ("Robot Vacuum Cleaner S10", entry Device_RobotVacuumCleanerS10 Model_Unknown Name_Unknown Friendly_Unknown);
    ("Ceiling Light", entry Device_CeilingLight Model_CeilingLight Name_CeilingLight Friendly_CeilingLight);
    ("Ceiling Light Pro", entry Device_CeilingLightPro Model_CeilingLightPro Name_CeilingLightPro Friendly_CeilingLightPro);
    ("Strip Light", entry Device_StripLight Model_StripLight Name_StripLight Friendly_StripLight);
    ("Indoor Cam", entry Device_IndoorCam Model_Unknown Name_Unknown Friendly_Unknown);
    ("Remote", entry Device_Remote Model_Unknown Name_Unknown Friendly_Unknown);
    ("remote with screen+", entry Device_UniversalRemote Model_Unknown Name_Unknown Friendly_Unknown);
    ("Battery Circulator Fan", entry Device_BatteryCirculatorFan Model_Unknown Name_Unknown Friendly_Unknown)
  ].

Definition defaultDevice : DeviceContext :=
  entry Device_Unknown Model_Unknown Name_Unknown Friendly_Unknown.

(** [table[key]] for an object literal: the row of the key, if any. *)
Fixpoint row {A : Type} (table : list (string * A)) (key : string) : option A :=
  match table with
  | [] => None
  | (k, v) :: rest => if String.eqb k key then Some v else row rest key
  end.

(** [deviceMapping[device.deviceType] || defaultDevice], device.ts 648.
    [device.deviceType] is an argument. *)
Definition deviceConfig (deviceType : string) : DeviceContext :=
  nullish (row deviceMapping deviceType) defaultDevice.

End deviceBase.

(** ** The firmware version of a cloud answer

    Both sensor classes end [openAPIparseStatus] with the same statements
    (iosensor.ts 231-245, motion.ts 213-227).  When the body carries a
    [version], the revision read off it is given to the
    AccessoryInformation service as [HardwareRevision] and
    [FirmwareRevision], the latter once more through [updateValue], and
    [accessory.context.version] is set to it.  The statements act on the
    accessory alone. *)
Definition firmwareVersion (version : option string) : Eff deviceBase.t unit :=
  if truthy_str version then
    let deviceVersion := Text (replace_version (nullish version "")) in
    deviceBase.Service_setCharacteristic Characteristic.HardwareRevision deviceVersion ;;
    deviceBase.Service_setCharacteristic Characteristic.FirmwareRevision deviceVersion ;;
    deviceBase.Service_setCharacteristic Characteristic.FirmwareRevision deviceVersion ;;
    modify (deviceBase.set_context <["version" := deviceVersion]>) ;;
    deviceBase.emit (ContextWrite "version" deviceVersion)
  else skip.

(** ** utils.ts *)

(** Modelled from the spec: [validHumidity] of [utils.ts], which is not among
    the sources.  The spec has the decoder clamp humidity into its bounds
    ("humidity clamped to [0,100]", "humidity > 100 -> 100"); the call site
    passes the bounds 0 and 100.  The spec gives the result for a reading
    that is a number; a reading that is [undefined] is left to the call
    site. *)
Definition validHumidity (h min max : Q) : Q :=
  if Qltb h min then min else if Qgtb h max then max else h.

(** ** IOSensor (iosensor.ts) *)

Module IOSensor.

Module ServiceData.
(** [outdoorMeterServiceData]: the decoded radio advertisement.  A field
    that is [None] stands for a payload without that key: the payload
    [monitorAdvertisementPackets] starts from (device.ts 313) and returns
    when no advertisement matched has [model] and [modelName] only. *)
Record t : Type := {
  model : SwitchBotBLEModel;
  modelName : SwitchBotBLEModelName;
  battery : option Q;
  celsius : option Q;
  humidity : option Q
}.
End ServiceData.

Module Status.
(** [outdoorMeterStatus]: body of the cloud answer, with its optional
    firmware [version]. *)
Record t : Type := {
  battery : Q;
  temperature : Q;
  humidity : Q;
  version : option string
}.
End Status.

Module Webhook.
(** [outdoorMeterWebhookContext] *)
Record t : Type := {
  scale : string;
  temperature : Q;
  humidity : Q
}.
End Webhook.

(** The object.  [HumiditySensor = None] is the field left [undefined]
    (no humidity service); [HumiditySensor = Some v] is a humidity service
    whose stored [CurrentRelativeHumidity] is [v], a number or, for
    [v = None], [undefined].  The same for [TemperatureSensor] and its
    [CurrentTemperature]. *)
Record t : Type := {
  base : deviceBase.t;
  BatteryLevel : Q;
  StatusLowBattery : LowBatteryStatus;
  HumiditySensor : option (option Q);
  TemperatureSensor : option (option Q);
  deviceStatus : option Status.t;
  webhookContext : option Webhook.t;
  serviceData : option ServiceData.t;
  ioSensorUpdateInProgress : bool
}.

Definition set_base (b : deviceBase.t) (this : t) : t :=
  {| base := b; BatteryLevel := BatteryLevel this;
     StatusLowBattery := StatusLowBattery this;
     HumiditySensor := HumiditySensor this;
     TemperatureSensor := TemperatureSensor this;
     deviceStatus := deviceStatus this; webhookContext := webhookContext this;
     serviceData := serviceData this;
     ioSensorUpdateInProgress := ioSensorUpdateInProgress this |}.

Definition set_BatteryLevel (v : Q) (this : t) : t :=
  {| base := base this; BatteryLevel := v;
     StatusLowBattery := StatusLowBattery this;
     HumiditySensor := HumiditySensor this;
     TemperatureSensor := TemperatureSensor this;
     deviceStatus := deviceStatus this; webhookContext := webhookContext this;
     serviceData := serviceData this;
     ioSensorUpdateInProgress := ioSensorUpdateInProgress this |}.

Definition set_StatusLowBattery (v : LowBatteryStatus) (this : t) : t :=
  {| base := base this; BatteryLevel := BatteryLevel this;
     StatusLowBattery := v;
     HumiditySensor := HumiditySensor this;
     TemperatureSensor := TemperatureSensor this;
     deviceStatus := deviceStatus this; webhookContext := webhookContext this;
     serviceData := serviceData this;
     ioSensorUpdateInProgress := ioSensorUpdateInProgress this |}.

Definition set_CurrentRelativeHumidity (v : option Q) (this : t) : t :=
  {| base := base this; BatteryLevel := BatteryLevel this;
     StatusLowBattery := StatusLowBattery this;
     HumiditySensor := Some v;
     TemperatureSensor := TemperatureSensor this;
     deviceStatus := deviceStatus this; webhookContext := webhookContext this;
     serviceData := serviceData this;
     ioSensorUpdateInProgress := ioSensorUpdateInProgress this |}.

Definition set_CurrentTemperature (v : option Q) (this : t) : t :=
  {| base := base this; BatteryLevel := BatteryLevel this;
     StatusLowBattery := StatusLowBattery this;
     HumiditySensor := HumiditySensor this;
     TemperatureSensor := Some v;
     deviceStatus := deviceStatus this; webhookContext := webhookContext this;
     serviceData := serviceData this;
     ioSensorUpdateInProgress := ioSensorUpdateInProgress this |}.

Definition set_deviceStatus (v : Status.t) (this : t) : t :=
  {| base := base this; BatteryLevel := BatteryLevel this;
     StatusLowBattery := StatusLowBattery this;
     HumiditySensor := HumiditySensor this;
     TemperatureSensor := TemperatureSensor this;
     deviceStatus := Some v; webhookContext := webhookContext this;
     serviceData := serviceData this;
     ioSensorUpdateInProgress := ioSensorUpdateInProgress this |}.

Definition set_webhookContext (v : Webhook.t) (this : t) : t :=
  {| base := base this; BatteryLevel := BatteryLevel this;
     StatusLowBattery := StatusLowBattery this;
     HumiditySensor := HumiditySensor this;
     TemperatureSensor := TemperatureSensor this;
     deviceStatus := deviceStatus this; webhookContext := Some v;
     serviceData := serviceData this;
     ioSensorUpdateInProgress := ioSensorUpdateInProgress this |}.

Definition set_serviceData (v : ServiceData.t) (this : t) : t :=
  {| base := base this; BatteryLevel := BatteryLevel this;
     StatusLowBattery := StatusLowBattery this;
     HumiditySensor := HumiditySensor this;
     TemperatureSensor := TemperatureSensor this;
     deviceStatus := deviceStatus this; webhookContext := webhookContext this;
     serviceData := Some v;
     ioSensorUpdateInProgress := ioSensorUpdateInProgress this |}.

(** A method of [deviceBase] called on the sensor. *)
Definition super {A : Type} (m : Eff deviceBase.t A) : Eff t A :=
  zoom base set_base m.

Definition device (this : t) : devicesConfig := deviceBase.device (base this).

(** [this.HumiditySensor.CurrentRelativeHumidity] and
    [this.TemperatureSensor.CurrentTemperature], read where the service
    exists. *)
Definition CurrentRelativeHumidity (this : t) : option Q :=
  match HumiditySensor this with Some v => v | None => None end.

Definition CurrentTemperature (this : t) : option Q :=
  match TemperatureSensor this with Some v => v | None => None end.

(** [!device.hide_humidity && this.HumiditySensor?.Service] and its
    temperature twin, the guard of every decoder but the webhook one. *)
Definition humidityExposed (this : t) : bool :=
  negb (hide_humidity (device this)) && defined (HumiditySensor this).

Definition temperatureExposed (this : t) : bool :=
  negb (hide_temperature (device this)) && defined (TemperatureSensor this).

(** [BLEparseStatus], iosensor.ts 178-203.  The method reads
    [this.serviceData]; every caller assigns that field in the statement
    before the call, so the payload is the argument here.  For a payload
    without a 'celsius' key both comparisons of line 199 are false and the
    stored temperature becomes [undefined].  [validHumidity] is known on
    numbers only (see above): for a payload without a 'humidity' key the
    stored humidity is taken to be no number, [None]. *)
Definition BLEparseStatus (serviceData : ServiceData.t) : Eff t unit :=
  (match ServiceData.battery serviceData with
   | Some battery =>
       modify (set_BatteryLevel battery) ;;
       this <- gets id ;;
       modify (set_StatusLowBattery
                 (if Qltb (BatteryLevel this) 10
                  then BATTERY_LEVEL_LOW else BATTERY_LEVEL_NORMAL))
   | None => skip
   end) ;;
  this <- gets id ;;
  (if humidityExposed this
   then modify (set_CurrentRelativeHumidity
                  ((fun h => validHumidity h 0 100)
                     <$> ServiceData.humidity serviceData))
   else skip) ;;
  this <- gets id ;;
  (if temperatureExposed this
   then
     let c := ServiceData.celsius serviceData in
     let CELSIUS :=
       if lt_num c 0 then Some 0 else if gt_num c 100 then Some 100 else c in
     modify (set_CurrentTemperature CELSIUS)
   else skip).

(** [openAPIparseStatus], iosensor.ts 205-245. *)
Definition openAPIparseStatus (deviceStatus : Status.t) : Eff t unit :=
  modify (set_BatteryLevel (Status.battery deviceStatus)) ;;
  this <- gets id ;;
  modify (set_StatusLowBattery
            (if Qltb (BatteryLevel this) 10
             then BATTERY_LEVEL_LOW else BATTERY_LEVEL_NORMAL)) ;;
  this <- gets id ;;
  (if humidityExposed this
   then modify (set_CurrentRelativeHumidity (Some (Status.humidity deviceStatus)))
   else skip) ;;
  this <- gets id ;;
  (if temperatureExposed this
   then modify (set_CurrentTemperature (Some (Status.temperature deviceStatus)))
   else skip) ;;
  super (firmwareVersion (Status.version deviceStatus)).

Section Webhook.

(** [convertUnits] of [utils.ts] is not among the sources; the webhook
    decoder is taken over any such function
    [convertUnits value scale convertUnitTo]. *)
Variable convertUnits : Q -> string -> option string -> Q.

(** [parseStatusWebhook], iosensor.ts 247-264.  As for [BLEparseStatus],
    [this.webhookContext] is the argument. *)
Definition parseStatusWebhook (webhookContext : Webhook.t) : Eff t unit :=
  this <- gets id ;;
  (if negb (String.eqb (Webhook.scale webhookContext) "CELSIUS")
      && negb (defined (convertUnitTo (device this)))
   then super (deviceBase.log warnLog "received a non-CELSIUS Webhook scale")
   else skip) ;;
  this <- gets id ;;
  (if hide_humidity (device this) && defined (HumiditySensor this)
   then modify (set_CurrentRelativeHumidity
                  (Some (Webhook.humidity webhookContext)))
   else skip) ;;
  this <- gets id ;;
  (if hide_temperature (device this) && defined (TemperatureSensor this)
   then modify (set_CurrentTemperature
                  (Some (convertUnits (Webhook.temperature webhookContext)
                                      (Webhook.scale webhookContext)
                                      (convertUnitTo (device this)))))
   else skip).

End Webhook.

(** [updateHomeKitCharacteristics], iosensor.ts 373-386. *)
Definition updateHomeKitCharacteristics : Eff t unit :=
  this <- gets id ;;
  (if humidityExposed this
   then super (deviceBase.updateCharacteristic Characteristic.CurrentRelativeHumidity
                 (Num <$> CurrentRelativeHumidity this) "CurrentRelativeHumidity")
   else skip) ;;
  this <- gets id ;;
  (if temperatureExposed this
   then super (deviceBase.updateCharacteristic Characteristic.CurrentTemperature
                 (Num <$> CurrentTemperature this) "CurrentTemperature")
   else skip) ;;
  this <- gets id ;;
  super (deviceBase.updateCharacteristic Characteristic.BatteryLevel
           (Some (Num (BatteryLevel this))) "BatteryLevel") ;;
  this <- gets id ;;
  super (deviceBase.updateCharacteristic Characteristic.StatusLowBattery
           (Some (LowBattery (StatusLowBattery this))) "StatusLowBattery").

(** [apiError], iosensor.ts 407-416. *)
Definition apiError (e : string) : Eff t unit :=
  this <- gets id ;;
  (if humidityExposed this
   then super (deviceBase.Service_updateCharacteristic
                 Characteristic.CurrentRelativeHumidity (Err e))
   else skip) ;;
  this <- gets id ;;
  (if temperatureExposed this
   then super (deviceBase.Service_updateCharacteristic
                 Characteristic.CurrentTemperature (Err e))
   else skip) ;;
  super (deviceBase.Service_updateCharacteristic Characteristic.BatteryLevel (Err e)) ;;
  super (deviceBase.Service_updateCharacteristic Characteristic.StatusLowBattery (Err e)).

(** [offlineOff], iosensor.ts 396-405. *)
Definition offlineOff : Eff t unit :=
  this <- gets id ;;
  if offline (device this) then
    (if humidityExposed this
     then super (deviceBase.Service_updateCharacteristic
                   Characteristic.CurrentRelativeHumidity (Num 50))
     else skip) ;;
    this <- gets id ;;
    (if temperatureExposed this
     then super (deviceBase.Service_updateCharacteristic
                   Characteristic.CurrentTemperature (Num 30))
     else skip)
  else skip.

Definition Env : Type := deviceBase.Env ServiceData.t Status.t.

(** [openAPIRefreshStatus], iosensor.ts 331-350. *)
Definition openAPIRefreshStatus (env : Env) : Eff t unit :=
  response <- super (deviceBase.deviceRefreshStatus env) ;;
  match response with
  | deviceBase.Response statusCode body =>
      if deviceBase.successfulStatusCodes statusCode then
        modify (set_deviceStatus body) ;;
        openAPIparseStatus body ;;
        updateHomeKitCharacteristics
      else skip
  | deviceBase.Throws e =>
      apiError e ;;
      super (deviceBase.log errorLog "failed openAPIRefreshStatus")
  end.

(** [BLERefreshConnection], iosensor.ts 388-394. *)
Definition BLERefreshConnection (env : Env) : Eff t unit :=
  super (deviceBase.log errorLog "wasn't able to establish BLE Connection") ;;
  this <- gets id ;;
  if truthy_str (credentials_token (deviceBase.platform (base this)))
     && strict_eq_str (connectionType (device this)) "BLE/OpenAPI"
  then
    super (deviceBase.log warnLog "Using OpenAPI Connection to Refresh Status") ;;
    openAPIRefreshStatus env
  else skip.

(** [BLERefreshStatus], iosensor.ts 282-303. *)
Definition BLERefreshStatus (env : Env) : Eff t unit :=
  switchBotBLE <- super (deviceBase.switchbotBLE env) ;;
  if negb switchBotBLE then BLERefreshConnection env
  else
    serviceData <- super (deviceBase.monitorAdvertisementPackets env) ;;
    if bool_decide (ServiceData.model serviceData = Model_OutdoorMeter)
       && bool_decide (ServiceData.modelName serviceData = Name_OutdoorMeter)
    then
      modify (set_serviceData serviceData) ;;
      BLEparseStatus serviceData ;;
      updateHomeKitCharacteristics
    else
      super (deviceBase.log errorLog "failed to get serviceData") ;;
      BLERefreshConnection env.

(** [refreshStatus], iosensor.ts 269-280. *)
Definition refreshStatus (env : Env) : Eff t unit :=
  this <- gets id ;;
  if negb (enableCloudService (device this)) && deviceBase.OpenAPI (base this)
  then super (deviceBase.log errorLog "refreshStatus enableCloudService")
  else if deviceBase.BLE (base this) then BLERefreshStatus env
  else if deviceBase.OpenAPI (base this)
          && truthy_str (credentials_token (deviceBase.platform (base this)))
  then openAPIRefreshStatus env
  else offlineOff.

(** The handler [registerPlatformBLE] installs (iosensor.ts 313-322), when
    [config.options?.BLE] is set. *)
Definition bleEventHandler (context : ServiceData.t) : Eff t unit :=
  modify (set_serviceData context) ;;
  BLEparseStatus context ;;
  updateHomeKitCharacteristics.

Definition registerPlatformBLE (this : t) : option (ServiceData.t -> Eff t unit) :=
  if options_BLE (deviceBase.platform (base this))
  then Some bleEventHandler else None.

(** The handler [registerWebhook] installs (iosensor.ts 355-364), when
    [device.webhook] is set. *)
Definition webhookEventHandler (convertUnits : Q -> string -> option string -> Q)
    (context : Webhook.t) : Eff t unit :=
  modify (set_webhookContext context) ;;
  parseStatusWebhook convertUnits context ;;
  updateHomeKitCharacteristics.

Definition registerWebhook (convertUnits : Q -> string -> option string -> Q)
    (this : t) : option (Webhook.t -> Eff t unit) :=
  if webhook (device this)
  then Some (webhookEventHandler convertUnits) else None.

(** The field initialisers of the constructor, iosensor.ts 61-144:
    [accessory.context.X ?? default] for each stored value, a sensor
    service only when its hide flag is off, and the in-progress flag
    cleared (line 72).  The HAP service wiring and the copies of the
    service records kept under [accessory.context] are left out; the calls
    that end the constructor are [refreshStatus], [registerWebhook],
    [registerPlatformBLE] and the timer below. *)
Definition context_num (context : gmap string CharacteristicValue)
    (name : string) (default : Q) : Q :=
  match context !! name with Some (Num q) => q | _ => default end.

Definition context_low (context : gmap string CharacteristicValue)
    (name : string) (default : LowBatteryStatus) : LowBatteryStatus :=
  match context !! name with Some (LowBattery s) => s | _ => default end.

Definition new (platform : SwitchBotPlatform)
    (context : gmap string CharacteristicValue) (device : devicesConfig) : t :=
  {| base := deviceBase.new platform context device;
     BatteryLevel := context_num context "BatteryLevel" 100;
     StatusLowBattery := context_low context "StatusLowBattery" BATTERY_LEVEL_NORMAL;
     TemperatureSensor :=
       if hide_temperature device then None
       else Some (Some (context_num context "CurrentTemperature" 30));
     HumiditySensor :=
       if hide_humidity device then None
       else Some (Some (context_num context "CurrentRelativeHumidity" 50));
     deviceStatus := None; webhookContext := None; serviceData := None;
     ioSensorUpdateInProgress := false |}.

(** *** The refresh timer, iosensor.ts 170-175

    [interval(rate).pipe(skipWhile(() => this.ioSensorUpdateInProgress))
       .subscribe(async () => { await this.refreshStatus() })].

    rxjs' [skipWhile] drops values while its predicate holds and, from the
    first value on which it fails, lets every value through: it keeps one
    bit, [taking].  A timer value that gets through starts a refresh cycle;
    the cycle is in flight until its last [await] settles, which is the
    [Settled] input.  The effects of a cycle are applied to the object when
    the cycle starts; [inFlight] counts the cycles started and not yet
    settled. *)
Record Timer : Type := {
  sensor : t;
  taking : bool;
  inFlight : nat
}.

Inductive TimerInput : Type :=
| Tick (env : Env)
| Settled.

(** [(taking || (taking = !predicate(value)))] *)
Definition skipWhile (predicate taking : bool) : bool :=
  taking || negb predicate.

Definition timer_step (s : Timer) (i : TimerInput) : Timer :=
  match i with
  | Tick env =>
      if skipWhile (ioSensorUpdateInProgress (sensor s)) (taking s)
      then {| sensor := exec (refreshStatus env) (sensor s);
              taking := true;
              inFlight := S (inFlight s) |}
      else s
  | Settled =>
      {| sensor := sensor s; taking := taking s; inFlight := Nat.pred (inFlight s) |}
  end.

Definition timer_run (s : Timer) (inputs : list TimerInput) : Timer :=
  fold_left timer_step inputs s.

Definition timer_start (this : t) : Timer :=
  {| sensor := this; taking := false; inFlight := 0 |}.

(** *** Observations on a cycle *)

(** The transport attempts in a trace: asking for the radio handle, a
    radio scan, a cloud request. *)
Definition is_transport (e : Event) : bool :=
  match e with
  | ConnectBLE | RadioScan | CloudFetch => true
  | _ => false
  end.

Definition attempts (this : t) : list Event :=
  List.filter is_transport (deviceBase.events (base this)).

(** [this'] comes from [this] by effects whose transport attempts are
    exactly [l], in that order; the configuration, the platform and the
    in-progress flag are those of [this]. *)
Record step_with (l : list Event) (this this' : t) : Prop := {
  step_flag : ioSensorUpdateInProgress this' = ioSensorUpdateInProgress this;
  step_device : device this' = device this;
  step_platform :
    deviceBase.platform (base this') = deviceBase.platform (base this);
  step_attempts : attempts this' = attempts this ++ l
}.

(** A computation that contacts no transport. *)
Definition Quiet {A : Type} (m : Eff t A) : Prop :=
  forall this : t, step_with [] this (exec m this).

(** A computation that leaves the component [f] of the object as it was. *)
Definition Keeps {A B : Type} (f : t -> B) (m : Eff t A) : Prop :=
  forall this : t, f (exec m this) = f this.

(** The object with entries appended to its trace. *)
Definition logged (es : list Event) (this : t) : t :=
  set_base (deviceBase.set_events (fun old => old ++ es) (base this)) this.

(** The scanned payload carries the model and model name of the class
    (the test of iosensor.ts 293). *)
Definition accepted (sd : ServiceData.t) : bool :=
  bool_decide (ServiceData.model sd = Model_OutdoorMeter)
  && bool_decide (ServiceData.modelName sd = Name_OutdoorMeter).

(** A cloud credential is stored and the connection type is BLE/OpenAPI
    (the test of iosensor.ts 390). *)
Definition cloudFallback (this : t) : bool :=
  truthy_str (credentials_token (deviceBase.platform (base this)))
  && strict_eq_str (connectionType (device this)) "BLE/OpenAPI".

(** The transports a radio cycle contacts, by what the radio answers. *)
Definition radio_attempts (env : Env) (this : t) : list Event :=
  ConnectBLE
  :: (if deviceBase.env_switchbotBLE env then [RadioScan] else [])
  ++ (if (negb (deviceBase.env_switchbotBLE env)
          || negb (accepted (deviceBase.env_scan env)))
         && cloudFallback this
      then [CloudFetch] else []).

(** The offline fallback in the words of the specification: a device
    marked offline has the neutral values 50 % humidity and 30 degrees
    published to the host for the capabilities it exposes; no transport
    is contacted and nothing else changes. *)
Definition offline_fallback (this : t) : t :=
  let hum := offline (device this) && humidityExposed this in
  let temp := offline (device this) && temperatureExposed this in
  set_base
    (deviceBase.set_events
       (fun es => es
          ++ (if hum then [HostUpdate Characteristic.CurrentRelativeHumidity (Num 50)] else [])
          ++ (if temp then [HostUpdate Characteristic.CurrentTemperature (Num 30)] else []))
       (deviceBase.set_hapValues
          (fun h =>
             (if temp then <[Characteristic.CurrentTemperature := Num 30]> else id)
               ((if hum then <[Characteristic.CurrentRelativeHumidity := Num 50]> else id) h))
          (base this)))
    this.

(** *** The transport-selection policy *)

Inductive Choice : Type := Abort | Radio | Cloud | Offline.

(** [platform.config.credentials?.token]: a cloud credential is stored. *)
Definition credentialed (this : t) : bool :=
  truthy_str (credentials_token (deviceBase.platform (base this))).

(** The policy in the words of the specification: (1) cloud required (an
    OpenAPI connection) but the cloud service not enabled, or no
    credential stored: report an error, attempt no transport; (2) else
    radio if BLE is enabled; (3) else cloud if OpenAPI is enabled and a
    token is stored; (4) else the offline fallback. *)
Definition transport_policy (this : t) : Choice :=
  if deviceBase.OpenAPI (base this)
     && negb (enableCloudService (device this) && credentialed this)
  then Abort
  else if deviceBase.BLE (base this) then Radio
  else if deviceBase.OpenAPI (base this) && credentialed this then Cloud
  else Offline.

(** The policy with its first branch on the cloud service switched off
    only: a connection that names OpenAPI and has the service enabled but
    no credential stored goes on to (2), (3) and (4). *)
Definition transport_choice (this : t) : Choice :=
  if deviceBase.OpenAPI (base this) && negb (enableCloudService (device this))
  then Abort
  else if deviceBase.BLE (base this) then Radio
  else if deviceBase.OpenAPI (base this) && credentialed this then Cloud
  else Offline.

(** The cycle that took [this] to [this'] reported an error: an
    [errorLog] entry is among the entries it added to the trace. *)
Definition reported_error (this this' : t) : Prop :=
  exists (before : list Event) (msg : string) (after : list Event),
    deviceBase.events (base this')
    = deviceBase.events (base this) ++ before ++ Log errorLog msg :: after.

(** What the specification asks of one cycle, by the branch of its
    policy. *)
Definition as_specified (env : Env) (this : t) : Prop :=
  match transport_policy this with
  | Abort =>
      reported_error this (exec (refreshStatus env) this)
      /\ attempts (exec (refreshStatus env) this) = attempts this
  | Radio =>
      exec (refreshStatus env) this = exec (BLERefreshStatus env) this
      /\ attempts (exec (refreshStatus env) this)
         = attempts this ++ radio_attempts env this
  | Cloud =>
      exec (refreshStatus env) this = exec (openAPIRefreshStatus env) this
      /\ attempts (exec (refreshStatus env) this) = attempts this ++ [CloudFetch]
  | Offline =>
      exec (refreshStatus env) this = offline_fallback this
      /\ attempts (exec (refreshStatus env) this) = attempts this
  end.

(** The values [updateHomeKitCharacteristics] publishes for the two
    sensor services: the stored value of an exposed capability, nothing
    for a hidden one or for a stored value that is [undefined]. *)
Definition humidityPublished (this : t) : option CharacteristicValue :=
  if humidityExposed this then Num <$> CurrentRelativeHumidity this else None.

Definition temperaturePublished (this : t) : option CharacteristicValue :=
  if temperatureExposed this then Num <$> CurrentTemperature this else None.

(** What one call of [updateHomeKitCharacteristics] adds to the trace. *)
Definition publications (this : t) : list Event :=
  deviceBase.publication (base this) Characteristic.CurrentRelativeHumidity
    (humidityPublished this) "CurrentRelativeHumidity"
  ++ deviceBase.publication (base this) Characteristic.CurrentTemperature
       (temperaturePublished this) "CurrentTemperature"
  ++ deviceBase.publication (base this) Characteristic.BatteryLevel
       (Some (Num (BatteryLevel this))) "BatteryLevel"
  ++ deviceBase.publication (base this) Characteristic.StatusLowBattery
       (Some (LowBattery (StatusLowBattery this))) "StatusLowBattery".

(** *** Everything that reaches a sensor

    A refresh cycle (from the constructor or the timer), a radio
    advertisement handed over by the platform, a webhook event.  The two
    push events reach the sensor only through the handler it registered. *)
Inductive Input : Type :=
| Cycle (env : Env)
| RadioPush (context : ServiceData.t)
| WebhookPush (context : Webhook.t).

Definition handle (convertUnits : Q -> string -> option string -> Q)
    (this : t) (i : Input) : t :=
  match i with
  | Cycle env => exec (refreshStatus env) this
  | RadioPush context =>
      match registerPlatformBLE this with
      | Some handler => exec (handler context) this
      | None => this
      end
  | WebhookPush context =>
      match registerWebhook convertUnits this with
      | Some handler => exec (handler context) this
      | None => this
      end
  end.

Definition run (convertUnits : Q -> string -> option string -> Q)
    (this : t) (inputs : list Input) : t :=
  fold_left (handle convertUnits) inputs this.

End IOSensor.

(** ** Motion (motion.ts) *)

Module Motion.

Module ServiceData.
(** [motionSensorServiceData]: the decoded radio advertisement.  A field
    that is [None] stands for a payload without that key: the payload a
    scan starts from (device.ts 313) has [model] and [modelName] only. *)
Record t : Type := {
  model : SwitchBotBLEModel;
  modelName : SwitchBotBLEModelName;
  movement : option bool;
  lightLevel : option string;
  battery : option Q
}.
End ServiceData.

(** The object.  [MotionDetected] is the stored value of the motion
    service, [None] when it is [undefined]; [LightSensor = Some l] is a
    light sensor service whose stored [CurrentAmbientLightLevel] is [l],
    [LightSensor = None] the field left [undefined]. *)
Record t : Type := {
  base : deviceBase.t;
  BatteryLevel : Q;
  StatusLowBattery : LowBatteryStatus;
  MotionDetected : option bool;
  LightSensor : option Q;
  motionUbpdateInProgress : bool
}.

Definition device (this : t) : devicesConfig := deviceBase.device (base this).

Definition set_base (b : deviceBase.t) (this : t) : t :=
  {| base := b; BatteryLevel := BatteryLevel this;
     StatusLowBattery := StatusLowBattery this;
     MotionDetected := MotionDetected this; LightSensor := LightSensor this;
     motionUbpdateInProgress := motionUbpdateInProgress this |}.

Definition set_BatteryLevel (v : Q) (this : t) : t :=
  {| base := base this; BatteryLevel := v;
     StatusLowBattery := StatusLowBattery this;
     MotionDetected := MotionDetected this; LightSensor := LightSensor this;
     motionUbpdateInProgress := motionUbpdateInProgress this |}.

Definition set_StatusLowBattery (v : LowBatteryStatus) (this : t) : t :=
  {| base := base this; BatteryLevel := BatteryLevel this;
     StatusLowBattery := v;
     MotionDetected := MotionDetected this; LightSensor := LightSensor this;
     motionUbpdateInProgress := motionUbpdateInProgress this |}.

Definition set_MotionDetected (v : option bool) (this : t) : t :=
  {| base := base this; BatteryLevel := BatteryLevel this;
     StatusLowBattery := StatusLowBattery this;
     MotionDetected := v; LightSensor := LightSensor this;
     motionUbpdateInProgress := motionUbpdateInProgress this |}.

Definition set_CurrentAmbientLightLevel (v : Q) (this : t) : t :=
  {| base := base this; BatteryLevel := BatteryLevel this;
     StatusLowBattery := StatusLowBattery this;
     MotionDetected := MotionDetected this; LightSensor := Some v;
     motionUbpdateInProgress := motionUbpdateInProgress this |}.

(** A method of [deviceBase] called on the sensor. *)
Definition super {A : Type} (m : Eff deviceBase.t A) : Eff t A :=
  zoom base set_base m.

(** [BLEparseStatus], motion.ts 158-185; [this.serviceData] is the
    argument.  A payload without a 'movement' key leaves the stored motion
    state [undefined]; one without a 'lightLevel' key is not "bright". *)
Definition BLEparseStatus (serviceData : ServiceData.t) : Eff t unit :=
  modify (set_MotionDetected (ServiceData.movement serviceData)) ;;
  this <- gets id ;;
  (if negb (hide_lightsensor (device this)) && defined (LightSensor this)
   then
     let set_minLux := nullish (set_minLux (device this)) 1 in
     let set_maxLux := nullish (set_maxLux (device this)) 6001 in
     let lightLevel :=
       if strict_eq_str (ServiceData.lightLevel serviceData) "bright"
       then set_maxLux else set_minLux in
     modify (set_CurrentAmbientLightLevel
               (deviceBase.getLightLevel lightLevel set_minLux set_maxLux 2))
   else skip) ;;
  match ServiceData.battery serviceData with
  | Some battery =>
      modify (set_BatteryLevel battery) ;;
      this <- gets id ;;
      modify (set_StatusLowBattery
                (if Qltb (BatteryLevel this) 10
                 then BATTERY_LEVEL_LOW else BATTERY_LEVEL_NORMAL))
  | None => skip
  end.

Module Status.
(** [motionSensorStatus]: body of the cloud answer, with its optional
    firmware [version]. *)
Record t : Type := {
  moveDetected : bool;
  brightness : string;
  battery : Q;
  version : option string
}.
End Status.

(** [openAPIparseStatus], motion.ts 187-227; [this.deviceStatus] is the
    argument. *)
Definition openAPIparseStatus (deviceStatus : Status.t) : Eff t unit :=
  modify (set_MotionDetected (Some (Status.moveDetected deviceStatus))) ;;
  this <- gets id ;;
  (if negb (hide_lightsensor (device this)) && defined (LightSensor this)
   then
     let set_minLux := nullish (set_minLux (device this)) 1 in
     let set_maxLux := nullish (set_maxLux (device this)) 6001 in
     let lightLevel :=
       if String.eqb (Status.brightness deviceStatus) "bright"
       then set_maxLux else set_minLux in
     modify (set_CurrentAmbientLightLevel
               (deviceBase.getLightLevel lightLevel set_minLux set_maxLux 2))
   else skip) ;;
  modify (set_BatteryLevel (Status.battery deviceStatus)) ;;
  this <- gets id ;;
  modify (set_StatusLowBattery
            (if Qltb (BatteryLevel this) 10
             then BATTERY_LEVEL_LOW else BATTERY_LEVEL_NORMAL)) ;;
  super (firmwareVersion (Status.version deviceStatus)).

(** The light level a decoder stores for a reading: [getLightLevel] of the
    maximum for a bright reading, of the minimum otherwise, with the
    configured bounds or their defaults (motion.ts 167-171, 196-200). *)
Definition storedLightLevel (bright : bool) (this : t) : Q :=
  deviceBase.getLightLevel
    (if bright then nullish (set_maxLux (device this)) 6001
     else nullish (set_minLux (device this)) 1)
    (nullish (set_minLux (device this)) 1)
    (nullish (set_maxLux (device this)) 6001) 2.

(** The field initialisers of the constructor, motion.ts 59-125: the
    stored values come from the accessory context, with the defaults
    [false], [100], NORMAL and [0.0001]; the light sensor service exists
    unless [hide_lightsensor].  The HAP service wiring is left out. *)
Definition new (platform : SwitchBotPlatform)
    (context : gmap string CharacteristicValue) (device : devicesConfig) : t :=
  {| base := deviceBase.new platform context device;
     BatteryLevel :=
       match context !! "BatteryLevel" with Some (Num v) => v | _ => 100 end;
     StatusLowBattery :=
       match context !! "StatusLowBattery" with
       | Some (LowBattery v) => v
       | _ => BATTERY_LEVEL_NORMAL
       end;
     MotionDetected :=
       Some (match context !! "MotionDetected" with
             | Some (Flag v) => v
             | _ => false
             end);
     LightSensor :=
       if hide_lightsensor device then None
       else Some (match context !! "CurrentAmbientLightLevel" with
                  | Some (Num v) => v
                  | _ => 1 # 10000
                  end);
     motionUbpdateInProgress := false |}.

End Motion.

(** ** Sample configurations

    An indoor/outdoor sensor as the platform registers it, by connection
    type, and the platform with a stored token. *)

Module Sample.

Definition platform : SwitchBotPlatform :=
  {| credentials_token := Some "token"; options_BLE := true;
     platformRefreshRate := None; platformUpdateRate := None;
     platformPushRate := None; platformMaxRetries := None;
     platformDelayBetweenRetries := None |}.

(** The same platform with no cloud credential stored. *)
Definition platform_without_token : SwitchBotPlatform :=
  {| credentials_token := None; options_BLE := true;
     platformRefreshRate := None; platformUpdateRate := None;
     platformPushRate := None; platformMaxRetries := None;
     platformDelayBetweenRetries := None |}.

Definition device (connection : string) : devicesConfig :=
  {| deviceId := "AABBCCDDEEFF"; hubDeviceId := Some "000000000000";
     connectionType := Some connection; enableCloudService := true;
     offline := false; webhook := true; history := false;
     mqttURL := None; refreshRate := None; updateRate := None;
     pushRate := None; maxRetries := None; delayBetweenRetries := None;
     settings.scanDuration := None; hide_humidity := false;
     hide_temperature := false; convertUnitTo := None;
     hide_lightsensor := false; set_minLux := None; set_maxLux := None |}.

(** The same device with a configured scan duration and update rate. *)
Definition device_rates (scan update : Q) : devicesConfig :=
  {| deviceId := "AABBCCDDEEFF"; hubDeviceId := Some "000000000000";
     connectionType := Some "BLE"; enableCloudService := true;
     offline := false; webhook := true; history := false;
     mqttURL := None; refreshRate := None; updateRate := Some update;
     pushRate := None; maxRetries := None; delayBetweenRetries := None;
     settings.scanDuration := Some scan; hide_humidity := false;
     hide_temperature := false; convertUnitTo := None;
     hide_lightsensor := false; set_minLux := None; set_maxLux := None |}.

(** The same device marked offline, with no transport configured. *)
Definition device_offline : devicesConfig :=
  {| deviceId := "AABBCCDDEEFF"; hubDeviceId := Some "000000000000";
     connectionType := Some "Disabled"; enableCloudService := true;
     offline := true; webhook := false; history := false;
     mqttURL := None; refreshRate := None; updateRate := None;
     pushRate := None; maxRetries := None; delayBetweenRetries := None;
     settings.scanDuration := None; hide_humidity := false;
     hide_temperature := false; convertUnitTo := None;
     hide_lightsensor := false; set_minLux := None; set_maxLux := None |}.

Definition sensor (connection : string) : IOSensor.t :=
  IOSensor.new platform ∅ (device connection).

(** A radio payload of the sensor itself, and one of another model. *)
Definition payload (battery : option Q) (celsius humidity : Q) : IOSensor.ServiceData.t :=
  {| IOSensor.ServiceData.model := Model_OutdoorMeter;
     IOSensor.ServiceData.modelName := Name_OutdoorMeter;
     IOSensor.ServiceData.battery := battery;
     IOSensor.ServiceData.celsius := Some celsius;
     IOSensor.ServiceData.humidity := Some humidity |}.

(** The payload a scan returns when no advertisement of the device was
    seen (device.ts 313). *)
Definition stub : IOSensor.ServiceData.t :=
  {| IOSensor.ServiceData.model := Model_OutdoorMeter;
     IOSensor.ServiceData.modelName := Name_OutdoorMeter;
     IOSensor.ServiceData.battery := None;
     IOSensor.ServiceData.celsius := None;
     IOSensor.ServiceData.humidity := None |}.

Definition foreign_payload : IOSensor.ServiceData.t :=
  {| IOSensor.ServiceData.model := Model_Meter;
     IOSensor.ServiceData.modelName := Name_Meter;
     IOSensor.ServiceData.battery := Some 77;
     IOSensor.ServiceData.celsius := Some 12;
     IOSensor.ServiceData.humidity := Some 34 |}.

Definition status (battery temperature humidity : Q) : IOSensor.Status.t :=
  {| IOSensor.Status.battery := battery;
     IOSensor.Status.temperature := temperature;
     IOSensor.Status.humidity := humidity;
     IOSensor.Status.version := None |}.

(** The same answer carrying a firmware version. *)
Definition status_version (battery temperature humidity : Q) (version : string) :
    IOSensor.Status.t :=
  {| IOSensor.Status.battery := battery;
     IOSensor.Status.temperature := temperature;
     IOSensor.Status.humidity := humidity;
     IOSensor.Status.version := Some version |}.

(** A radio payload and a cloud answer of the motion sensor. *)
Definition motion_payload (movement : bool) (lightLevel : string)
    (battery : option Q) : Motion.ServiceData.t :=
  {| Motion.ServiceData.model := Model_MotionSensor;
     Motion.ServiceData.modelName := Name_MotionSensor;
     Motion.ServiceData.movement := Some movement;
     Motion.ServiceData.lightLevel := Some lightLevel;
     Motion.ServiceData.battery := battery |}.

Definition motion_status (moveDetected : bool) (brightness : string)
    (battery : Q) (version : option string) : Motion.Status.t :=
  {| Motion.Status.moveDetected := moveDetected;
     Motion.Status.brightness := brightness;
     Motion.Status.battery := battery;
     Motion.Status.version := version |}.

(** A cycle in which the radio handle is there, the scan returns [scan]
    and the cloud answers [cloud]. *)
Definition env (scan : IOSensor.ServiceData.t)
    (cloud : deviceBase.CloudResult IOSensor.Status.t) : IOSensor.Env :=
  {| deviceBase.env_switchbotBLE := true;
     deviceBase.env_scan := scan;
     deviceBase.env_cloud := cloud |}.

End Sample.

(** * Properties *)

(** ** Arithmetic of the comparisons *)

Lemma Qltb_lt (a b : Q) : Qltb a b = true <-> a < b.
Proof.
  unfold Qltb. rewrite negb_true_iff, <- not_true_iff_false, Qle_bool_iff.
  split; [apply Qnot_le_lt | apply Qlt_not_le].
Qed.

Lemma Qltb_ge (a b : Q) : Qltb a b = false <-> b <= a.
Proof.
  unfold Qltb. rewrite negb_false_iff. apply Qle_bool_iff.
Qed.

Lemma Qgtb_gt (a b : Q) : Qgtb a b = true <-> b < a.
Proof. apply Qltb_lt. Qed.

Lemma Qgtb_le (a b : Q) : Qgtb a b = false <-> a <= b.
Proof. apply Qltb_ge. Qed.

(** ** The monad *)

Lemma exec_bind {S A B : Type} (m : Eff S A) (k : A -> Eff S B) (s : S) :
  exec (bind m k) s = exec (k (fst (m s))) (exec m s).
Proof. reflexivity. Qed.

Lemma exec_modify {S : Type} (f : S -> S) (s : S) : exec (modify f) s = f s.
Proof. reflexivity. Qed.

Lemma exec_skip {S : Type} (s : S) : exec (@skip S) s = s.
Proof. reflexivity. Qed.

Lemma exec_if {S A : Type} (b : bool) (m1 m2 : Eff S A) (s : S) :
  exec (if b then m1 else m2) s = if b then exec m1 s else exec m2 s.
Proof. destruct b; reflexivity. Qed.

(** ** Strings *)

(** Induction on a string two characters at a time. *)
Lemma string_pairs_ind (P : string -> Prop) :
  P EmptyString ->
  (forall a, P (String a EmptyString)) ->
  (forall a b r, P r -> P (String a (String b r))) ->
  forall s, P s.
Proof.
  intros H0 H1 H2.
  assert (H : forall s, P s /\ forall a, P (String a s)).
  { induction s as [|b r [IH1 IH2]].
    - split; [exact H0 | exact H1].
    - split; [apply IH2 |]. intros a. apply H2, IH1. }
  intros s. apply H.
Qed.

Lemma length_append (s1 s2 : string) :
  String.length (s1 +:+ s2) = (String.length s1 + String.length s2)%nat.
Proof. induction s1 as [|c r IH]; simpl; [reflexivity | rewrite IH; reflexivity]. Qed.

Lemma without_append (c : ascii) (s1 s2 : string) :
  without c (s1 +:+ s2) = without c s1 +:+ without c s2.
Proof.
  induction s1 as [|a r IH]; simpl; [reflexivity |].
  destruct (Ascii.eqb a c); simpl; rewrite IH; reflexivity.
Qed.

Lemma includes_char_append (c : ascii) (s1 s2 : string) :
  includes_char c (s1 +:+ s2) = includes_char c s1 || includes_char c s2.
Proof.
  induction s1 as [|a r IH]; simpl; [reflexivity |].
  rewrite IH, orb_assoc. reflexivity.
Qed.

Lemma without_absent (c : ascii) (s : string) :
  includes_char c s = false -> without c s = s.
Proof.
  induction s as [|a r IH]; simpl; [reflexivity |].
  intros H. apply orb_false_iff in H as [Ha Hr]. rewrite Ha, IH; auto.
Qed.

Lemma lower_ascii_colon (c : ascii) :
  Ascii.eqb (lower_ascii c) ":"%char = Ascii.eqb c ":"%char.
Proof.
  destruct c as [[] [] [] [] [] [] [] []]; vm_compute; reflexivity.
Qed.

Lemma includes_colon_toLowerCase (s : string) :
  includes_char ":"%char (toLowerCase s) = includes_char ":"%char s.
Proof.
  induction s as [|a r IH]; simpl; [reflexivity |].
  rewrite lower_ascii_colon, IH. reflexivity.
Qed.

Lemma length_toLowerCase (s : string) :
  String.length (toLowerCase s) = String.length s.
Proof. induction s as [|a r IH]; simpl; [reflexivity | rewrite IH; reflexivity]. Qed.

(** The pieces of two characters, joined by colons. *)
Lemma join_match_pairs (s : string) :
  includes_char ":"%char s = false ->
  without ":"%char (join ":" (match_pairs s)) = s
  /\ String.length (join ":" (match_pairs s))
     = (String.length s + (String.length s - 1) / 2)%nat.
Proof.
  induction s as [| a | a b r IH] using string_pairs_ind; intros H.
  - split; reflexivity.
  - simpl in H. rewrite orb_false_r in H. simpl. rewrite H. split; reflexivity.
  - simpl in H. apply orb_false_iff in H as [Ha H].
    apply orb_false_iff in H as [Hb Hr].
    destruct (IH Hr) as [IHw IHl].
    cbn [match_pairs]. destruct (match_pairs r) as [|x l] eqn:E.
    + assert (r = EmptyString) as ->.
      { destruct r as [|c [|d r']]; [reflexivity | discriminate | discriminate]. }
      simpl. rewrite Ha, Hb. split; reflexivity.
    + assert (Hlen : (1 <= String.length r)%nat).
      { destruct r; [discriminate | simpl; lia]. }
      change (join ":" (String a (String b EmptyString) :: x :: l))
        with (String a (String b EmptyString) +:+ ":" +:+ join ":" (x :: l)).
      split.
      * rewrite !without_append, IHw. simpl. rewrite Ha, Hb. reflexivity.
      * rewrite !length_append, IHl. simpl String.length.
        replace (S (S (String.length r)) - 1)%nat
          with (1 * 2 + (String.length r - 1))%nat by lia.
        rewrite (Nat.div_add_l 1 2 (String.length r - 1)) by lia. lia.
Qed.

Lemma match_pairs_nil (s : string) : match_pairs s = [] <-> s = EmptyString.
Proof.
  split; [| intros ->; reflexivity].
  destruct s as [|a [|b r]]; [reflexivity | discriminate | discriminate].
Qed.

Lemma cut_suffix_keeps_absent (c : ascii) (s : string) :
  includes_char c s = false -> includes_char c (cut_suffix s) = false.
Proof.
  induction s as [|a r IH]; simpl; [reflexivity |].
  intros H. apply orb_false_iff in H as [Ha Hr].
  destruct (Ascii.eqb a "-"%char && negb (has_line_terminator r)); simpl;
    [reflexivity | rewrite Ha, IH; auto].
Qed.

Lemma cut_suffix_no_dash (s : string) :
  has_line_terminator s = false -> includes_char "-"%char (cut_suffix s) = false.
Proof.
  induction s as [|a r IH]; simpl; [reflexivity |].
  intros H. apply orb_false_iff in H as [Ha Hr]. rewrite Hr. simpl.
  rewrite andb_true_r. destruct (Ascii.eqb a "-"%char) eqn:E; simpl;
    [reflexivity | rewrite E, IH; auto].
Qed.

Lemma cut_suffix_no_terminator (s : string) :
  has_line_terminator s = false -> has_line_terminator (cut_suffix s) = false.
Proof.
  induction s as [|a r IH]; simpl; [reflexivity |].
  intros H. apply orb_false_iff in H as [Ha Hr].
  destruct (Ascii.eqb a "-"%char && negb (has_line_terminator r)); simpl;
    [reflexivity | rewrite Ha, IH; auto].
Qed.

Lemma replace_version_facts (s : string) :
  has_line_terminator s = false ->
  includes_char "-"%char (replace_version s) = false
  /\ has_line_terminator (replace_version s) = false
  /\ (includes_char "."%char s = false ->
      includes_char "."%char (replace_version s) = false).
Proof.
  destruct s as [|a r]; [intros _; repeat split |].
  intros H. unfold replace_version.
  destruct (Ascii.eqb a "V"%char).
  - simpl in H. apply orb_false_iff in H as [Ha Hr]. repeat split.
    + apply cut_suffix_no_dash, Hr.
    + apply cut_suffix_no_terminator, Hr.
    + simpl. intros Hd. apply orb_false_iff in Hd as [_ Hd].
      apply cut_suffix_keeps_absent, Hd.
  - repeat split.
    + apply cut_suffix_no_dash, H.
    + apply cut_suffix_no_terminator, H.
    + apply cut_suffix_keeps_absent.
Qed.

Lemma match_chars_nil (s : string) :
  has_line_terminator s = false -> match_chars s = [] -> s = EmptyString.
Proof.
  destruct s as [|a r]; [reflexivity |]. simpl. intros H.
  apply orb_false_iff in H as [Ha _]. rewrite Ha. discriminate.
Qed.

(** The characters of a string, joined by dots. *)
Lemma join_match_chars (s : string) :
  has_line_terminator s = false ->
  includes_char "-"%char (join "." (match_chars s)) = includes_char "-"%char s
  /\ (includes_char "."%char s = false ->
      without "."%char (join "." (match_chars s)) = s)
  /\ String.length (join "." (match_chars s)) = (2 * String.length s - 1)%nat.
Proof.
  induction s as [|a r IH]; [intros _; repeat split |].
  simpl. intros H. apply orb_false_iff in H as [Ha Hr]. rewrite Ha.
  destruct (IH Hr) as (IHd & IHw & IHl).
  destruct (match_chars r) as [|x l] eqn:E.
  - apply (match_chars_nil r Hr) in E. subst r. simpl.
    repeat split. intros Hd. rewrite orb_false_r in Hd. rewrite Hd. reflexivity.
  - assert (Hlen : (1 <= String.length r)%nat).
    { destruct r; [discriminate | simpl; lia]. }
    change (join "." (String a EmptyString :: x :: l))
      with (String a EmptyString +:+ "." +:+ join "." (x :: l)).
    repeat split.
    + rewrite !includes_char_append, IHd. simpl. rewrite orb_false_r. reflexivity.
    + intros Hd. apply orb_false_iff in Hd as [Hda Hdr].
      rewrite !without_append, (IHw Hdr). simpl. rewrite Hda. reflexivity.
    + rewrite !length_append, IHl. simpl. lia.
Qed.

(** ** deviceBase *)

Module deviceBaseFacts.
Import deviceBase.

(** *** Status codes *)

Lemma selfHub_test (this : t) :
  strict_eq_str (hubDeviceId (device this)) (deviceId (device this))
  || strict_eq_str (hubDeviceId (device this)) "000000000000" = true
  <-> selfHub this.
Proof.
  unfold selfHub, strict_eq_str. rewrite orb_true_iff.
  destruct (hubDeviceId (device this)) as [h|].
  - rewrite !String.eqb_eq.
    split; intros [H|H]; [left|right|left|right]; congruence.
  - split; intros [H|H]; discriminate.
Qed.

(** C5.  The status code the classifier works on is 161 when the code
    passed is 171 and the hub id of the device is its own id or the
    all-zero placeholder; in every other case it is the code passed.  The
    log entry [statusCode] writes is the classification of that code. *)
Theorem statusCode_remap_171 (this : t) (code : Z) :
  ((code = 171%Z /\ selfHub this) /\ remapStatusCode this code = 161%Z
   \/ ~ (code = 171%Z /\ selfHub this) /\ remapStatusCode this code = code)
  /\ exec (statusCode code) this
     = set_events (fun es => es ++ [classify this (remapStatusCode this code)]) this.
Proof.
  split; [| reflexivity].
  unfold remapStatusCode.
  destruct ((code =? 171)%Z
            && (strict_eq_str (hubDeviceId (device this)) (deviceId (device this))
                || strict_eq_str (hubDeviceId (device this)) "000000000000"))
    eqn:E.
  - left. apply andb_true_iff in E as [Hc Hs].
    apply Z.eqb_eq in Hc. apply selfHub_test in Hs. auto.
  - right. split; [| reflexivity].
    intros [Hc Hs]. apply Z.eqb_eq in Hc. apply selfHub_test in Hs.
    rewrite Hc, Hs in E. discriminate.
Qed.

(** The two classifications differ, so the remap shows in the log. *)
Example statusCode_171_self_hub :
  events (exec (statusCode 171) (new Sample.platform ∅ (Sample.device "OpenAPI")))
  = [Log errorLog "Device is offline, statusCode: 161"].
Proof. vm_compute. reflexivity. Qed.

(** *** Cloud status codes *)

Lemma successfulStatusCodes_iff (code : Z) :
  successfulStatusCodes code = true <-> code = 100%Z \/ code = 200%Z.
Proof.
  unfold successfulStatusCodes. rewrite orb_true_iff, !Z.eqb_eq. tauto.
Qed.

(** *** Publishing a characteristic *)

Lemma exec_emit (e : Event) (this : t) :
  exec (emit e) this = set_events (fun es => es ++ [e]) this.
Proof. reflexivity. Qed.

Lemma exec_mqtt (name : string) (v : CharacteristicValue) (this : t) :
  exec (mqtt name v) this
  = set_events (fun es => es ++ (if truthy_str (mqttURL (device this))
                                 then [MqttPublish name v] else [])) this.
Proof.
  unfold mqtt, exec, bind, gets; simpl.
  destruct (truthy_str (mqttURL (device this))); simpl.
  - reflexivity.
  - destruct this; unfold set_events; simpl. rewrite app_nil_r. reflexivity.
Qed.

(** What [updateCharacteristic] leaves behind for a defined value. *)
Lemma exec_updateCharacteristic (c : Characteristic.t) (v : CharacteristicValue)
    (name : string) (this : t) :
  exec (updateCharacteristic c (Some v) name) this
  = {| platform := platform this; device := device this;
       context := <[name := v]> (context this);
       hapValues := <[c := v]> (hapValues this);
       deviceRefreshRate := deviceRefreshRate this;
       deviceUpdateRate := deviceUpdateRate this;
       devicePushRate := devicePushRate this;
       deviceMaxRetries := deviceMaxRetries this;
       deviceDelayBetweenRetries := deviceDelayBetweenRetries this;
       scanDuration := scanDuration this;
       historyService := historyService this;
       events := events this
                 ++ (if truthy_str (mqttURL (device this))
                     then [MqttPublish name v] else [])
                 ++ (if history (device this) && historyService this
                     then [HistoryEntry] else [])
                 ++ [HostUpdate c v; ContextWrite name v] |}.
Proof.
  unfold updateCharacteristic.
  rewrite exec_bind, exec_mqtt.
  generalize (if truthy_str (mqttURL (device this))
              then [MqttPublish name v] else []).
  intros mq.
  rewrite exec_bind.
  change (exec (gets id) ?s) with s. change (fst (gets id ?s)) with s.
  rewrite exec_bind, exec_if, exec_emit, exec_skip.
  change (history (device (set_events (fun es => es ++ mq) this))
          && historyService (set_events (fun es => es ++ mq) this))
    with (history (device this) && historyService this).
  rewrite !exec_bind, !exec_modify, !exec_emit.
  destruct (history (device this) && historyService this);
    destruct this as [pf dv cx hv r1 r2 r3 r4 r5 r6 hi ev];
    lazy beta iota delta [set_events set_context set_hapValues platform device
      context hapValues deviceRefreshRate deviceUpdateRate devicePushRate
      deviceMaxRetries deviceDelayBetweenRetries scanDuration historyService
      events];
    rewrite <- !app_assoc; reflexivity.
Qed.

(** C7.  [updateCharacteristic] with an undefined value changes nothing:
    neither the host nor [accessory.context].  With a defined value [v] it
    sets the context entry of the characteristic name to [v], the value the
    host now shows for the characteristic, and the context write is the
    last effect, coming right after the host update with the same value;
    what precedes them touches neither the host nor the context. *)
Theorem updateCharacteristic_published (this : t) (c : Characteristic.t)
    (name : string) :
  exec (updateCharacteristic c None name) this = this
  /\ forall v : CharacteristicValue,
       context (exec (updateCharacteristic c (Some v) name) this)
       = <[name := v]> (context this)
       /\ context (exec (updateCharacteristic c (Some v) name) this) !! name = Some v
       /\ hapValues (exec (updateCharacteristic c (Some v) name) this) !! c = Some v
       /\ exists pre : list Event,
            events (exec (updateCharacteristic c (Some v) name) this)
            = events this ++ pre ++ [HostUpdate c v; ContextWrite name v]
            /\ Forall quiet pre.
Proof.
  split; [reflexivity |].
  intros v. rewrite exec_updateCharacteristic; simpl.
  split; [reflexivity |].
  split; [apply lookup_insert_eq |].
  split; [apply lookup_insert_eq |].
  exists ((if truthy_str (mqttURL (device this)) then [MqttPublish name v] else [])
          ++ (if history (device this) && historyService this
              then [HistoryEntry] else [])).
  split.
  - rewrite <- !app_assoc. reflexivity.
  - destruct (truthy_str (mqttURL (device this)));
      destruct (history (device this) && historyService this); simpl;
      repeat constructor.
Qed.

(** *** Rates *)

Lemma scanDuration_after_rates (dev : devicesConfig) (this : t) :
  scanDuration (exec (getDeviceRateSettings dev) this)
  = Qmax (nullish (settings.scanDuration dev) 1)
         (if Qgtb (deviceUpdateRate (exec (getDeviceRateSettings dev) this)) 1
          then deviceUpdateRate (exec (getDeviceRateSettings dev) this) else 1).
Proof.
  unfold getDeviceRateSettings, exec, bind, gets, modify, log, emit, skip, ret;
    simpl.
  destruct (BLE this); simpl; [| reflexivity].
  match goal with |- context [if ?b then _ else _] =>
    destruct b eqn:E end; reflexivity.
Qed.

(** C10.  After [getDeviceRateSettings] the scan duration is at least 1, at
    least the configured scan duration, and, when the effective update rate
    exceeds 1, at least that rate.  On a BLE device a configured (non-zero)
    scan duration below the update rate is reported with a warning, and
    nothing else is logged. *)
Theorem getDeviceRateSettings_scanDuration (dev : devicesConfig) (this : t) :
  1 <= scanDuration (exec (getDeviceRateSettings dev) this)
  /\ nullish (settings.scanDuration dev) 1
     <= scanDuration (exec (getDeviceRateSettings dev) this)
  /\ (1 < deviceUpdateRate (exec (getDeviceRateSettings dev) this) ->
      deviceUpdateRate (exec (getDeviceRateSettings dev) this)
      <= scanDuration (exec (getDeviceRateSettings dev) this))
  /\ events (exec (getDeviceRateSettings dev) this)
     = events this
       ++ (if BLE this
              && (truthy_num (settings.scanDuration dev)
                  && Qgtb (deviceUpdateRate (exec (getDeviceRateSettings dev) this))
                          (nullish (settings.scanDuration dev) 0))
           then [Log warnLog "scanDuration is less than updateRate, overriding scanDuration with updateRate"]
           else []).
Proof.
  rewrite scanDuration_after_rates.
  set (rate := deviceUpdateRate (exec (getDeviceRateSettings dev) this)).
  repeat split.
  - destruct (Qgtb rate 1) eqn:E.
    + apply Qgtb_gt in E.
      apply Qle_trans with rate; [apply Qlt_le_weak, E | apply Q.le_max_r].
    + apply Q.le_max_r.
  - apply Q.le_max_l.
  - intros H. apply Qgtb_gt in H. rewrite H. apply Q.le_max_r.
  - subst rate.
    unfold getDeviceRateSettings, exec, bind, gets, modify, log, emit, skip, ret;
      simpl.
    destruct (BLE this); simpl; [| rewrite app_nil_r; reflexivity].
    match goal with |- context [if ?b then _ else _] =>
      destruct b eqn:E end; simpl; rewrite ?E; rewrite ?app_nil_r; reflexivity.
Qed.

Lemma getDeviceRateSettings_scanDuration_witness :
  1 < deviceUpdateRate
        (exec (getDeviceRateSettings (Sample.device_rates 2 5))
              (new Sample.platform ∅ (Sample.device_rates 2 5)))
  /\ deviceUpdateRate
       (exec (getDeviceRateSettings (Sample.device_rates 2 5))
             (new Sample.platform ∅ (Sample.device_rates 2 5)))
     <= scanDuration
          (exec (getDeviceRateSettings (Sample.device_rates 2 5))
                (new Sample.platform ∅ (Sample.device_rates 2 5))).
Proof.
  split; [reflexivity |].
  apply (getDeviceRateSettings_scanDuration (Sample.device_rates 2 5)
           (new Sample.platform ∅ (Sample.device_rates 2 5))).
  reflexivity.
Defined.

(** A configured scan of 2 s under an update rate of 5 s: the scan runs
    for 5 s and the override is warned about. *)
Example getDeviceRateSettings_override :
  scanDuration (new Sample.platform ∅ (Sample.device_rates 2 5)) = 5
  /\ events (new Sample.platform ∅ (Sample.device_rates 2 5))
     = [Log warnLog "scanDuration is less than updateRate, overriding scanDuration with updateRate"].
Proof. split; vm_compute; reflexivity. Qed.

(** *** Retrying *)

(** [retryBLE] with a budget of [n] retries, from call number [call] on. *)
Lemma retryBLE_from {A : Type} (fn : nat -> Outcome A) (n : nat) :
  forall (fuel call : nat) (this : t),
    (n < fuel)%nat ->
    exists k : nat,
      (k <= n)%nat
      /\ (forall j, (j < k)%nat -> exists e, fn (call + j)%nat = Rejected e)
      /\ (k < n -> exists a, fn (call + k)%nat = Resolved a)%nat
      /\ fst (retryBLE fuel (Z.of_nat n) fn call this) = Settles (fn (call + k)%nat)
      /\ events (exec (retryBLE fuel (Z.of_nat n) fn call) this)
         = events this ++ retry_log fn call k.
Proof.
  induction n as [|n IH]; intros fuel call this Hfuel;
    (destruct fuel as [|fuel]; [lia |]).
  - exists 0%nat. rewrite Nat.add_0_r. cbn [retryBLE retry_log].
    repeat split; try lia.
    + destruct (fn call); reflexivity.
    + destruct (fn call); cbn; rewrite app_nil_r; reflexivity.
  - cbn [retryBLE]. destruct (fn call) as [a|e] eqn:E.
    + exists 0%nat. rewrite Nat.add_0_r. cbn [retry_log].
      repeat split; try lia.
      * intros _. exists a. exact E.
      * cbn. rewrite E. reflexivity.
      * cbn. rewrite app_nil_r. reflexivity.
    + replace (Z.of_nat (S n) =? 0)%Z with false by (symmetry; apply Z.eqb_neq; lia).
      replace (Z.of_nat (S n) - 1)%Z with (Z.of_nat n) by lia.
      set (this1 := exec (log infoLog "Retrying") (exec (log warnLog e) this)).
      destruct (IH fuel (S call) this1 ltac:(lia)) as (k & Hk & Hrej & Hres & Hout & Hev).
      exists (S k). repeat split.
      * lia.
      * intros j Hj. destruct j as [|j].
        -- rewrite Nat.add_0_r. exists e. exact E.
        -- replace (call + S j)%nat with (S call + j)%nat by lia.
           apply Hrej. lia.
      * intros Hlt. replace (call + S k)%nat with (S call + k)%nat by lia.
        apply Hres. lia.
      * replace (call + S k)%nat with (S call + k)%nat by lia.
        rewrite <- Hout. reflexivity.
      * cbn [retry_log]. rewrite E.
        change (exec (log warnLog e ;; log infoLog "Retrying" ;;
                      retryBLE fuel (Z.of_nat n) fn (S call)) this)
          with (exec (retryBLE fuel (Z.of_nat n) fn (S call)) this1).
        rewrite Hev. subst this1. cbn. rewrite <- !app_assoc. reflexivity.
Qed.

(** X1.  With a retry budget [n >= 0], [retryBLE] settles (given fuel for
    [n + 1] calls): it calls [fn] until the first call that resolves, at
    most [n + 1] times, and settles to the outcome of the last call made;
    the calls before it were all rejected and each left one warning and
    one "Retrying" entry in the log. *)
Theorem retryBLE_bounded {A : Type} (fn : nat -> Outcome A) (n fuel : nat) (this : t) :
  (n < fuel)%nat ->
  exists k : nat,
    (k <= n)%nat
    /\ (forall j, (j < k)%nat -> exists e, fn j = Rejected e)
    /\ (k < n -> exists a, fn k = Resolved a)%nat
    /\ fst (retryBLE fuel (Z.of_nat n) fn 0 this) = Settles (fn k)
    /\ events (exec (retryBLE fuel (Z.of_nat n) fn 0) this)
       = events this ++ retry_log fn 0 k.
Proof.
  intros Hfuel. exact (retryBLE_from fn n fuel 0%nat this Hfuel).
Qed.

Lemma retryBLE_bounded_witness :
  exists k : nat,
    (k <= 2)%nat
    /\ (forall j, (j < k)%nat ->
        exists e, (fun c : nat => if (c <? 1)%nat then Rejected "busy" else Resolved c) j
                  = Rejected e)
    /\ (k < 2 -> exists a,
          (fun c : nat => if (c <? 1)%nat then Rejected "busy" else Resolved c) k
          = Resolved a)%nat
    /\ fst (retryBLE 3 (Z.of_nat 2)
              (fun c : nat => if (c <? 1)%nat then Rejected "busy" else Resolved c) 0
              (new Sample.platform ∅ (Sample.device "BLE")))
       = Settles ((fun c : nat => if (c <? 1)%nat then Rejected "busy" else Resolved c) k)
    /\ events (exec (retryBLE 3 (Z.of_nat 2)
                       (fun c : nat => if (c <? 1)%nat then Rejected "busy" else Resolved c) 0)
                    (new Sample.platform ∅ (Sample.device "BLE")))
       = events (new Sample.platform ∅ (Sample.device "BLE"))
         ++ retry_log (fun c : nat => if (c <? 1)%nat then Rejected "busy" else Resolved c) 0 k.
Proof.
  apply (retryBLE_bounded
           (fun c : nat => if (c <? 1)%nat then Rejected "busy" else Resolved c)
           2 3 (new Sample.platform ∅ (Sample.device "BLE"))).
  lia.
Defined.

(** X2.  With a negative budget the test [max === 0] never holds: while
    [fn] keeps rejecting, [retryBLE] keeps retrying; whatever the number of
    calls it is given, it has not settled and has logged every one of
    them. *)
Theorem retryBLE_negative_budget {A : Type} (fn : nat -> Outcome A) (max : Z) :
  (max < 0)%Z ->
  (forall j, exists e, fn j = Rejected e) ->
  forall (fuel call : nat) (this : t),
    fst (retryBLE fuel max fn call this) = StillRetrying
    /\ events (exec (retryBLE fuel max fn call) this)
       = events this ++ retry_log fn call fuel
    /\ length (retry_log fn call fuel) = (2 * fuel)%nat.
Proof.
  intros Hmax Hrej fuel. revert max Hmax.
  induction fuel as [|fuel IH]; intros max Hmax call this.
  - cbn. rewrite app_nil_r. repeat split.
  - cbn [retryBLE retry_log]. destruct (Hrej call) as [e E]. rewrite E.
    replace (max =? 0)%Z with false by (symmetry; apply Z.eqb_neq; lia).
    set (this1 := exec (log infoLog "Retrying") (exec (log warnLog e) this)).
    destruct (IH (max - 1)%Z ltac:(lia) (S call) this1) as (Hout & Hev & Hlen).
    repeat split.
    + exact Hout.
    + change (exec (log warnLog e ;; log infoLog "Retrying" ;;
                    retryBLE fuel (max - 1) fn (S call)) this)
        with (exec (retryBLE fuel (max - 1) fn (S call)) this1).
      rewrite Hev. subst this1. cbn. rewrite <- !app_assoc. reflexivity.
    + cbn [app length]. rewrite Hlen. lia.
Qed.

Lemma retryBLE_negative_budget_witness :
  fst (retryBLE 4 (-1) (fun _ : nat => @Rejected unit "timeout") 0
         (new Sample.platform ∅ (Sample.device "BLE")))
  = StillRetrying
  /\ events (exec (retryBLE 4 (-1) (fun _ : nat => @Rejected unit "timeout") 0)
                  (new Sample.platform ∅ (Sample.device "BLE")))
     = events (new Sample.platform ∅ (Sample.device "BLE"))
       ++ retry_log (fun _ : nat => @Rejected unit "timeout") 0 4
  /\ length (retry_log (fun _ : nat => @Rejected unit "timeout") 0 4) = (2 * 4)%nat.
Proof.
  apply (retryBLE_negative_budget (fun _ : nat => @Rejected unit "timeout") (-1)).
  - lia.
  - intros j. exists "timeout". reflexivity.
Defined.

(** *** MQTT topic *)

(** X3.  The [mac] of the MQTT topic is undefined exactly for an undefined
    or empty device id.  Otherwise, for an id without colons, it is the
    lower-cased id with a colon after every second character: taking the
    colons out gives the lower-cased id back, and an id of [n] characters
    gives [n + (n - 1) / 2] characters (12 give the 17 of
    xx:xx:xx:xx:xx:xx). *)
Theorem mqttMac_shape (id : string) :
  mqttMac None = None
  /\ (mqttMac (Some id) = None <-> id = EmptyString)
  /\ (includes_char ":"%char id = false ->
      forall mac, mqttMac (Some id) = Some mac ->
        without ":"%char mac = toLowerCase id
        /\ String.length mac
           = (String.length id + (String.length id - 1) / 2)%nat).
Proof.
  split; [reflexivity |]. split.
  - unfold mqttMac. destruct (match_pairs (toLowerCase id)) as [|x l] eqn:E.
    + apply match_pairs_nil in E. split; [| reflexivity].
      intros _. destruct id; [reflexivity | discriminate].
    + split; [discriminate |]. intros ->. discriminate.
  - intros Hcolon mac. unfold mqttMac.
    rewrite <- includes_colon_toLowerCase in Hcolon.
    destruct (join_match_pairs _ Hcolon) as [Hw Hl].
    destruct (match_pairs (toLowerCase id)) as [|x l] eqn:E; [discriminate |].
    intros [= <-]. rewrite length_toLowerCase in Hl. split; assumption.
Qed.

Lemma mqttMac_shape_witness :
  without ":"%char "aa:bb:cc:dd:ee:ff" = toLowerCase "AABBCCDDEEFF"
  /\ String.length "aa:bb:cc:dd:ee:ff"
     = (String.length "AABBCCDDEEFF" + (String.length "AABBCCDDEEFF" - 1) / 2)%nat.
Proof.
  apply (mqttMac_shape "AABBCCDDEEFF").
  - reflexivity.
  - reflexivity.
Defined.

(** The topic of the sample device. *)
Example mqttPublish_topic_sample :
  mqttPublish_topic "WoIOSensor" (Some "AABBCCDDEEFF") (Some "BatteryLevel")
  = "homebridge-switchbot/WoIOSensor/aa:bb:cc:dd:ee:ff/BatteryLevel"
  /\ mqttPublish_topic "WoIOSensor" (Some "") None
     = "homebridge-switchbot/WoIOSensor/undefined".
Proof. split; reflexivity. Qed.

(** *** The radio scan *)

Lemma last_cons {A : Type} (x d : A) (l : list A) :
  List.last (x :: l) d = List.last l x.
Proof.
  revert x d. induction l as [|y l IH]; intros x d; [reflexivity |].
  change (List.last (x :: y :: l) d) with (List.last (y :: l) d).
  rewrite (IH y d), (IH y x). reflexivity.
Qed.

(** X4.  A scan returns the service data of the last advertisement
    received whose address is the device's and whose model is the
    device's, and the payload it started from when there is none.  So when
    the initial payload carries the device's model, as the one the method
    builds does, the payload returned always carries that model. *)
Theorem scanned_last_match {SD : Type} (model_of : SD -> SwitchBotBLEModel)
    (bleMac : option string) (bleModel : SwitchBotBLEModel)
    (initial : SD) (ads : list (ad SD)) :
  scanned model_of bleMac bleModel initial ads
  = List.last
      (map serviceData
         (List.filter
            (fun a => strict_eq_str bleMac (address a)
                      && bool_decide (model_of (serviceData a) = bleModel))
            ads))
      initial
  /\ (model_of initial = bleModel ->
      model_of (scanned model_of bleMac bleModel initial ads) = bleModel).
Proof.
  split.
  - revert initial. induction ads as [|a ads IH]; intros initial; [reflexivity |].
    unfold scanned in *. cbn [fold_left List.filter]. rewrite IH.
    unfold onadvertisement.
    destruct (strict_eq_str bleMac (address a)
              && bool_decide (model_of (serviceData a) = bleModel)).
    + cbn [map]. rewrite last_cons. reflexivity.
    + reflexivity.
  - revert initial. induction ads as [|a ads IH]; intros initial H; [exact H |].
    unfold scanned in *. cbn [fold_left]. apply IH.
    unfold onadvertisement.
    destruct (strict_eq_str bleMac (address a)) as [|]; [| exact H].
    destruct (bool_decide (model_of (serviceData a) = bleModel)) eqn:E;
      [| exact H].
    apply bool_decide_eq_true in E. exact E.
Qed.

Lemma scanned_last_match_witness :
  IOSensor.ServiceData.model
    (scanned IOSensor.ServiceData.model (Some "aa:bb:cc:dd:ee:ff") Model_OutdoorMeter
       (Sample.payload None 0 0)
       [ {| address := "aa:bb:cc:dd:ee:ff"; serviceData := Sample.payload (Some 45) 22 60 |};
         {| address := "aa:bb:cc:dd:ee:ff"; serviceData := Sample.foreign_payload |};
         {| address := "11:22:33:44:55:66"; serviceData := Sample.payload (Some 9) 1 2 |} ])
  = Model_OutdoorMeter.
Proof.
  apply (scanned_last_match IOSensor.ServiceData.model (Some "aa:bb:cc:dd:ee:ff")
           Model_OutdoorMeter (Sample.payload None 0 0)).
  reflexivity.
Defined.

(** *** Firmware version *)

(** X5.  For a version string without line terminators, the revision
    [getDeviceContext] hands to the host never has a ['-']: a suffix such
    as "-beta" is cut off.  A version with a dot is otherwise kept, but for
    one leading 'V'.  A version without a dot has its remaining characters
    separated by dots (so [n] characters become [2 n - 1]), and is
    "0.0.0" when nothing remains. *)
Theorem deviceVersion_shape (firmware version context_version platform_version : option string) :
  has_line_terminator
    (deviceFirmwareVersion firmware version context_version platform_version)
  = false ->
  includes_char "-"%char
    (deviceVersion firmware version context_version platform_version) = false
  /\ (includes_char "."%char
        (deviceFirmwareVersion firmware version context_version platform_version)
      = true ->
      deviceVersion firmware version context_version platform_version
      = replace_version
          (deviceFirmwareVersion firmware version context_version platform_version))
  /\ (includes_char "."%char
        (deviceFirmwareVersion firmware version context_version platform_version)
      = false ->
      (replace_version
         (deviceFirmwareVersion firmware version context_version platform_version)
       = EmptyString
       /\ deviceVersion firmware version context_version platform_version = "0.0.0")
      \/ (replace_version
            (deviceFirmwareVersion firmware version context_version platform_version)
          <> EmptyString
          /\ without "."%char
               (deviceVersion firmware version context_version platform_version)
             = replace_version
                 (deviceFirmwareVersion firmware version context_version platform_version)
          /\ String.length
               (deviceVersion firmware version context_version platform_version)
             = (2 * String.length
                      (replace_version
                         (deviceFirmwareVersion firmware version context_version
                            platform_version)) - 1)%nat)).
Proof.
  unfold deviceVersion.
  generalize (deviceFirmwareVersion firmware version context_version platform_version).
  intros v Hlt. cbv zeta.
  destruct (replace_version_facts v Hlt) as (Hdash & Hlt' & Hdot).
  destruct (join_match_chars (replace_version v) Hlt') as (Jd & Jw & Jl).
  destruct (includes_char "."%char v) eqn:Ev; cbn [negb].
  - split; [exact Hdash |]. split; [reflexivity | discriminate].
  - destruct (match_chars (replace_version v)) as [|x l] eqn:E.
    + apply (match_chars_nil _ Hlt') in E.
      split; [reflexivity |]. split; [discriminate |].
      intros _. left. split; [exact E | reflexivity].
    + split; [rewrite Jd; exact Hdash |]. split; [discriminate |].
      intros _. right. split; [| split].
      * intros H. rewrite H in E. discriminate.
      * apply Jw, Hdot. reflexivity.
      * exact Jl.
Qed.

Lemma deviceVersion_shape_witness :
  includes_char "-"%char (deviceVersion None (Some "V35-rc1") None None) = false.
Proof.
  apply (deviceVersion_shape None (Some "V35-rc1") None None).
  reflexivity.
Defined.

Example deviceVersion_samples :
  deviceVersion None (Some "V35-rc1") None None = "3.5"
  /\ deviceVersion (Some "V1.2-beta") (Some "V35") None None = "1.2"
  /\ deviceVersion None None None None = "0.0.0"
  /\ deviceVersion None (Some "V") None None = "0.0.0".
Proof. repeat split; reflexivity. Qed.

(** *** Device context *)

Lemma row_In {A : Type} (table : list (string * A)) (key : string) (v : A) :
  row table key = Some v -> In v (map snd table).
Proof.
  induction table as [|[k x] rest IH]; simpl; [discriminate |].
  destruct (String.eqb k key); [intros [= ->]; left; reflexivity |].
  intros H. right. apply IH, H.
Qed.

Lemma deviceConfig_In (deviceType : string) :
  In (deviceConfig deviceType) (defaultDevice :: map snd deviceMapping).
Proof.
  unfold deviceConfig. destruct (row deviceMapping deviceType) as [v|] eqn:E.
  - right. apply (row_In _ _ _ E).
  - left. reflexivity.
Qed.

(** X6.  Whatever the device type, known to [deviceMapping] or not: the
    BLE model name is determined by the BLE model (two device types with
    the same BLE model have the same BLE model name), and the model is
    [Unknown] exactly when the model name is. *)
Theorem deviceConfig_consistent (type1 type2 : string) :
  (ctx_bleModel (deviceConfig type1) = ctx_bleModel (deviceConfig type2) ->
   ctx_bleModelName (deviceConfig type1) = ctx_bleModelName (deviceConfig type2))
  /\ (ctx_bleModel (deviceConfig type1) = Model_Unknown
      <-> ctx_bleModelName (deviceConfig type1) = Name_Unknown).
Proof.
  assert (Hall :
    forallb (fun r1 =>
      forallb (fun r2 =>
        implb (bool_decide (ctx_bleModel r1 = ctx_bleModel r2))
              (bool_decide (ctx_bleModelName r1 = ctx_bleModelName r2)))
        (defaultDevice :: map snd deviceMapping)
      && eqb (bool_decide (ctx_bleModel r1 = Model_Unknown))
             (bool_decide (ctx_bleModelName r1 = Name_Unknown)))
      (defaultDevice :: map snd deviceMapping) = true)
    by (vm_compute; reflexivity).
  rewrite forallb_forall in Hall.
  pose proof (Hall _ (deviceConfig_In type1)) as H1.
  apply andb_true_iff in H1 as [H1 Hu].
  rewrite forallb_forall in H1.
  pose proof (H1 _ (deviceConfig_In type2)) as H12.
  split.
  - intros E. rewrite (bool_decide_eq_true_2 _ E) in H12.
    apply bool_decide_eq_true in H12. exact H12.
  - apply eqb_prop in Hu. split; intros E.
    + rewrite (bool_decide_eq_true_2 _ E) in Hu. symmetry in Hu.
      apply bool_decide_eq_true in Hu. exact Hu.
    + rewrite (bool_decide_eq_true_2 _ E) in Hu.
      apply bool_decide_eq_true in Hu. exact Hu.
Qed.

Lemma deviceConfig_consistent_witness :
  ctx_bleModelName (deviceConfig "Plug") = ctx_bleModelName (deviceConfig "Plug Mini (US)").
Proof.
  apply (deviceConfig_consistent "Plug" "Plug Mini (US)").
  reflexivity.
Defined.

(** The rows of the two sensor classes, and a type the table lacks. *)
Example deviceConfig_samples :
  deviceConfig "WoIOSensor"
  = entry Device_OutdoorMeter Model_OutdoorMeter Name_OutdoorMeter Friendly_OutdoorMeter
  /\ deviceConfig "Motion Sensor"
     = entry Device_MotionSensor Model_MotionSensor Name_MotionSensor Friendly_MotionSensor
  /\ deviceConfig "Toaster" = defaultDevice.
Proof. repeat split; reflexivity. Qed.

(** *** Publishing, the other entries *)



(** [updateCharacteristic] in one formula, for a value defined or not. *)
Lemma exec_updateCharacteristic_put (c : Characteristic.t)
    (v : option CharacteristicValue) (name : string) (this : t) :
  exec (updateCharacteristic c v name) this
  = {| platform := platform this; device := device this;
       context := put name v (context this);
       hapValues := put c v (hapValues this);
       deviceRefreshRate := deviceRefreshRate this;
       deviceUpdateRate := deviceUpdateRate this;
       devicePushRate := devicePushRate this;
       deviceMaxRetries := deviceMaxRetries this;
       deviceDelayBetweenRetries := deviceDelayBetweenRetries this;
       scanDuration := scanDuration this;
       historyService := historyService this;
       events := events this ++ publication this c v name |}.
Proof.
  destruct v as [v|].
  - rewrite exec_updateCharacteristic. reflexivity.
  - destruct this. unfold publication. cbn [events]. rewrite app_nil_r. reflexivity.
Qed.

Lemma lookup_put `{Countable K} {V : Type} (k k' : K) (v : option V) (m : gmap K V) :
  put k v m !! k'
  = if decide (k = k') then match v with Some x => Some x | None => m !! k' end
    else m !! k'.
Proof.
  unfold put. destruct v as [x|].
  - rewrite lookup_insert. reflexivity.
  - destruct (decide (k = k')); reflexivity.
Qed.

(** *** Status codes, the log level *)

Lemma statusMessages_known (this : t) (c : Z) :
  (In c (100 :: 200 :: failure_codes)%Z -> exists m, statusMessages this c = Some m)
  /\ (~ In c (100 :: 200 :: failure_codes)%Z -> statusMessages this c = None).
Proof.
  split.
  - intros H. simpl in H.
    repeat (destruct H as [<- | H]; [eexists; reflexivity |]). contradiction.
  - intros H. unfold failure_codes in H. simpl in H.
    destruct c as [|p|p]; [reflexivity | | reflexivity].
    do 10 (try reflexivity; try destruct p as [p|p|]).
    all: try reflexivity.
    all: exfalso; apply H; tauto.
Qed.

(** X7.  The level at which [statusCode] reports a code: debug exactly
    for the codes [successfulStatusCodes] accepts, error exactly for the
    fifteen failure codes of the table, info for every other code, whose
    message then starts with "Unknown statusCode". *)
Theorem statusCode_levels (this : t) (c : Z) :
  (successfulStatusCodes c = true <-> logMethod this c = debugLog)
  /\ (In c failure_codes <-> logMethod this c = errorLog)
  /\ (successfulStatusCodes c = false /\ ~ In c failure_codes
      <-> logMethod this c = infoLog)
  /\ (logMethod this c = infoLog ->
      logMessage this c
      = "Unknown statusCode: " +:+ pretty c
        +:+ ", Submit Bugs Here: https://tinyurl.com/SwitchBotBug").
Proof.
  destruct (statusMessages_known this c) as [Hk Hu].
  assert (Hs : successfulStatusCodes c = true <-> c = 100%Z \/ c = 200%Z)
    by apply successfulStatusCodes_iff.
  unfold logMethod, logMessage.
  destruct (decide (c = 100%Z \/ c = 200%Z)) as [Hok | Hnok].
  - assert (Hb : ((c =? 100)%Z || (c =? 200)%Z) = true).
    { destruct Hok as [-> | ->]; reflexivity. }
    rewrite Hb. apply Hs in Hok as Hok'. rewrite Hok'.
    repeat split; try discriminate; try tauto.
    + intros Hin. exfalso. destruct Hok as [-> | ->];
        simpl in Hin; repeat (destruct Hin as [Hin | Hin]; [discriminate |]);
        contradiction.
    + intros [H _]. discriminate.
  - assert (Hb : ((c =? 100)%Z || (c =? 200)%Z) = false).
    { apply orb_false_iff. split; apply Z.eqb_neq; tauto. }
    rewrite Hb.
    assert (Hf : successfulStatusCodes c = false).
    { apply not_true_is_false. intros H. apply Hs in H. contradiction. }
    rewrite Hf.
    destruct (decide (In c failure_codes)) as [Hin | Hnin].
    + destruct Hk as [m Hm]; [right; right; exact Hin |]. rewrite Hm.
      repeat split; try discriminate; try tauto.
    + rewrite Hu; [| intros [H | [H | H]]; [symmetry in H | symmetry in H |]; tauto].
      repeat split; try discriminate; try tauto.
Qed.

Lemma statusCode_levels_witness :
  logMessage (new Sample.platform ∅ (Sample.device "OpenAPI")) 999
  = "Unknown statusCode: " +:+ pretty 999%Z
    +:+ ", Submit Bugs Here: https://tinyurl.com/SwitchBotBug".
Proof.
  apply (statusCode_levels (new Sample.platform ∅ (Sample.device "OpenAPI")) 999).
  reflexivity.
Defined.

(** *** The firmware version block *)

Lemma exec_firmwareVersion (version : option string) (this : t) :
  exec (firmwareVersion version) this
  = if truthy_str version
    then
      let v := Text (replace_version (nullish version "")) in
      {| platform := platform this; device := device this;
         context := <["version" := v]> (context this);
         hapValues :=
           <[Characteristic.FirmwareRevision := v]>
             (<[Characteristic.FirmwareRevision := v]>
                (<[Characteristic.HardwareRevision := v]> (hapValues this)));
         deviceRefreshRate := deviceRefreshRate this;
         deviceUpdateRate := deviceUpdateRate this;
         devicePushRate := devicePushRate this;
         deviceMaxRetries := deviceMaxRetries this;
         deviceDelayBetweenRetries := deviceDelayBetweenRetries this;
         scanDuration := scanDuration this;
         historyService := historyService this;
         events := events this
                   ++ [HostUpdate Characteristic.HardwareRevision v;
                       HostUpdate Characteristic.FirmwareRevision v;
                       HostUpdate Characteristic.FirmwareRevision v;
                       ContextWrite "version" v] |}
    else this.
Proof.
  unfold firmwareVersion. destruct (truthy_str version); [| reflexivity].
  cbv zeta. generalize (Text (replace_version (nullish version ""))). intros v.
  unfold Service_setCharacteristic, Service_updateCharacteristic.
  rewrite !exec_bind, !exec_modify, !exec_emit.
  destruct this as [pf dv cx hv r1 r2 r3 r4 r5 r6 hi ev].
  lazy beta iota delta [set_events set_context set_hapValues platform device
    context hapValues deviceRefreshRate deviceUpdateRate devicePushRate
    deviceMaxRetries deviceDelayBetweenRetries scanDuration historyService
    events].
  rewrite <- !app_assoc. reflexivity.
Qed.

(** The block leaves the configuration, the platform and the rates as they
    are and contacts no transport: what it adds to the trace are host
    updates and one context write. *)
Lemma firmwareVersion_frame (version : option string) (this : t) :
  device (exec (firmwareVersion version) this) = device this
  /\ platform (exec (firmwareVersion version) this) = platform this
  /\ exists es : list Event,
       events (exec (firmwareVersion version) this) = events this ++ es
       /\ Forall (fun e => match e with
                           | HostUpdate _ _ | ContextWrite _ _ => True
                           | _ => False
                           end) es.
Proof.
  rewrite exec_firmwareVersion. destruct (truthy_str version).
  - cbn. repeat split. eexists. split; [reflexivity |]. repeat constructor.
  - repeat split. exists []. split; [symmetry; apply app_nil_r | constructor].
Qed.

End deviceBaseFacts.

(** ** IOSensor *)

Module IOSensorFacts.
Import IOSensor.

Lemma exec_super {A : Type} (m : Eff deviceBase.t A) (this : t) :
  exec (super m) this = set_base (exec m (base this)) this.
Proof. reflexivity. Qed.

(** *** The decoders, in closed form *)

Lemma exec_BLEparseStatus (sd : ServiceData.t) (this : t) :
  exec (BLEparseStatus sd) this
  = {| base := base this;
       BatteryLevel := nullish (ServiceData.battery sd) (BatteryLevel this);
       StatusLowBattery :=
         match ServiceData.battery sd with
         | Some b => if Qltb b 10 then BATTERY_LEVEL_LOW else BATTERY_LEVEL_NORMAL
         | None => StatusLowBattery this
         end;
       HumiditySensor :=
         if humidityExposed this
         then Some ((fun h => validHumidity h 0 100) <$> ServiceData.humidity sd)
         else HumiditySensor this;
       TemperatureSensor :=
         if temperatureExposed this
         then Some (if lt_num (ServiceData.celsius sd) 0 then Some 0
                    else if gt_num (ServiceData.celsius sd) 100 then Some 100
                    else ServiceData.celsius sd)
         else TemperatureSensor this;
       deviceStatus := deviceStatus this;
       webhookContext := webhookContext this;
       serviceData := serviceData this;
       ioSensorUpdateInProgress := ioSensorUpdateInProgress this |}.
Proof.
  destruct this as [b bl sl hs ts ds wc sd0 fl].
  unfold BLEparseStatus, exec, bind, gets, modify, skip, ret,
    humidityExposed, temperatureExposed, device; simpl.
  destruct (ServiceData.battery sd) as [bat|]; simpl;
    destruct (negb (hide_humidity (deviceBase.device b)) && defined hs); simpl;
    destruct (negb (hide_temperature (deviceBase.device b)) && defined ts); simpl;
    reflexivity.
Qed.

Lemma exec_openAPIparseStatus (st : Status.t) (this : t) :
  exec (openAPIparseStatus st) this
  = {| base := exec (firmwareVersion (Status.version st)) (base this);
       BatteryLevel := Status.battery st;
       StatusLowBattery :=
         if Qltb (Status.battery st) 10
         then BATTERY_LEVEL_LOW else BATTERY_LEVEL_NORMAL;
       HumiditySensor :=
         if humidityExposed this then Some (Some (Status.humidity st))
         else HumiditySensor this;
       TemperatureSensor :=
         if temperatureExposed this then Some (Some (Status.temperature st))
         else TemperatureSensor this;
       deviceStatus := deviceStatus this;
       webhookContext := webhookContext this;
       serviceData := serviceData this;
       ioSensorUpdateInProgress := ioSensorUpdateInProgress this |}.
Proof.
  destruct this as [b bl sl hs ts ds wc sd0 fl].
  unfold openAPIparseStatus, exec, bind, gets, modify, skip, ret, super, zoom,
    humidityExposed, temperatureExposed, device.
  generalize (firmwareVersion (Status.version st)). intros fw. simpl.
  destruct (negb (hide_humidity (deviceBase.device b)) && defined hs); simpl;
    destruct (negb (hide_temperature (deviceBase.device b)) && defined ts); simpl;
    reflexivity.
Qed.

Lemma exec_parseStatusWebhook (convertUnits : Q -> string -> option string -> Q)
    (w : Webhook.t) (this : t) :
  exec (parseStatusWebhook convertUnits w) this
  = {| base :=
         deviceBase.set_events
           (fun es => es ++
              (if negb (String.eqb (Webhook.scale w) "CELSIUS")
                  && negb (defined (convertUnitTo (device this)))
               then [Log warnLog "received a non-CELSIUS Webhook scale"]
               else []))
           (base this);
       BatteryLevel := BatteryLevel this;
       StatusLowBattery := StatusLowBattery this;
       HumiditySensor :=
         if hide_humidity (device this) && defined (HumiditySensor this)
         then Some (Some (Webhook.humidity w)) else HumiditySensor this;
       TemperatureSensor :=
         if hide_temperature (device this) && defined (TemperatureSensor this)
         then Some (Some (convertUnits (Webhook.temperature w) (Webhook.scale w)
                                       (convertUnitTo (device this))))
         else TemperatureSensor this;
       deviceStatus := deviceStatus this;
       webhookContext := webhookContext this;
       serviceData := serviceData this;
       ioSensorUpdateInProgress := ioSensorUpdateInProgress this |}.
Proof.
  destruct this as [b bl sl hs ts ds wc sd0 fl].
  destruct b as [pf dv cx hv r1 r2 r3 r4 r5 r6 hi ev].
  unfold parseStatusWebhook, exec, bind, gets, modify, skip, ret, super, zoom,
    deviceBase.log, deviceBase.emit, device; simpl.
  destruct (negb (String.eqb (Webhook.scale w) "CELSIUS")
            && negb (defined (convertUnitTo dv))); simpl;
    destruct (hide_humidity dv && defined hs); simpl;
    destruct (hide_temperature dv && defined ts); simpl;
    unfold deviceBase.set_events; simpl; rewrite ?app_nil_r; reflexivity.
Qed.

(** *** Steps and the transports they contact *)

Lemma step_refl (this : t) : step_with [] this this.
Proof. split; try reflexivity. symmetry. apply app_nil_r. Qed.

Lemma step_trans (l1 l2 : list Event) (a b c : t) :
  step_with l1 a b -> step_with l2 b c -> step_with (l1 ++ l2) a c.
Proof.
  intros [F1 D1 P1 A1] [F2 D2 P2 A2]. split.
  - congruence.
  - congruence.
  - congruence.
  - rewrite A2, A1. symmetry. apply app_assoc.
Qed.

Lemma step_quiet_l (l : list Event) (a b c : t) :
  step_with [] a b -> step_with l b c -> step_with l a c.
Proof. intros H1 H2. apply (step_trans [] l a b c H1 H2). Qed.

Lemma step_quiet_r (l : list Event) (a b c : t) :
  step_with l a b -> step_with [] b c -> step_with l a c.
Proof.
  intros H1 H2. pose proof (step_trans l [] a b c H1 H2) as H.
  rewrite app_nil_r in H. exact H.
Qed.

Lemma Quiet_skip : Quiet (@skip t).
Proof. intros this. apply step_refl. Qed.

Lemma Quiet_gets {A : Type} (f : t -> A) : Quiet (gets f).
Proof. intros this. apply step_refl. Qed.

Lemma Quiet_bind {A B : Type} (m : Eff t A) (k : A -> Eff t B) :
  Quiet m -> (forall a, Quiet (k a)) -> Quiet (bind m k).
Proof.
  intros Hm Hk this. rewrite exec_bind.
  eapply step_quiet_l; [apply Hm | apply Hk].
Qed.

Lemma Quiet_if {A : Type} (b : bool) (m1 m2 : Eff t A) :
  Quiet m1 -> Quiet m2 -> Quiet (if b then m1 else m2).
Proof. destruct b; auto. Qed.

Lemma Quiet_modify (f : t -> t) :
  (forall this, base (f this) = base this) ->
  (forall this, ioSensorUpdateInProgress (f this) = ioSensorUpdateInProgress this) ->
  Quiet (modify f).
Proof.
  intros Hb Hf this. rewrite exec_modify.
  split; unfold attempts, device; rewrite ?Hb, ?Hf, ?app_nil_r; reflexivity.
Qed.

Lemma attempts_logged (es : list Event) (this : t) :
  attempts (logged es this) = attempts this ++ List.filter is_transport es.
Proof. unfold attempts, logged; simpl. apply List.filter_app. Qed.

Lemma step_logged (es : list Event) (this : t) :
  step_with (List.filter is_transport es) this (logged es this).
Proof. split; try reflexivity. apply attempts_logged. Qed.

Lemma exec_super_emit (e : Event) (this : t) :
  exec (super (deviceBase.emit e)) this = logged [e] this.
Proof. reflexivity. Qed.

Lemma Quiet_log (m : LogMethod) (msg : string) : Quiet (super (deviceBase.log m msg)).
Proof. intros this. apply (step_logged [Log m msg]). Qed.

Lemma Quiet_Service_updateCharacteristic (c : Characteristic.t)
    (v : CharacteristicValue) :
  Quiet (super (deviceBase.Service_updateCharacteristic c v)).
Proof.
  intros this. split; unfold attempts, device; simpl; try reflexivity.
  rewrite List.filter_app. reflexivity.
Qed.

Lemma Quiet_updateCharacteristic (c : Characteristic.t)
    (v : option CharacteristicValue) (name : string) :
  Quiet (super (deviceBase.updateCharacteristic c v name)).
Proof.
  intros this. destruct v as [v|];
    [| split; unfold attempts, device; simpl; rewrite ?app_nil_r; reflexivity].
  rewrite exec_super, deviceBaseFacts.exec_updateCharacteristic.
  split; unfold attempts, device; simpl; try reflexivity.
  rewrite !List.filter_app.
  destruct (truthy_str (mqttURL (deviceBase.device (base this))));
    destruct (history (deviceBase.device (base this))
              && deviceBase.historyService (base this));
    reflexivity.
Qed.

Create HintDb quiet.
#[local] Hint Resolve Quiet_skip Quiet_gets Quiet_bind Quiet_if Quiet_log
  Quiet_Service_updateCharacteristic Quiet_updateCharacteristic : quiet.
#[local] Hint Extern 1 (Quiet (modify _)) =>
  (apply Quiet_modify; intros; reflexivity) : quiet.

Lemma Quiet_BLEparseStatus (sd : ServiceData.t) : Quiet (BLEparseStatus sd).
Proof.
  unfold BLEparseStatus. destruct (ServiceData.battery sd); auto 20 with quiet.
Qed.

Lemma Quiet_firmwareVersion (version : option string) :
  Quiet (super (firmwareVersion version)).
Proof.
  intros this. rewrite exec_super.
  destruct (deviceBaseFacts.firmwareVersion_frame version (base this))
    as (Hd & Hp & es & Hes & Hq).
  split; unfold attempts, device; cbn [set_base base ioSensorUpdateInProgress];
    try assumption; try reflexivity.
  assert (Hno : List.filter is_transport es = []).
  { clear Hes. induction Hq as [|e es He _ IH]; [reflexivity |].
    destruct e; try contradiction; exact IH. }
  rewrite Hes, List.filter_app, Hno. reflexivity.
Qed.

Lemma Quiet_openAPIparseStatus (st : Status.t) : Quiet (openAPIparseStatus st).
Proof.
  unfold openAPIparseStatus.
  pose proof (Quiet_firmwareVersion (Status.version st)).
  auto 20 with quiet.
Qed.

Lemma Quiet_parseStatusWebhook (cu : Q -> string -> option string -> Q)
    (w : Webhook.t) :
  Quiet (parseStatusWebhook cu w).
Proof. unfold parseStatusWebhook. auto 20 with quiet. Qed.

Lemma Quiet_updateHomeKitCharacteristics : Quiet updateHomeKitCharacteristics.
Proof. unfold updateHomeKitCharacteristics. auto 20 with quiet. Qed.

Lemma Quiet_apiError (e : string) : Quiet (apiError e).
Proof. unfold apiError. auto 20 with quiet. Qed.

Lemma Quiet_offlineOff : Quiet offlineOff.
Proof. unfold offlineOff. auto 20 with quiet. Qed.

#[local] Hint Resolve Quiet_BLEparseStatus Quiet_openAPIparseStatus
  Quiet_parseStatusWebhook Quiet_updateHomeKitCharacteristics Quiet_apiError
  Quiet_offlineOff : quiet.

(** *** The refresh cycle *)

Lemma step_openAPIRefreshStatus (env : Env) (this : t) :
  step_with [CloudFetch] this (exec (openAPIRefreshStatus env) this).
Proof.
  unfold openAPIRefreshStatus. rewrite exec_bind.
  eapply step_quiet_r.
  - apply (step_logged [CloudFetch]).
  - change (exec (super (deviceBase.deviceRefreshStatus env)) this)
      with (logged [CloudFetch] this).
    change (fst (super (deviceBase.deviceRefreshStatus env) this))
      with (deviceBase.env_cloud env).
    generalize (logged [CloudFetch] this).
    change (Quiet
      match deviceBase.env_cloud env with
      | deviceBase.Response statusCode body =>
          if deviceBase.successfulStatusCodes statusCode
          then modify (set_deviceStatus body) ;;
               openAPIparseStatus body ;; updateHomeKitCharacteristics
          else skip
      | deviceBase.Throws e =>
          apiError e ;; super (deviceBase.log errorLog "failed openAPIRefreshStatus")
      end).
    destruct (deviceBase.env_cloud env); auto 20 with quiet.
Qed.

Lemma step_BLERefreshConnection (env : Env) (this : t) :
  step_with (if cloudFallback this then [CloudFetch] else []) this
            (exec (BLERefreshConnection env) this).
Proof.
  unfold BLERefreshConnection. rewrite exec_bind.
  eapply step_quiet_l;
    [exact (Quiet_log errorLog "wasn't able to establish BLE Connection" this) |].
  set (this1 := exec (super (deviceBase.log errorLog
                       "wasn't able to establish BLE Connection")) this).
  assert (E : cloudFallback this1 = cloudFallback this) by reflexivity.
  rewrite <- E. clearbody this1. clear E.
  rewrite exec_bind. change (exec (gets id) this1) with this1.
  change (fst (gets id this1)) with this1.
  fold (cloudFallback this1).
  destruct (cloudFallback this1).
  - rewrite exec_bind.
    eapply step_quiet_l;
      [exact (Quiet_log warnLog "Using OpenAPI Connection to Refresh Status" this1)
      | apply step_openAPIRefreshStatus].
  - apply step_refl.
Qed.

Lemma step_BLERefreshStatus (env : Env) (this : t) :
  step_with (radio_attempts env this) this (exec (BLERefreshStatus env) this).
Proof.
  unfold BLERefreshStatus, radio_attempts. rewrite exec_bind.
  change (exec (super (deviceBase.switchbotBLE env)) this)
    with (logged [ConnectBLE] this).
  change (fst (super (deviceBase.switchbotBLE env) this))
    with (deviceBase.env_switchbotBLE env).
  apply (step_trans [ConnectBLE] _ this (logged [ConnectBLE] this));
    [apply (step_logged [ConnectBLE]) |].
  assert (E : cloudFallback (logged [ConnectBLE] this) = cloudFallback this)
    by reflexivity.
  rewrite <- E. generalize (logged [ConnectBLE] this). clear E this.
  intros this.
  destruct (deviceBase.env_switchbotBLE env); cbn [negb orb andb app].
  - rewrite exec_bind.
    change (exec (super (deviceBase.monitorAdvertisementPackets env)) this)
      with (logged [RadioScan] this).
    change (fst (super (deviceBase.monitorAdvertisementPackets env) this))
      with (deviceBase.env_scan env).
    apply (step_trans [RadioScan] _ this (logged [RadioScan] this));
      [apply (step_logged [RadioScan]) |].
    assert (E : cloudFallback (logged [RadioScan] this) = cloudFallback this)
      by reflexivity.
    rewrite <- E. generalize (logged [RadioScan] this). clear E this.
    intros this. fold (accepted (deviceBase.env_scan env)).
    destruct (accepted (deviceBase.env_scan env)); cbn [negb orb andb app].
    + assert (Q : Quiet (modify (set_serviceData (deviceBase.env_scan env)) ;;
                         BLEparseStatus (deviceBase.env_scan env) ;;
                         updateHomeKitCharacteristics))
        by auto 20 with quiet.
      apply Q.
    + rewrite exec_bind.
      eapply step_quiet_l;
        [exact (Quiet_log errorLog "failed to get serviceData" this) |].
      set (this1 := exec (super (deviceBase.log errorLog
                           "failed to get serviceData")) this).
      assert (E : cloudFallback this1 = cloudFallback this) by reflexivity.
      rewrite <- E. apply step_BLERefreshConnection.
  - apply step_BLERefreshConnection.
Qed.

(** The transports a cycle contacts, by the branch of the policy. *)
Lemma step_refreshStatus (env : Env) (this : t) :
  step_with
    match transport_choice this with
    | Abort | Offline => []
    | Radio => radio_attempts env this
    | Cloud => [CloudFetch]
    end
    this (exec (refreshStatus env) this).
Proof.
  unfold refreshStatus, transport_choice, credentialed. rewrite exec_bind.
  change (exec (gets id) this) with this.
  change (fst (gets id this)) with this.
  rewrite (andb_comm (negb (enableCloudService (device this)))
                     (deviceBase.OpenAPI (base this))).
  destruct (deviceBase.OpenAPI (base this)
            && negb (enableCloudService (device this))).
  - apply Quiet_log.
  - destruct (deviceBase.BLE (base this)).
    + apply step_BLERefreshStatus.
    + destruct (deviceBase.OpenAPI (base this)
                && truthy_str (credentials_token (deviceBase.platform (base this)))).
      * apply step_openAPIRefreshStatus.
      * apply Quiet_offlineOff.
Qed.

(** *** Components a computation keeps *)

Lemma Keeps_skip {B : Type} (f : t -> B) : Keeps f (@skip t).
Proof. intros this. reflexivity. Qed.

Lemma Keeps_gets {A B : Type} (f : t -> B) (g : t -> A) : Keeps f (gets g).
Proof. intros this. reflexivity. Qed.

Lemma Keeps_bind {A B C : Type} (f : t -> C) (m : Eff t A) (k : A -> Eff t B) :
  Keeps f m -> (forall a, Keeps f (k a)) -> Keeps f (bind m k).
Proof. intros Hm Hk this. rewrite exec_bind, Hk. apply Hm. Qed.

Lemma Keeps_if {A B : Type} (f : t -> B) (b : bool) (m1 m2 : Eff t A) :
  Keeps f m1 -> Keeps f m2 -> Keeps f (if b then m1 else m2).
Proof. destruct b; auto. Qed.

Lemma Keeps_modify {B : Type} (f : t -> B) (g : t -> t) :
  (forall this, f (g this) = f this) -> Keeps f (modify g).
Proof. intros H this. apply H. Qed.

Lemma Keeps_super {A B : Type} (f : t -> B) (m : Eff deviceBase.t A) :
  (forall b this, f (set_base b this) = f this) -> Keeps f (super m).
Proof. intros H this. apply H. Qed.

Create HintDb keeps.
#[local] Hint Resolve Keeps_skip Keeps_gets Keeps_bind Keeps_if : keeps.
#[local] Hint Extern 1 (Keeps _ (modify _)) =>
  (apply Keeps_modify; intros; reflexivity) : keeps.
#[local] Hint Extern 1 (Keeps _ (super _)) =>
  (apply Keeps_super; intros; reflexivity) : keeps.

Lemma Keeps_updateHomeKitCharacteristics {B : Type} (f : t -> B) :
  (forall b this, f (set_base b this) = f this) ->
  Keeps f updateHomeKitCharacteristics.
Proof.
  intros H. unfold updateHomeKitCharacteristics.
  repeat first [ apply Keeps_bind; [| intros ?] | apply Keeps_if
               | apply Keeps_gets | apply Keeps_skip
               | apply Keeps_super, H ].
Qed.

Lemma Keeps_apiError {B : Type} (f : t -> B) (e : string) :
  (forall b this, f (set_base b this) = f this) -> Keeps f (apiError e).
Proof.
  intros H. unfold apiError.
  repeat first [ apply Keeps_bind; [| intros ?] | apply Keeps_if
               | apply Keeps_gets | apply Keeps_skip
               | apply Keeps_super, H ].
Qed.




Lemma exec_offlineOff (this : t) : exec offlineOff this = offline_fallback this.
Proof.
  destruct this as [b bl sl hs ts ds wc sd0 fl].
  destruct b as [pf dv cx hv r1 r2 r3 r4 r5 r6 hi ev].
  unfold offlineOff, offline_fallback, exec, bind, gets, modify, skip, ret,
    super, zoom, deviceBase.Service_updateCharacteristic, deviceBase.emit,
    humidityExposed, temperatureExposed, device; simpl.
  destruct (offline dv); simpl;
    [ destruct (negb (hide_humidity dv) && defined hs); simpl;
      destruct (negb (hide_temperature dv) && defined ts); simpl |];
    unfold set_base, deviceBase.set_events, deviceBase.set_hapValues; simpl;
    rewrite <- ?app_assoc, ?app_nil_r; reflexivity.
Qed.






(** The two policies differ on one kind of device only: a connection that
    names OpenAPI, with the cloud service enabled and no credential
    stored. *)
Lemma transport_policy_choice (this : t) :
  deviceBase.OpenAPI (base this) && enableCloudService (device this)
    && negb (credentialed this) = false ->
  transport_policy this = transport_choice this.
Proof.
  unfold transport_policy, transport_choice.
  destruct (deviceBase.OpenAPI (base this)), (enableCloudService (device this)),
    (credentialed this); cbn; intros H; try discriminate H; reflexivity.
Qed.

(** C3, as the code has it.  [refreshStatus] follows the
    transport-selection policy in its order, the first branch being on the
    cloud service switched off.  (1) An OpenAPI connection with the cloud
    service not enabled: an error is logged, nothing else happens, no
    transport is contacted.  (2) Else, BLE enabled: the cycle is the radio
    cycle, which starts by asking for the radio.  (3) Else, OpenAPI enabled
    with a stored token: the cycle is the cloud cycle, one cloud request.
    (4) Else, which is also where an OpenAPI connection without a stored
    token ends, the offline fallback: a device marked offline gets 50 %
    humidity and 30 degrees published for the capabilities it exposes, and
    no transport is contacted. *)
Theorem refreshStatus_policy (env : Env) (this : t) :
  match transport_choice this with
  | Abort =>
      exec (refreshStatus env) this
      = logged [Log errorLog "refreshStatus enableCloudService"] this
      /\ attempts (exec (refreshStatus env) this) = attempts this
  | Radio =>
      exec (refreshStatus env) this = exec (BLERefreshStatus env) this
      /\ attempts (exec (refreshStatus env) this)
         = attempts this ++ radio_attempts env this
  | Cloud =>
      exec (refreshStatus env) this = exec (openAPIRefreshStatus env) this
      /\ attempts (exec (refreshStatus env) this) = attempts this ++ [CloudFetch]
  | Offline =>
      exec (refreshStatus env) this = offline_fallback this
      /\ attempts (exec (refreshStatus env) this) = attempts this
  end.
Proof.
  pose proof (step_attempts _ _ _ (step_refreshStatus env this)) as Hatt.
  revert Hatt. unfold refreshStatus, transport_choice, credentialed.
  rewrite exec_bind.
  change (exec (gets id) this) with this.
  change (fst (gets id this)) with this.
  rewrite (andb_comm (negb (enableCloudService (device this)))
                     (deviceBase.OpenAPI (base this))).
  destruct (deviceBase.OpenAPI (base this)
            && negb (enableCloudService (device this))).
  - cbv iota. rewrite app_nil_r. intros Hatt. split; [reflexivity | exact Hatt].
  - destruct (deviceBase.BLE (base this)).
    + cbv iota. intros Hatt. split; [reflexivity | exact Hatt].
    + destruct (deviceBase.OpenAPI (base this)
                && truthy_str (credentials_token (deviceBase.platform (base this)))).
      * cbv iota. intros Hatt. split; [reflexivity | exact Hatt].
      * cbv iota. rewrite app_nil_r. intros Hatt.
        split; [apply exec_offlineOff | exact Hatt].
Qed.

(** C3, as the specification has it, fails.  An OpenAPI device with the
    cloud service enabled and no credential stored is in branch (1) of the
    specified policy, which asks for an error report.  [refreshStatus]
    takes it to branch (4): the device is not marked offline, so the cycle
    leaves the object as it was, and no error is reported. *)
Lemma refreshStatus_without_token :
  transport_policy (new Sample.platform_without_token ∅ (Sample.device "OpenAPI"))
  = Abort
  /\ transport_choice (new Sample.platform_without_token ∅ (Sample.device "OpenAPI"))
     = Offline
  /\ exec (refreshStatus (Sample.env Sample.foreign_payload (deviceBase.Throws "down")))
          (new Sample.platform_without_token ∅ (Sample.device "OpenAPI"))
     = new Sample.platform_without_token ∅ (Sample.device "OpenAPI")
  /\ ~ as_specified (Sample.env Sample.foreign_payload (deviceBase.Throws "down"))
                    (new Sample.platform_without_token ∅ (Sample.device "OpenAPI")).
Proof.
  assert (Hexec :
    exec (refreshStatus (Sample.env Sample.foreign_payload (deviceBase.Throws "down")))
         (new Sample.platform_without_token ∅ (Sample.device "OpenAPI"))
    = new Sample.platform_without_token ∅ (Sample.device "OpenAPI"))
    by (vm_compute; reflexivity).
  split; [vm_compute; reflexivity |].
  split; [vm_compute; reflexivity |].
  split; [exact Hexec |].
  unfold as_specified.
  replace (transport_policy
             (new Sample.platform_without_token ∅ (Sample.device "OpenAPI")))
    with Abort by (vm_compute; reflexivity).
  rewrite Hexec. intros [(before & msg & after & H) _].
  apply (f_equal (@length Event)) in H.
  rewrite !length_app in H. cbn [length] in H. lia.
Qed.

(** The four branches on sample devices. *)
Example refreshStatus_offline_sample :
  transport_choice (new Sample.platform ∅ Sample.device_offline) = Offline
  /\ deviceBase.hapValues
       (base (exec (refreshStatus (Sample.env Sample.foreign_payload (deviceBase.Throws "down")))
                   (new Sample.platform ∅ Sample.device_offline)))
     = {[ Characteristic.CurrentRelativeHumidity := Num 50;
          Characteristic.CurrentTemperature := Num 30 ]}
  /\ deviceBase.events
       (base (exec (refreshStatus (Sample.env Sample.foreign_payload (deviceBase.Throws "down")))
                   (new Sample.platform ∅ Sample.device_offline)))
     = [HostUpdate Characteristic.CurrentRelativeHumidity (Num 50);
        HostUpdate Characteristic.CurrentTemperature (Num 30)].
Proof. repeat split; vm_compute; reflexivity. Qed.

Example refreshStatus_radio_sample :
  transport_choice (Sample.sensor "BLE") = Radio
  /\ attempts (exec (refreshStatus (Sample.env (Sample.payload (Some 45) 22 60)
                                               (deviceBase.Throws "down")))
                    (Sample.sensor "BLE"))
     = [ConnectBLE; RadioScan].
Proof. split; vm_compute; reflexivity. Qed.

Example refreshStatus_cloud_sample :
  transport_choice (Sample.sensor "OpenAPI") = Cloud
  /\ attempts (exec (refreshStatus (Sample.env Sample.foreign_payload
                                               (deviceBase.Response 100 (Sample.status 45 22 60))))
                    (Sample.sensor "OpenAPI"))
     = [CloudFetch].
Proof. split; vm_compute; reflexivity. Qed.



(** The rejected payload leaves the stored values alone; only the failed
    cloud request shows, as the error handed to the host. *)
Example BLERefreshStatus_mismatch_then_cloud_failure :
  BatteryLevel (exec (BLERefreshStatus
                        (Sample.env Sample.foreign_payload (deviceBase.Throws "timeout")))
                     (Sample.sensor "BLE/OpenAPI")) = 100
  /\ HumiditySensor (exec (BLERefreshStatus
                        (Sample.env Sample.foreign_payload (deviceBase.Throws "timeout")))
                     (Sample.sensor "BLE/OpenAPI")) = Some (Some 50)
  /\ deviceBase.events
       (base (exec (BLERefreshStatus
                      (Sample.env Sample.foreign_payload (deviceBase.Throws "timeout")))
                   (Sample.sensor "BLE/OpenAPI")))
     = [ConnectBLE; RadioScan;
        Log errorLog "failed to get serviceData";
        Log errorLog "wasn't able to establish BLE Connection";
        Log warnLog "Using OpenAPI Connection to Refresh Status";
        CloudFetch;
        HostUpdate Characteristic.CurrentRelativeHumidity (Err "timeout");
        HostUpdate Characteristic.CurrentTemperature (Err "timeout");
        HostUpdate Characteristic.BatteryLevel (Err "timeout");
        HostUpdate Characteristic.StatusLowBattery (Err "timeout");
        Log errorLog "failed openAPIRefreshStatus"].
Proof. repeat split; vm_compute; reflexivity. Qed.

(** C6.  A cloud answer counts as successful exactly when its status code
    is 100 or 200.  On any other code [openAPIRefreshStatus] neither parses
    nor publishes: apart from the request recorded in the trace the object
    is as before, so the stored values, the values the host shows and
    [accessory.context] are unchanged. *)
Theorem openAPIRefreshStatus_unsuccessful (env : Env) (this : t)
    (code : Z) (body : Status.t) :
  (deviceBase.successfulStatusCodes code = true <-> code = 100%Z \/ code = 200%Z)
  /\ (deviceBase.env_cloud env = deviceBase.Response code body ->
      code <> 100%Z -> code <> 200%Z ->
      exec (openAPIRefreshStatus env) this = logged [CloudFetch] this
      /\ deviceBase.hapValues (base (exec (openAPIRefreshStatus env) this))
         = deviceBase.hapValues (base this)
      /\ deviceBase.context (base (exec (openAPIRefreshStatus env) this))
         = deviceBase.context (base this)).
Proof.
  split; [apply deviceBaseFacts.successfulStatusCodes_iff |].
  intros Hcloud H100 H200.
  assert (Hcode : deviceBase.successfulStatusCodes code = false).
  { apply not_true_is_false. intros H.
    apply deviceBaseFacts.successfulStatusCodes_iff in H. tauto. }
  assert (E : exec (openAPIRefreshStatus env) this = logged [CloudFetch] this).
  { unfold openAPIRefreshStatus. rewrite exec_bind.
    change (fst (super (deviceBase.deviceRefreshStatus env) this))
      with (deviceBase.env_cloud env).
    rewrite Hcloud, Hcode. reflexivity. }
  rewrite E. repeat split.
Qed.

Lemma openAPIRefreshStatus_unsuccessful_witness :
  exec (openAPIRefreshStatus
          (Sample.env Sample.foreign_payload
                      (deviceBase.Response 161 (Sample.status 0 0 0))))
       (Sample.sensor "OpenAPI")
  = logged [CloudFetch] (Sample.sensor "OpenAPI").
Proof.
  apply (openAPIRefreshStatus_unsuccessful
           (Sample.env Sample.foreign_payload
                       (deviceBase.Response 161 (Sample.status 0 0 0)))
           (Sample.sensor "OpenAPI") 161 (Sample.status 0 0 0)).
  - reflexivity.
  - lia.
  - lia.
Defined.

(** *** Bounds of the decoded values *)

Lemma validHumidity_bounds (h : Q) :
  0 <= validHumidity h 0 100 /\ validHumidity h 0 100 <= 100.
Proof.
  unfold validHumidity.
  destruct (Qltb h 0) eqn:E0.
  - split; [apply Qle_refl | discriminate].
  - apply Qltb_ge in E0. destruct (Qgtb h 100) eqn:E1.
    + split; [discriminate | apply Qle_refl].
    + apply Qgtb_le in E1. split; assumption.
Qed.

(** The radio decoder keeps the humidity and the temperature it reads
    for an exposed capability within [0, 100]. *)
Lemma BLEparseStatus_clamps (sd : ServiceData.t) (this : t) :
  (humidityExposed this = true ->
   forall h0, ServiceData.humidity sd = Some h0 ->
   exists h, HumiditySensor (exec (BLEparseStatus sd) this) = Some (Some h)
             /\ 0 <= h /\ h <= 100)
  /\ (temperatureExposed this = true ->
      forall c0, ServiceData.celsius sd = Some c0 ->
      exists c, TemperatureSensor (exec (BLEparseStatus sd) this) = Some (Some c)
                /\ 0 <= c /\ c <= 100).
Proof.
  rewrite exec_BLEparseStatus; cbn [HumiditySensor TemperatureSensor].
  split; intros -> x0 ->.
  - eexists. split; [reflexivity | apply validHumidity_bounds].
  - cbn [lt_num gt_num].
    destruct (Qltb x0 0) eqn:E0.
    + eexists. split; [reflexivity |]. split; [apply Qle_refl | discriminate].
    + apply Qltb_ge in E0. destruct (Qgtb x0 100) eqn:E1.
      * eexists. split; [reflexivity |]. split; [discriminate | apply Qle_refl].
      * apply Qgtb_le in E1. eexists. split; [reflexivity |]. split; assumption.
Qed.

(** The cloud decoder stores what the cloud sent. *)
Lemma openAPIparseStatus_verbatim (st : Status.t) (this : t) :
  (humidityExposed this = true ->
   HumiditySensor (exec (openAPIparseStatus st) this)
   = Some (Some (Status.humidity st)))
  /\ (temperatureExposed this = true ->
      TemperatureSensor (exec (openAPIparseStatus st) this)
      = Some (Some (Status.temperature st))).
Proof.
  rewrite exec_openAPIparseStatus; simpl. split; intros ->; reflexivity.
Qed.

(** C1, on the code.  A cloud answer with humidity 999 and temperature 150
    is stored and shown to the host as it came: the cloud decoder does not
    clamp, where the radio decoder, given the same temperature, stores
    100. *)
Theorem openAPIparseStatus_out_of_range :
  HumiditySensor
    (exec (refreshStatus (Sample.env Sample.foreign_payload
                            (deviceBase.Response 100 (Sample.status 80 150 999))))
          (Sample.sensor "OpenAPI")) = Some (Some 999)
  /\ TemperatureSensor
       (exec (refreshStatus (Sample.env Sample.foreign_payload
                               (deviceBase.Response 100 (Sample.status 80 150 999))))
             (Sample.sensor "OpenAPI")) = Some (Some 150)
  /\ deviceBase.hapValues
       (base (exec (refreshStatus (Sample.env Sample.foreign_payload
                                     (deviceBase.Response 100 (Sample.status 80 150 999))))
                   (Sample.sensor "OpenAPI")))
     !! Characteristic.CurrentRelativeHumidity = Some (Num 999)
  /\ ~ 999 <= 100
  /\ ~ 150 <= 100
  /\ TemperatureSensor
       (exec (refreshStatus (Sample.env (Sample.payload (Some 80) 150 999)
                               (deviceBase.Throws "unused")))
             (Sample.sensor "BLE")) = Some (Some 100).
Proof.
  repeat split; try (vm_compute; reflexivity); intros H; vm_compute in H; apply H; reflexivity.
Qed.

(** *** The webhook decoder *)

(** On a sensor as the constructor leaves it, a hidden capability has no
    service, so neither guard of [parseStatusWebhook] can hold: the webhook
    decoder never changes a stored value. *)
Lemma parseStatusWebhook_new (cu : Q -> string -> option string -> Q)
    (w : Webhook.t) (p : SwitchBotPlatform)
    (ctx : gmap string CharacteristicValue) (d : devicesConfig) :
  HumiditySensor (exec (parseStatusWebhook cu w) (new p ctx d))
  = HumiditySensor (new p ctx d)
  /\ TemperatureSensor (exec (parseStatusWebhook cu w) (new p ctx d))
     = TemperatureSensor (new p ctx d).
Proof.
  rewrite exec_parseStatusWebhook.
  cbn [HumiditySensor TemperatureSensor].
  assert (Hd : device (new p ctx d) = d).
  { unfold device, new, deviceBase.new; cbn [base].
    unfold deviceBase.getDeviceRateSettings.
    rewrite !exec_bind. change (exec (gets id) ?s) with s.
    change (fst (gets id ?s)) with s. rewrite exec_modify.
    match goal with |- context [exec ?m ?s] =>
      assert (Hk : deviceBase.device (exec m s) = deviceBase.device s) end.
    { repeat match goal with |- context [if ?b then _ else _] => destruct b end;
        reflexivity. }
    rewrite Hk. reflexivity. }
  rewrite Hd. unfold new; cbn [HumiditySensor TemperatureSensor].
  destruct (hide_humidity d), (hide_temperature d); split; reflexivity.
Qed.

(** C9, on the code.  A sensor with no hide flag set receives the webhook
    event (humidity 60, temperature 22): the stored humidity and
    temperature stay at their initial 50 and 30, and these old values are
    what the handler then pushes to the host.  The same numbers arriving
    over the radio handler are applied. *)
Theorem webhook_values_not_applied (convertUnits : Q -> string -> option string -> Q) :
  HumiditySensor
    (exec (webhookEventHandler convertUnits
             {| Webhook.scale := "CELSIUS"; Webhook.temperature := 22;
                Webhook.humidity := 60 |})
          (Sample.sensor "OpenAPI")) = Some (Some 50)
  /\ TemperatureSensor
       (exec (webhookEventHandler convertUnits
                {| Webhook.scale := "CELSIUS"; Webhook.temperature := 22;
                   Webhook.humidity := 60 |})
             (Sample.sensor "OpenAPI")) = Some (Some 30)
  /\ deviceBase.hapValues
       (base (exec (webhookEventHandler convertUnits
                      {| Webhook.scale := "CELSIUS"; Webhook.temperature := 22;
                         Webhook.humidity := 60 |})
                   (Sample.sensor "OpenAPI")))
     !! Characteristic.CurrentRelativeHumidity = Some (Num 50)
  /\ deviceBase.hapValues
       (base (exec (webhookEventHandler convertUnits
                      {| Webhook.scale := "CELSIUS"; Webhook.temperature := 22;
                         Webhook.humidity := 60 |})
                   (Sample.sensor "OpenAPI")))
     !! Characteristic.CurrentTemperature = Some (Num 30)
  /\ hide_humidity (device (Sample.sensor "OpenAPI")) = false
  /\ hide_temperature (device (Sample.sensor "OpenAPI")) = false
  /\ HumiditySensor
       (exec (bleEventHandler (Sample.payload None 22 60)) (Sample.sensor "OpenAPI"))
     = Some (Some 60)
  /\ TemperatureSensor
       (exec (bleEventHandler (Sample.payload None 22 60)) (Sample.sensor "OpenAPI"))
     = Some (Some 22).
Proof. repeat split; vm_compute; reflexivity. Qed.

(** *** The refresh timer *)

Lemma refreshStatus_flag (env : Env) (this : t) :
  ioSensorUpdateInProgress (exec (refreshStatus env) this)
  = ioSensorUpdateInProgress this.
Proof. apply (step_flag _ _ _ (step_refreshStatus env this)). Qed.

(** No input of the timer sets the in-progress flag. *)
Lemma timer_step_flag (s : Timer) (i : TimerInput) :
  ioSensorUpdateInProgress (sensor (timer_step s i))
  = ioSensorUpdateInProgress (sensor s).
Proof.
  destruct i as [env|]; simpl; [| reflexivity].
  destruct (skipWhile _ _); simpl; [apply refreshStatus_flag | reflexivity].
Qed.

Lemma timer_run_flag (inputs : list TimerInput) (s : Timer) :
  ioSensorUpdateInProgress (sensor (timer_run s inputs))
  = ioSensorUpdateInProgress (sensor s).
Proof.
  revert s. induction inputs as [|i inputs IH]; intros s.
  - reflexivity.
  - change (timer_run s (i :: inputs)) with (timer_run (timer_step s i) inputs).
    rewrite IH. apply timer_step_flag.
Qed.

(** With the flag clear no tick is skipped: after [n] ticks and no cycle
    settled, [n] cycles are in flight. *)
Lemma timer_ticks_all_start (envs : list Env) (s : Timer) :
  ioSensorUpdateInProgress (sensor s) = false ->
  inFlight (timer_run s (map Tick envs)) = (inFlight s + length envs)%nat.
Proof.
  revert s. induction envs as [|env envs IH]; intros s Hflag.
  - simpl. lia.
  - change (timer_run s (map Tick (env :: envs)))
      with (timer_run (timer_step s (Tick env)) (map Tick envs)).
    rewrite IH; [| rewrite timer_step_flag; exact Hflag].
    unfold timer_step, skipWhile. rewrite Hflag, orb_true_r. simpl. lia.
Qed.

(** The push handlers do not set the flag either. *)
Lemma handlers_flag (cu : Q -> string -> option string -> Q)
    (sd : ServiceData.t) (w : Webhook.t) (this : t) :
  ioSensorUpdateInProgress (exec (bleEventHandler sd) this)
  = ioSensorUpdateInProgress this
  /\ ioSensorUpdateInProgress (exec (webhookEventHandler cu w) this)
     = ioSensorUpdateInProgress this.
Proof.
  split.
  - assert (Q : Quiet (bleEventHandler sd))
      by (unfold bleEventHandler; auto 20 with quiet).
    apply (step_flag _ _ _ (Q this)).
  - assert (Q : Quiet (webhookEventHandler cu w))
      by (unfold webhookEventHandler; auto 20 with quiet).
    apply (step_flag _ _ _ (Q this)).
Qed.

(** C2, on the code.  On a freshly constructed sensor two ticks arrive
    with no cycle settled in between: the second tick is not skipped, two
    cycles are in flight, and the in-progress flag the skip operator reads
    is still false. *)
Theorem second_tick_not_skipped (p : SwitchBotPlatform)
    (ctx : gmap string CharacteristicValue) (d : devicesConfig)
    (env1 env2 : Env) :
  inFlight (timer_run (timer_start (new p ctx d)) [Tick env1; Tick env2]) = 2%nat
  /\ ioSensorUpdateInProgress
       (sensor (timer_run (timer_start (new p ctx d)) [Tick env1])) = false
  /\ ioSensorUpdateInProgress
       (sensor (timer_run (timer_start (new p ctx d)) [Tick env1; Tick env2])) = false.
Proof.
  split; [| split].
  - apply (timer_ticks_all_start [env1; env2] (timer_start (new p ctx d))).
    reflexivity.
  - rewrite timer_run_flag. reflexivity.
  - rewrite timer_run_flag. reflexivity.
Qed.

(** Two overlapping radio cycles on the sample BLE sensor. *)
Example second_tick_two_scans :
  attempts
    (sensor (timer_run (timer_start (Sample.sensor "BLE"))
               [Tick (Sample.env (Sample.payload (Some 45) 22 60) (deviceBase.Throws "unused"));
                Tick (Sample.env (Sample.payload (Some 45) 22 60) (deviceBase.Throws "unused"))]))
  = [ConnectBLE; RadioScan; ConnectBLE; RadioScan].
Proof. vm_compute. reflexivity. Qed.

(** Two objects with the same fields are the same object. *)
Lemma deviceBase_ext (a b : deviceBase.t) :
  deviceBase.platform a = deviceBase.platform b ->
  deviceBase.device a = deviceBase.device b ->
  deviceBase.context a = deviceBase.context b ->
  deviceBase.hapValues a = deviceBase.hapValues b ->
  deviceBase.deviceRefreshRate a = deviceBase.deviceRefreshRate b ->
  deviceBase.deviceUpdateRate a = deviceBase.deviceUpdateRate b ->
  deviceBase.devicePushRate a = deviceBase.devicePushRate b ->
  deviceBase.deviceMaxRetries a = deviceBase.deviceMaxRetries b ->
  deviceBase.deviceDelayBetweenRetries a = deviceBase.deviceDelayBetweenRetries b ->
  deviceBase.scanDuration a = deviceBase.scanDuration b ->
  deviceBase.historyService a = deviceBase.historyService b ->
  deviceBase.events a = deviceBase.events b ->
  a = b.
Proof. destruct a, b; cbn; intros; subst; reflexivity. Qed.

Lemma sensor_ext (a b : t) :
  base a = base b ->
  BatteryLevel a = BatteryLevel b ->
  StatusLowBattery a = StatusLowBattery b ->
  HumiditySensor a = HumiditySensor b ->
  TemperatureSensor a = TemperatureSensor b ->
  deviceStatus a = deviceStatus b ->
  webhookContext a = webhookContext b ->
  serviceData a = serviceData b ->
  ioSensorUpdateInProgress a = ioSensorUpdateInProgress b ->
  a = b.
Proof. destruct a, b; cbn; intros; subst; reflexivity. Qed.

(** Field by field, with the setters opened where a field is asked for. *)
Ltac by_fields :=
  apply sensor_ext; [apply deviceBase_ext | ..];
  cbn [base BatteryLevel StatusLowBattery HumiditySensor TemperatureSensor
       deviceStatus webhookContext serviceData ioSensorUpdateInProgress
       set_base deviceBase.set_events deviceBase.set_hapValues
       deviceBase.set_context
       deviceBase.platform deviceBase.device deviceBase.context
       deviceBase.hapValues deviceBase.deviceRefreshRate
       deviceBase.deviceUpdateRate deviceBase.devicePushRate
       deviceBase.deviceMaxRetries deviceBase.deviceDelayBetweenRetries
       deviceBase.scanDuration deviceBase.historyService deviceBase.events];
  rewrite <- ?app_assoc; try reflexivity.

(** *** Publishing the stored values *)

(** One [updateCharacteristic] of the sensor. *)
Lemma exec_publish (c : Characteristic.t) (v : option CharacteristicValue)
    (name : string) (this : t) :
  exec (super (deviceBase.updateCharacteristic c v name)) this
  = set_base
      {| deviceBase.platform := deviceBase.platform (base this);
         deviceBase.device := deviceBase.device (base this);
         deviceBase.context := put name v (deviceBase.context (base this));
         deviceBase.hapValues := put c v (deviceBase.hapValues (base this));
         deviceBase.deviceRefreshRate := deviceBase.deviceRefreshRate (base this);
         deviceBase.deviceUpdateRate := deviceBase.deviceUpdateRate (base this);
         deviceBase.devicePushRate := deviceBase.devicePushRate (base this);
         deviceBase.deviceMaxRetries := deviceBase.deviceMaxRetries (base this);
         deviceBase.deviceDelayBetweenRetries :=
           deviceBase.deviceDelayBetweenRetries (base this);
         deviceBase.scanDuration := deviceBase.scanDuration (base this);
         deviceBase.historyService := deviceBase.historyService (base this);
         deviceBase.events :=
           deviceBase.events (base this)
           ++ deviceBase.publication (base this) c v name |}
      this.
Proof.
  rewrite exec_super, deviceBaseFacts.exec_updateCharacteristic_put. reflexivity.
Qed.

Lemma exec_publish_if (b : bool) (c : Characteristic.t)
    (v : option CharacteristicValue) (name : string) (this : t) :
  exec (if b then super (deviceBase.updateCharacteristic c v name) else skip) this
  = exec (super (deviceBase.updateCharacteristic c (if b then v else None) name)) this.
Proof.
  destruct b; [reflexivity |]. destruct this; reflexivity.
Qed.

(** [updateHomeKitCharacteristics] in one formula. *)
Lemma exec_updateHomeKitCharacteristics (this : t) :
  exec updateHomeKitCharacteristics this
  = set_base
      {| deviceBase.platform := deviceBase.platform (base this);
         deviceBase.device := deviceBase.device (base this);
         deviceBase.context :=
           put "StatusLowBattery" (Some (LowBattery (StatusLowBattery this)))
             (put "BatteryLevel" (Some (Num (BatteryLevel this)))
                (put "CurrentTemperature" (temperaturePublished this)
                   (put "CurrentRelativeHumidity" (humidityPublished this)
                      (deviceBase.context (base this)))));
         deviceBase.hapValues :=
           put Characteristic.StatusLowBattery
             (Some (LowBattery (StatusLowBattery this)))
             (put Characteristic.BatteryLevel (Some (Num (BatteryLevel this)))
                (put Characteristic.CurrentTemperature (temperaturePublished this)
                   (put Characteristic.CurrentRelativeHumidity (humidityPublished this)
                      (deviceBase.hapValues (base this)))));
         deviceBase.deviceRefreshRate := deviceBase.deviceRefreshRate (base this);
         deviceBase.deviceUpdateRate := deviceBase.deviceUpdateRate (base this);
         deviceBase.devicePushRate := deviceBase.devicePushRate (base this);
         deviceBase.deviceMaxRetries := deviceBase.deviceMaxRetries (base this);
         deviceBase.deviceDelayBetweenRetries :=
           deviceBase.deviceDelayBetweenRetries (base this);
         deviceBase.scanDuration := deviceBase.scanDuration (base this);
         deviceBase.historyService := deviceBase.historyService (base this);
         deviceBase.events := deviceBase.events (base this) ++ publications this |}
      this.
Proof.
  unfold updateHomeKitCharacteristics.
  rewrite exec_bind. change (exec (gets id) this) with this.
  change (fst (gets id this)) with this.
  rewrite exec_bind, exec_publish_if, exec_publish.
  fold (humidityPublished this).
  match goal with |- context [exec _ ?s1] => set (this1 := s1) end.
  rewrite exec_bind. change (exec (gets id) this1) with this1.
  change (fst (gets id this1)) with this1.
  rewrite exec_bind, exec_publish_if, exec_publish.
  change (if temperatureExposed this1 then Num <$> CurrentTemperature this1 else None)
    with (temperaturePublished this).
  match goal with |- context [exec _ ?s2] => set (this2 := s2) end.
  rewrite exec_bind. change (exec (gets id) this2) with this2.
  change (fst (gets id this2)) with this2.
  rewrite exec_bind, exec_publish.
  match goal with |- context [exec _ ?s3] => set (this3 := s3) end.
  rewrite exec_bind. change (exec (gets id) this3) with this3.
  change (fst (gets id this3)) with this3.
  rewrite exec_publish.
  subst this3 this2 this1. unfold publications, set_base.
  cbn [base BatteryLevel StatusLowBattery HumiditySensor TemperatureSensor
       deviceStatus webhookContext serviceData ioSensorUpdateInProgress
       deviceBase.platform deviceBase.device deviceBase.context
       deviceBase.hapValues deviceBase.deviceRefreshRate
       deviceBase.deviceUpdateRate deviceBase.devicePushRate
       deviceBase.deviceMaxRetries deviceBase.deviceDelayBetweenRetries
       deviceBase.scanDuration deviceBase.historyService deviceBase.events].
  rewrite <- !app_assoc. reflexivity.
Qed.

(** Lookups in a map after a sequence of [put]s on literal keys. *)
Ltac lookup_puts :=
  rewrite ?deviceBaseFacts.lookup_put;
  repeat first [ rewrite decide_True by reflexivity
               | rewrite decide_False by discriminate ];
  try reflexivity.

(** X10.  After [updateHomeKitCharacteristics] the host and
    [accessory.context] agree with the stored values: battery level and
    low-battery status always, humidity and temperature when the
    capability is exposed and its stored value is a number.  For a hidden
    capability, and for an exposed one whose stored value is [undefined]
    (as after a scan that saw no advertisement), neither the host value
    nor the context entry is touched.  The stored values themselves are
    never changed. *)
Theorem updateHomeKitCharacteristics_sync (this : t) :
  (BatteryLevel (exec updateHomeKitCharacteristics this) = BatteryLevel this
   /\ StatusLowBattery (exec updateHomeKitCharacteristics this) = StatusLowBattery this
   /\ HumiditySensor (exec updateHomeKitCharacteristics this) = HumiditySensor this
   /\ TemperatureSensor (exec updateHomeKitCharacteristics this)
      = TemperatureSensor this)
  /\ (deviceBase.hapValues (base (exec updateHomeKitCharacteristics this))
        !! Characteristic.BatteryLevel = Some (Num (BatteryLevel this))
      /\ deviceBase.context (base (exec updateHomeKitCharacteristics this))
           !! "BatteryLevel" = Some (Num (BatteryLevel this))
      /\ deviceBase.hapValues (base (exec updateHomeKitCharacteristics this))
           !! Characteristic.StatusLowBattery
         = Some (LowBattery (StatusLowBattery this))
      /\ deviceBase.context (base (exec updateHomeKitCharacteristics this))
           !! "StatusLowBattery" = Some (LowBattery (StatusLowBattery this)))
  /\ (humidityExposed this = true ->
      match CurrentRelativeHumidity this with
      | Some h =>
          deviceBase.hapValues (base (exec updateHomeKitCharacteristics this))
            !! Characteristic.CurrentRelativeHumidity = Some (Num h)
          /\ deviceBase.context (base (exec updateHomeKitCharacteristics this))
               !! "CurrentRelativeHumidity" = Some (Num h)
      | None =>
          deviceBase.hapValues (base (exec updateHomeKitCharacteristics this))
            !! Characteristic.CurrentRelativeHumidity
          = deviceBase.hapValues (base this) !! Characteristic.CurrentRelativeHumidity
          /\ deviceBase.context (base (exec updateHomeKitCharacteristics this))
               !! "CurrentRelativeHumidity"
             = deviceBase.context (base this) !! "CurrentRelativeHumidity"
      end)
  /\ (humidityExposed this = false ->
      deviceBase.hapValues (base (exec updateHomeKitCharacteristics this))
        !! Characteristic.CurrentRelativeHumidity
      = deviceBase.hapValues (base this) !! Characteristic.CurrentRelativeHumidity
      /\ deviceBase.context (base (exec updateHomeKitCharacteristics this))
           !! "CurrentRelativeHumidity"
         = deviceBase.context (base this) !! "CurrentRelativeHumidity")
  /\ (temperatureExposed this = true ->
      match CurrentTemperature this with
      | Some c =>
          deviceBase.hapValues (base (exec updateHomeKitCharacteristics this))
            !! Characteristic.CurrentTemperature = Some (Num c)
          /\ deviceBase.context (base (exec updateHomeKitCharacteristics this))
               !! "CurrentTemperature" = Some (Num c)
      | None =>
          deviceBase.hapValues (base (exec updateHomeKitCharacteristics this))
            !! Characteristic.CurrentTemperature
          = deviceBase.hapValues (base this) !! Characteristic.CurrentTemperature
          /\ deviceBase.context (base (exec updateHomeKitCharacteristics this))
               !! "CurrentTemperature"
             = deviceBase.context (base this) !! "CurrentTemperature"
      end)
  /\ (temperatureExposed this = false ->
      deviceBase.hapValues (base (exec updateHomeKitCharacteristics this))
        !! Characteristic.CurrentTemperature
      = deviceBase.hapValues (base this) !! Characteristic.CurrentTemperature
      /\ deviceBase.context (base (exec updateHomeKitCharacteristics this))
           !! "CurrentTemperature"
         = deviceBase.context (base this) !! "CurrentTemperature").
Proof.
  rewrite exec_updateHomeKitCharacteristics.
  cbn [set_base base BatteryLevel StatusLowBattery HumiditySensor TemperatureSensor
       deviceBase.hapValues deviceBase.context].
  unfold humidityPublished, temperaturePublished.
  split; [repeat split |].
  split; [repeat split; lookup_puts |].
  split; [| split; [| split]]; intros H; rewrite H;
    repeat match goal with
           | |- context [CurrentRelativeHumidity this] =>
               destruct (CurrentRelativeHumidity this)
           | |- context [CurrentTemperature this] =>
               destruct (CurrentTemperature this)
           | |- context [if ?b then _ else _] => destruct b
           end;
    split; lookup_puts.
Qed.

Lemma updateHomeKitCharacteristics_sync_witness :
  match CurrentTemperature
          (exec (BLEparseStatus (Sample.payload (Some 45) 22 60)) (Sample.sensor "BLE"))
  with
  | Some c =>
      deviceBase.hapValues
        (base (exec updateHomeKitCharacteristics
                 (exec (BLEparseStatus (Sample.payload (Some 45) 22 60))
                       (Sample.sensor "BLE"))))
        !! Characteristic.CurrentTemperature = Some (Num c)
      /\ deviceBase.context
           (base (exec updateHomeKitCharacteristics
                    (exec (BLEparseStatus (Sample.payload (Some 45) 22 60))
                          (Sample.sensor "BLE"))))
           !! "CurrentTemperature" = Some (Num c)
  | None =>
      deviceBase.hapValues
        (base (exec updateHomeKitCharacteristics
                 (exec (BLEparseStatus (Sample.payload (Some 45) 22 60))
                       (Sample.sensor "BLE"))))
        !! Characteristic.CurrentTemperature
      = deviceBase.hapValues
          (base (exec (BLEparseStatus (Sample.payload (Some 45) 22 60))
                      (Sample.sensor "BLE")))
          !! Characteristic.CurrentTemperature
      /\ deviceBase.context
           (base (exec updateHomeKitCharacteristics
                    (exec (BLEparseStatus (Sample.payload (Some 45) 22 60))
                          (Sample.sensor "BLE"))))
           !! "CurrentTemperature"
         = deviceBase.context
             (base (exec (BLEparseStatus (Sample.payload (Some 45) 22 60))
                         (Sample.sensor "BLE")))
             !! "CurrentTemperature"
  end.
Proof.
  apply (updateHomeKitCharacteristics_sync
           (exec (BLEparseStatus (Sample.payload (Some 45) 22 60)) (Sample.sensor "BLE"))).
  reflexivity.
Defined.

(** A radio cycle whose scan saw no advertisement of the device: the
    payload returned has the model and the model name only, it is accepted
    and decoded, the stored temperature becomes [undefined], and neither
    the host nor [accessory.context] is given a temperature. *)
Example BLERefreshStatus_empty_scan :
  TemperatureSensor
    (exec (BLERefreshStatus (Sample.env Sample.stub (deviceBase.Throws "unused")))
          (Sample.sensor "BLE")) = Some None
  /\ deviceBase.hapValues
       (base (exec (BLERefreshStatus (Sample.env Sample.stub (deviceBase.Throws "unused")))
                   (Sample.sensor "BLE")))
       !! Characteristic.CurrentTemperature = None
  /\ deviceBase.context
       (base (exec (BLERefreshStatus (Sample.env Sample.stub (deviceBase.Throws "unused")))
                   (Sample.sensor "BLE")))
       !! "CurrentTemperature" = None
  /\ attempts
       (exec (BLERefreshStatus (Sample.env Sample.stub (deviceBase.Throws "unused")))
             (Sample.sensor "BLE"))
     = [ConnectBLE; RadioScan].
Proof. repeat split; vm_compute; reflexivity. Qed.

(** X11.  [updateHomeKitCharacteristics] does not compare with what was
    published before: called a second time with nothing changed, it sends
    the same MQTT messages, host updates and context writes again. *)
Theorem updateHomeKitCharacteristics_repeats (this : t) :
  deviceBase.events (base (exec updateHomeKitCharacteristics this))
  = deviceBase.events (base this) ++ publications this
  /\ deviceBase.events
       (base (exec updateHomeKitCharacteristics
                (exec updateHomeKitCharacteristics this)))
     = deviceBase.events (base this) ++ publications this ++ publications this
  /\ In (HostUpdate Characteristic.BatteryLevel (Num (BatteryLevel this)))
        (publications this)
  /\ In (HostUpdate Characteristic.StatusLowBattery
           (LowBattery (StatusLowBattery this)))
        (publications this).
Proof.
  assert (Hp : publications (exec updateHomeKitCharacteristics this)
               = publications this).
  { rewrite exec_updateHomeKitCharacteristics. reflexivity. }
  split; [| split; [| split]].
  - rewrite exec_updateHomeKitCharacteristics. reflexivity.
  - rewrite (exec_updateHomeKitCharacteristics
               (exec updateHomeKitCharacteristics this)).
    cbn [set_base base deviceBase.events]. rewrite Hp.
    rewrite exec_updateHomeKitCharacteristics.
    cbn [set_base base deviceBase.events]. rewrite <- app_assoc. reflexivity.
  - unfold publications. rewrite !in_app_iff. right. right. left.
    unfold deviceBase.publication. rewrite !in_app_iff. right. right.
    left. reflexivity.
  - unfold publications. rewrite !in_app_iff. right. right. right.
    unfold deviceBase.publication. rewrite !in_app_iff. right. right.
    left. reflexivity.
Qed.

(** *** The radio decoder and temperature *)

(** X12.  The radio decoder stores the temperature reading of an exposed
    temperature capability forced into [0, 100]: a reading below zero is
    stored as 0, one above 100 as 100, any other as it is.  For a payload
    without a temperature reading, such as the one a scan returns when no
    advertisement matched, the stored temperature becomes [undefined]. *)
Theorem BLEparseStatus_temperature (sd : ServiceData.t) (this : t) :
  temperatureExposed this = true ->
  (forall c0 : Q,
      ServiceData.celsius sd = Some c0 ->
      exists c : Q,
        TemperatureSensor (exec (BLEparseStatus sd) this) = Some (Some c)
        /\ 0 <= c /\ c <= 100
        /\ (c0 < 0 -> c = 0)
        /\ (100 < c0 -> c = 100)
        /\ (0 <= c0 -> c0 <= 100 -> c = c0))
  /\ (ServiceData.celsius sd = None ->
      TemperatureSensor (exec (BLEparseStatus sd) this) = Some None).
Proof.
  intros H. rewrite exec_BLEparseStatus. cbn [TemperatureSensor]. rewrite H.
  split; [| intros ->; reflexivity].
  intros c0 ->. cbn [lt_num gt_num].
  destruct (Qltb c0 0) eqn:E0.
  - eexists. split; [reflexivity |].
    apply Qltb_lt in E0. repeat split.
    + apply Qle_refl.
    + discriminate.
    + intros H1. exfalso.
      apply (Qlt_irrefl 0). apply Qlt_trans with 100; [reflexivity |].
      apply Qlt_trans with c0; assumption.
    + intros H1 _. exfalso. apply (Qlt_not_le _ _ E0 H1).
  - apply Qltb_ge in E0.
    destruct (Qgtb c0 100) eqn:E1.
    + eexists. split; [reflexivity |].
      apply Qgtb_gt in E1. repeat split.
      * discriminate.
      * apply Qle_refl.
      * intros H1. exfalso. apply (Qlt_not_le _ _ H1 E0).
      * intros _ H1. exfalso. apply (Qlt_not_le _ _ E1 H1).
    + eexists. split; [reflexivity |].
      apply Qgtb_le in E1. repeat split; try assumption.
      * intros H1. exfalso. apply (Qlt_not_le _ _ H1 E0).
      * intros H1. exfalso. apply (Qlt_not_le _ _ H1 E1).
Qed.

Lemma BLEparseStatus_temperature_witness :
  (exists c : Q,
      TemperatureSensor
        (exec (BLEparseStatus (Sample.payload (Some 80) (-12) 40)) (Sample.sensor "BLE"))
      = Some (Some c)
      /\ 0 <= c /\ c <= 100
      /\ (-12 < 0 -> c = 0)
      /\ (100 < -12 -> c = 100)
      /\ (0 <= -12 -> -12 <= 100 -> c = -12))
  /\ TemperatureSensor (exec (BLEparseStatus Sample.stub) (Sample.sensor "BLE"))
     = Some None.
Proof.
  split.
  - apply (BLEparseStatus_temperature (Sample.payload (Some 80) (-12) 40)
             (Sample.sensor "BLE")); reflexivity.
  - apply (BLEparseStatus_temperature Sample.stub (Sample.sensor "BLE"));
      reflexivity.
Defined.

(** A frosty night as the radio decoder stores it. *)
Example BLEparseStatus_below_zero :
  TemperatureSensor
    (exec (BLEparseStatus (Sample.payload (Some 80) (-12) 40)) (Sample.sensor "BLE"))
  = Some (Some 0).
Proof. vm_compute. reflexivity. Qed.

(** *** A failed cloud request *)

(** One direct [Service.updateCharacteristic], made or not. *)
Lemma exec_tell_if (b : bool) (c : Characteristic.t) (v : CharacteristicValue)
    (this : t) :
  exec (if b then super (deviceBase.Service_updateCharacteristic c v) else skip) this
  = set_base
      (deviceBase.set_events
         (fun es => es ++ (if b then [HostUpdate c v] else []))
         (deviceBase.set_hapValues (put c (if b then Some v else None)) (base this)))
      this.
Proof.
  destruct b; [reflexivity |].
  by_fields. unfold put. rewrite app_nil_r. reflexivity.
Qed.

Lemma exec_tell (c : Characteristic.t) (v : CharacteristicValue) (this : t) :
  exec (super (deviceBase.Service_updateCharacteristic c v)) this
  = set_base
      (deviceBase.set_events (fun es => es ++ [HostUpdate c v])
         (deviceBase.set_hapValues (put c (Some v)) (base this)))
      this.
Proof. reflexivity. Qed.

Lemma exec_apiError (e : string) (this : t) :
  exec (apiError e) this
  = set_base
      (deviceBase.set_events
         (fun es => es
            ++ (if humidityExposed this
                then [HostUpdate Characteristic.CurrentRelativeHumidity (Err e)] else [])
            ++ (if temperatureExposed this
                then [HostUpdate Characteristic.CurrentTemperature (Err e)] else [])
            ++ [HostUpdate Characteristic.BatteryLevel (Err e);
                HostUpdate Characteristic.StatusLowBattery (Err e)])
         (deviceBase.set_hapValues
            (fun h =>
               put Characteristic.StatusLowBattery (Some (Err e))
                 (put Characteristic.BatteryLevel (Some (Err e))
                    (put Characteristic.CurrentTemperature
                       (if temperatureExposed this then Some (Err e) else None)
                       (put Characteristic.CurrentRelativeHumidity
                          (if humidityExposed this then Some (Err e) else None) h))))
            (base this)))
      this.
Proof.
  unfold apiError.
  rewrite exec_bind. change (exec (gets id) this) with this.
  change (fst (gets id this)) with this.
  rewrite exec_bind, exec_tell_if.
  match goal with |- context [exec _ ?s1] => set (this1 := s1) end.
  rewrite exec_bind. change (exec (gets id) this1) with this1.
  change (fst (gets id this1)) with this1.
  rewrite exec_bind, exec_tell_if.
  change (temperatureExposed this1) with (temperatureExposed this).
  match goal with |- context [exec _ ?s2] => set (this2 := s2) end.
  rewrite exec_bind, !exec_tell.
  subst this2 this1. by_fields.
Qed.

(** X9.  When the cloud request throws, [openAPIRefreshStatus] hands the
    error to the host as the value of the battery characteristics and of
    every exposed sensor characteristic, and touches nothing else: the
    stored values and [accessory.context] are as before, and so is the
    host value of a hidden capability. *)
Theorem openAPIRefreshStatus_throws (env : Env) (this : t) (e : string) :
  deviceBase.env_cloud env = deviceBase.Throws e ->
  (BatteryLevel (exec (openAPIRefreshStatus env) this) = BatteryLevel this
   /\ StatusLowBattery (exec (openAPIRefreshStatus env) this) = StatusLowBattery this
   /\ HumiditySensor (exec (openAPIRefreshStatus env) this) = HumiditySensor this
   /\ TemperatureSensor (exec (openAPIRefreshStatus env) this) = TemperatureSensor this
   /\ deviceStatus (exec (openAPIRefreshStatus env) this) = deviceStatus this)
  /\ deviceBase.context (base (exec (openAPIRefreshStatus env) this))
     = deviceBase.context (base this)
  /\ (deviceBase.hapValues (base (exec (openAPIRefreshStatus env) this))
        !! Characteristic.BatteryLevel = Some (Err e)
      /\ deviceBase.hapValues (base (exec (openAPIRefreshStatus env) this))
           !! Characteristic.StatusLowBattery = Some (Err e))
  /\ deviceBase.hapValues (base (exec (openAPIRefreshStatus env) this))
       !! Characteristic.CurrentRelativeHumidity
     = (if humidityExposed this then Some (Err e)
        else deviceBase.hapValues (base this) !! Characteristic.CurrentRelativeHumidity)
  /\ deviceBase.hapValues (base (exec (openAPIRefreshStatus env) this))
       !! Characteristic.CurrentTemperature
     = (if temperatureExposed this then Some (Err e)
        else deviceBase.hapValues (base this) !! Characteristic.CurrentTemperature)
  /\ deviceBase.events (base (exec (openAPIRefreshStatus env) this))
     = deviceBase.events (base this)
       ++ [CloudFetch]
       ++ (if humidityExposed this
           then [HostUpdate Characteristic.CurrentRelativeHumidity (Err e)] else [])
       ++ (if temperatureExposed this
           then [HostUpdate Characteristic.CurrentTemperature (Err e)] else [])
       ++ [HostUpdate Characteristic.BatteryLevel (Err e);
           HostUpdate Characteristic.StatusLowBattery (Err e);
           Log errorLog "failed openAPIRefreshStatus"].
Proof.
  intros Hcloud.
  assert (E : exec (openAPIRefreshStatus env) this
              = logged [Log errorLog "failed openAPIRefreshStatus"]
                  (exec (apiError e) (logged [CloudFetch] this))).
  { unfold openAPIRefreshStatus. rewrite exec_bind.
    change (fst (super (deviceBase.deviceRefreshStatus env) this))
      with (deviceBase.env_cloud env).
    rewrite Hcloud. reflexivity. }
  rewrite E, exec_apiError.
  change (humidityExposed (logged [CloudFetch] this)) with (humidityExposed this).
  change (temperatureExposed (logged [CloudFetch] this)) with (temperatureExposed this).
  cbn [logged set_base base BatteryLevel StatusLowBattery HumiditySensor
       TemperatureSensor deviceStatus deviceBase.set_events deviceBase.set_hapValues
       deviceBase.context deviceBase.hapValues deviceBase.events].
  split; [repeat split |]. split; [reflexivity |].
  split; [split; lookup_puts |].
  split; [lookup_puts; destruct (humidityExposed this); reflexivity |].
  split; [lookup_puts; destruct (temperatureExposed this),
                               (humidityExposed this); reflexivity |].
  rewrite <- !app_assoc. cbn [app].
  destruct (humidityExposed this), (temperatureExposed this); reflexivity.
Qed.

Lemma openAPIRefreshStatus_throws_witness :
  deviceBase.context
    (base (exec (openAPIRefreshStatus
                   (Sample.env Sample.foreign_payload (deviceBase.Throws "ETIMEDOUT")))
                (Sample.sensor "OpenAPI")))
  = deviceBase.context (base (Sample.sensor "OpenAPI")).
Proof.
  apply (openAPIRefreshStatus_throws
           (Sample.env Sample.foreign_payload (deviceBase.Throws "ETIMEDOUT"))
           (Sample.sensor "OpenAPI") "ETIMEDOUT").
  reflexivity.
Defined.

(** *** The radio cycle, the other two ways *)





(** *** A successful cloud cycle *)

(** X16.  A cloud answer with status code 100 or 200 is decoded and
    published in the same cycle: the body is kept as [deviceStatus], the
    battery level and the values of the exposed capabilities are the
    numbers of the body, and the host and [accessory.context] show those
    same numbers; a hidden capability keeps its stored value.  One cloud
    request is made. *)
Theorem openAPIRefreshStatus_success (env : Env) (this : t)
    (code : Z) (body : Status.t) :
  deviceBase.env_cloud env = deviceBase.Response code body ->
  deviceBase.successfulStatusCodes code = true ->
  exec (openAPIRefreshStatus env) this
  = exec updateHomeKitCharacteristics
      (exec (openAPIparseStatus body)
         (set_deviceStatus body (logged [CloudFetch] this)))
  /\ deviceStatus (exec (openAPIRefreshStatus env) this) = Some body
  /\ attempts (exec (openAPIRefreshStatus env) this) = attempts this ++ [CloudFetch]
  /\ (BatteryLevel (exec (openAPIRefreshStatus env) this) = Status.battery body
      /\ deviceBase.hapValues (base (exec (openAPIRefreshStatus env) this))
           !! Characteristic.BatteryLevel = Some (Num (Status.battery body))
      /\ deviceBase.context (base (exec (openAPIRefreshStatus env) this))
           !! "BatteryLevel" = Some (Num (Status.battery body)))
  /\ (if humidityExposed this
      then HumiditySensor (exec (openAPIRefreshStatus env) this)
           = Some (Some (Status.humidity body))
           /\ deviceBase.hapValues (base (exec (openAPIRefreshStatus env) this))
                !! Characteristic.CurrentRelativeHumidity
              = Some (Num (Status.humidity body))
           /\ deviceBase.context (base (exec (openAPIRefreshStatus env) this))
                !! "CurrentRelativeHumidity" = Some (Num (Status.humidity body))
      else HumiditySensor (exec (openAPIRefreshStatus env) this) = HumiditySensor this)
  /\ (if temperatureExposed this
      then TemperatureSensor (exec (openAPIRefreshStatus env) this)
           = Some (Some (Status.temperature body))
           /\ deviceBase.hapValues (base (exec (openAPIRefreshStatus env) this))
                !! Characteristic.CurrentTemperature
              = Some (Num (Status.temperature body))
           /\ deviceBase.context (base (exec (openAPIRefreshStatus env) this))
                !! "CurrentTemperature" = Some (Num (Status.temperature body))
      else TemperatureSensor (exec (openAPIRefreshStatus env) this)
           = TemperatureSensor this).
Proof.
  intros Hcloud Hcode.
  assert (E : exec (openAPIRefreshStatus env) this
              = exec updateHomeKitCharacteristics
                  (exec (openAPIparseStatus body)
                     (set_deviceStatus body (logged [CloudFetch] this)))).
  { unfold openAPIRefreshStatus. rewrite exec_bind.
    change (fst (super (deviceBase.deviceRefreshStatus env) this))
      with (deviceBase.env_cloud env).
    change (exec (super (deviceBase.deviceRefreshStatus env)) this)
      with (logged [CloudFetch] this).
    rewrite Hcloud, Hcode. rewrite !exec_bind, exec_modify. reflexivity. }
  split; [exact E |]. split; [| split].
  - rewrite E.
    assert (K : Keeps deviceStatus updateHomeKitCharacteristics)
      by (apply Keeps_updateHomeKitCharacteristics; reflexivity).
    rewrite K, exec_openAPIparseStatus. reflexivity.
  - apply (step_attempts _ _ _ (step_openAPIRefreshStatus env this)).
  - rewrite E, exec_updateHomeKitCharacteristics, exec_openAPIparseStatus.
    change (humidityExposed (set_deviceStatus body (logged [CloudFetch] this)))
      with (humidityExposed this).
    change (temperatureExposed (set_deviceStatus body (logged [CloudFetch] this)))
      with (temperatureExposed this).
    unfold humidityPublished, temperaturePublished, humidityExposed,
      temperatureExposed, device.
    cbn [set_base set_deviceStatus logged base BatteryLevel StatusLowBattery
         HumiditySensor TemperatureSensor deviceBase.hapValues deviceBase.context].
    rewrite !(proj1 (deviceBaseFacts.firmwareVersion_frame _ _)).
    cbn [deviceBase.set_events deviceBase.device
         CurrentRelativeHumidity CurrentTemperature HumiditySensor TemperatureSensor].
    split; [repeat split; lookup_puts |].
    split.
    + destruct (negb (hide_humidity (deviceBase.device (base this)))); cbn [andb];
        [| reflexivity].
      destruct (HumiditySensor this) as [h|]; cbn [defined]; [| reflexivity].
      repeat split; lookup_puts;
        destruct (negb (hide_temperature (deviceBase.device (base this)))
                  && defined (TemperatureSensor this)); reflexivity.
    + destruct (negb (hide_temperature (deviceBase.device (base this)))); cbn [andb];
        [| reflexivity].
      destruct (TemperatureSensor this) as [c|]; cbn [defined]; [| reflexivity].
      repeat split; lookup_puts.
Qed.

Lemma openAPIRefreshStatus_success_witness :
  deviceStatus
    (exec (openAPIRefreshStatus
             (Sample.env Sample.foreign_payload
                (deviceBase.Response 100 (Sample.status 45 22 60))))
          (Sample.sensor "OpenAPI"))
  = Some (Sample.status 45 22 60).
Proof.
  apply (openAPIRefreshStatus_success
           (Sample.env Sample.foreign_payload
              (deviceBase.Response 100 (Sample.status 45 22 60)))
           (Sample.sensor "OpenAPI") 100 (Sample.status 45 22 60));
    reflexivity.
Defined.

(** A cloud answer that carries the firmware version "V2.5-beta": the
    revision "2.5" is given to the host and written to
    [accessory.context.version], next to the decoded values. *)
Example openAPIRefreshStatus_version :
  deviceBase.context
    (base (exec (openAPIRefreshStatus
                   (Sample.env Sample.foreign_payload
                      (deviceBase.Response 100
                         (Sample.status_version 45 22 60 "V2.5-beta"))))
                (Sample.sensor "OpenAPI")))
    !! "version" = Some (Text "2.5")
  /\ deviceBase.hapValues
       (base (exec (openAPIRefreshStatus
                      (Sample.env Sample.foreign_payload
                         (deviceBase.Response 100
                            (Sample.status_version 45 22 60 "V2.5-beta"))))
                   (Sample.sensor "OpenAPI")))
       !! Characteristic.FirmwareRevision = Some (Text "2.5").
Proof. split; vm_compute; reflexivity. Qed.

(** *** What stays the same over the life of a sensor *)

Section Kept.

(** A component [f] of the sensor that the bookkeeping assignments leave
    alone and the two polled decoders keep. *)
Variable B : Type.
Variable f : t -> B.
Hypothesis f_base : forall b this, f (set_base b this) = f this.
Hypothesis f_serviceData : forall v this, f (set_serviceData v this) = f this.
Hypothesis f_deviceStatus : forall v this, f (set_deviceStatus v this) = f this.
Hypothesis f_webhookContext : forall v this, f (set_webhookContext v this) = f this.
Hypothesis f_BLEparseStatus : forall sd, Keeps f (BLEparseStatus sd).
Hypothesis f_openAPIparseStatus : forall st, Keeps f (openAPIparseStatus st).

Lemma Kept_super {A : Type} (m : Eff deviceBase.t A) : Keeps f (super m).
Proof. apply Keeps_super, f_base. Qed.

Lemma Kept_updateHomeKitCharacteristics : Keeps f updateHomeKitCharacteristics.
Proof. apply Keeps_updateHomeKitCharacteristics, f_base. Qed.

Lemma Kept_bleEventHandler (sd : ServiceData.t) : Keeps f (bleEventHandler sd).
Proof.
  unfold bleEventHandler.
  apply Keeps_bind; [apply Keeps_modify, f_serviceData | intros _].
  apply Keeps_bind; [apply f_BLEparseStatus | intros _].
  apply Kept_updateHomeKitCharacteristics.
Qed.

Lemma Kept_openAPIRefreshStatus (env : Env) : Keeps f (openAPIRefreshStatus env).
Proof.
  unfold openAPIRefreshStatus.
  apply Keeps_bind; [apply Kept_super |].
  intros [code body | e].
  - apply Keeps_if; [| apply Keeps_skip].
    apply Keeps_bind; [apply Keeps_modify, f_deviceStatus | intros _].
    apply Keeps_bind; [apply f_openAPIparseStatus | intros _].
    apply Kept_updateHomeKitCharacteristics.
  - apply Keeps_bind; [| intros _; apply Kept_super].
    apply Keeps_apiError, f_base.
Qed.

Lemma Kept_BLERefreshConnection (env : Env) : Keeps f (BLERefreshConnection env).
Proof.
  unfold BLERefreshConnection.
  apply Keeps_bind; [apply Kept_super | intros _].
  apply Keeps_bind; [apply Keeps_gets | intros this].
  apply Keeps_if; [| apply Keeps_skip].
  apply Keeps_bind; [apply Kept_super | intros _].
  apply Kept_openAPIRefreshStatus.
Qed.

Lemma Kept_BLERefreshStatus (env : Env) : Keeps f (BLERefreshStatus env).
Proof.
  unfold BLERefreshStatus.
  apply Keeps_bind; [apply Kept_super | intros ble].
  apply Keeps_if; [apply Kept_BLERefreshConnection |].
  apply Keeps_bind; [apply Kept_super | intros sd].
  apply Keeps_if.
  - apply Keeps_bind; [apply Keeps_modify, f_serviceData | intros _].
    apply Keeps_bind; [apply f_BLEparseStatus | intros _].
    apply Kept_updateHomeKitCharacteristics.
  - apply Keeps_bind; [apply Kept_super | intros _].
    apply Kept_BLERefreshConnection.
Qed.

Lemma Kept_offlineOff : Keeps f offlineOff.
Proof.
  unfold offlineOff.
  apply Keeps_bind; [apply Keeps_gets | intros this].
  apply Keeps_if; [| apply Keeps_skip].
  apply Keeps_bind; [apply Keeps_if; [apply Kept_super | apply Keeps_skip] | intros _].
  apply Keeps_bind; [apply Keeps_gets | intros this'].
  apply Keeps_if; [apply Kept_super | apply Keeps_skip].
Qed.

Lemma Kept_refreshStatus (env : Env) : Keeps f (refreshStatus env).
Proof.
  unfold refreshStatus.
  apply Keeps_bind; [apply Keeps_gets | intros this].
  apply Keeps_if; [apply Kept_super |].
  apply Keeps_if; [apply Kept_BLERefreshStatus |].
  apply Keeps_if; [apply Kept_openAPIRefreshStatus | apply Kept_offlineOff].
Qed.

Lemma Kept_webhookEventHandler (cu : Q -> string -> option string -> Q)
    (w : Webhook.t) :
  Keeps f (parseStatusWebhook cu w) -> Keeps f (webhookEventHandler cu w).
Proof.
  intros Hw. unfold webhookEventHandler.
  apply Keeps_bind; [apply Keeps_modify, f_webhookContext | intros _].
  apply Keeps_bind; [exact Hw | intros _].
  apply Kept_updateHomeKitCharacteristics.
Qed.

(** Whatever reaches the sensor, [f] is kept, the webhook decoder
    permitting. *)
Lemma Kept_handle (cu : Q -> string -> option string -> Q) (i : Input) (this : t) :
  (forall w, Keeps f (parseStatusWebhook cu w)) ->
  f (handle cu this i) = f this.
Proof.
  intros Hw. destruct i as [env | sd | w]; cbn [handle].
  - apply Kept_refreshStatus.
  - unfold registerPlatformBLE.
    destruct (options_BLE _); [apply Kept_bleEventHandler | reflexivity].
  - unfold registerWebhook.
    destruct (webhook _); [apply Kept_webhookEventHandler, Hw | reflexivity].
Qed.

End Kept.

(** Each decoder assigns a sensor value only where the service exists, so
    whether a service exists never changes. *)
Lemma defined_BLEparseStatus (sd : ServiceData.t) :
  Keeps (fun this => (defined (HumiditySensor this), defined (TemperatureSensor this)))
        (BLEparseStatus sd).
Proof.
  intros this. rewrite exec_BLEparseStatus. cbn [HumiditySensor TemperatureSensor].
  unfold humidityExposed, temperatureExposed.
  destruct (HumiditySensor this), (TemperatureSensor this);
    cbn [defined]; rewrite ?andb_false_r, ?andb_true_r;
    repeat match goal with |- context [if ?b then _ else _] => destruct b end;
    reflexivity.
Qed.

Lemma defined_openAPIparseStatus (st : Status.t) :
  Keeps (fun this => (defined (HumiditySensor this), defined (TemperatureSensor this)))
        (openAPIparseStatus st).
Proof.
  intros this. rewrite exec_openAPIparseStatus. cbn [HumiditySensor TemperatureSensor].
  unfold humidityExposed, temperatureExposed.
  destruct (HumiditySensor this), (TemperatureSensor this);
    cbn [defined]; rewrite ?andb_false_r, ?andb_true_r;
    repeat match goal with |- context [if ?b then _ else _] => destruct b end;
    reflexivity.
Qed.

Lemma defined_parseStatusWebhook (cu : Q -> string -> option string -> Q)
    (w : Webhook.t) :
  Keeps (fun this => (defined (HumiditySensor this), defined (TemperatureSensor this)))
        (parseStatusWebhook cu w).
Proof.
  intros this. rewrite exec_parseStatusWebhook. cbn [HumiditySensor TemperatureSensor].
  destruct (HumiditySensor this), (TemperatureSensor this);
    cbn [defined]; rewrite ?andb_false_r, ?andb_true_r;
    repeat match goal with |- context [if ?b then _ else _] => destruct b end;
    reflexivity.
Qed.

Lemma device_new (p : SwitchBotPlatform) (ctx : gmap string CharacteristicValue)
    (d : devicesConfig) :
  device (new p ctx d) = d.
Proof.
  unfold device, new, deviceBase.new; cbn [base].
  unfold deviceBase.getDeviceRateSettings.
  rewrite !exec_bind. change (exec (gets id) ?s) with s.
  change (fst (gets id ?s)) with s. rewrite exec_modify.
  match goal with |- context [exec ?m ?s] =>
    assert (Hk : deviceBase.device (exec m s) = deviceBase.device s) end.
  { repeat match goal with |- context [if ?b then _ else _] => destruct b end;
      reflexivity. }
  rewrite Hk. reflexivity.
Qed.

(** The configuration is never written. *)
Lemma device_handle (cu : Q -> string -> option string -> Q) (i : Input) (this : t) :
  device (handle cu this i) = device this.
Proof.
  destruct i as [env | sd | w]; cbn [handle].
  - apply (step_device _ _ _ (step_refreshStatus env this)).
  - unfold registerPlatformBLE. destruct (options_BLE _); [| reflexivity].
    assert (Q : Quiet (bleEventHandler sd))
      by (unfold bleEventHandler; auto 20 with quiet).
    apply (step_device _ _ _ (Q this)).
  - unfold registerWebhook. destruct (webhook _); [| reflexivity].
    assert (Q : Quiet (webhookEventHandler cu w))
      by (unfold webhookEventHandler; auto 20 with quiet).
    apply (step_device _ _ _ (Q this)).
Qed.

Lemma flag_handle (cu : Q -> string -> option string -> Q) (i : Input) (this : t) :
  ioSensorUpdateInProgress (handle cu this i) = ioSensorUpdateInProgress this.
Proof.
  destruct i as [env | sd | w]; cbn [handle].
  - apply refreshStatus_flag.
  - unfold registerPlatformBLE. destruct (options_BLE _); [| reflexivity].
    apply (handlers_flag cu sd {| Webhook.scale := ""; Webhook.temperature := 0;
                                  Webhook.humidity := 0 |} this).
  - unfold registerWebhook. destruct (webhook _); [| reflexivity].
    apply (handlers_flag cu (Sample.payload None 0 0) w this).
Qed.

Lemma defined_handle (cu : Q -> string -> option string -> Q) (i : Input) (this : t) :
  defined (HumiditySensor (handle cu this i)) = defined (HumiditySensor this)
  /\ defined (TemperatureSensor (handle cu this i)) = defined (TemperatureSensor this).
Proof.
  pose proof (Kept_handle _
    (fun this => (defined (HumiditySensor this), defined (TemperatureSensor this)))
    ltac:(reflexivity) ltac:(reflexivity) ltac:(reflexivity) ltac:(reflexivity)
    defined_BLEparseStatus defined_openAPIparseStatus cu i this
    (defined_parseStatusWebhook cu)) as H.
  injection H as H1 H2. split; assumption.
Qed.

(** The state of a sensor after any sequence of inputs. *)
Lemma run_invariant (cu : Q -> string -> option string -> Q)
    (p : SwitchBotPlatform) (ctx : gmap string CharacteristicValue)
    (d : devicesConfig) (inputs : list Input) :
  device (run cu (new p ctx d) inputs) = d
  /\ ioSensorUpdateInProgress (run cu (new p ctx d) inputs) = false
  /\ defined (HumiditySensor (run cu (new p ctx d) inputs)) = negb (hide_humidity d)
  /\ defined (TemperatureSensor (run cu (new p ctx d) inputs))
     = negb (hide_temperature d).
Proof.
  unfold run.
  assert (H0 : device (new p ctx d) = d
               /\ ioSensorUpdateInProgress (new p ctx d) = false
               /\ defined (HumiditySensor (new p ctx d)) = negb (hide_humidity d)
               /\ defined (TemperatureSensor (new p ctx d))
                  = negb (hide_temperature d)).
  { split; [apply device_new |]. split; [reflexivity |].
    unfold new; cbn [HumiditySensor TemperatureSensor].
    destruct (hide_humidity d), (hide_temperature d); split; reflexivity. }
  revert H0. generalize (new p ctx d). induction inputs as [|i inputs IH];
    intros this H0; [exact H0 |].
  cbn [fold_left]. apply IH.
  destruct H0 as (Hd & Hf & Hh & Ht).
  destruct (defined_handle cu i this) as [Dh Dt].
  rewrite device_handle, flag_handle, Dh, Dt. repeat split; assumption.
Qed.

(** X15.  Whatever refresh cycles, radio advertisements and webhook events
    a sensor has gone through since it was constructed: its configuration
    is the one it was constructed with, its in-progress flag is false, and
    it has a humidity (temperature) service exactly when the capability is
    not hidden. *)
Theorem sensor_invariants (convertUnits : Q -> string -> option string -> Q)
    (p : SwitchBotPlatform) (ctx : gmap string CharacteristicValue)
    (d : devicesConfig) (inputs : list Input) :
  device (run convertUnits (new p ctx d) inputs) = d
  /\ ioSensorUpdateInProgress (run convertUnits (new p ctx d) inputs) = false
  /\ defined (HumiditySensor (run convertUnits (new p ctx d) inputs))
     = negb (hide_humidity d)
  /\ defined (TemperatureSensor (run convertUnits (new p ctx d) inputs))
     = negb (hide_temperature d).
Proof. apply run_invariant. Qed.

(** X17.  Over the whole life of a sensor no webhook event changes a
    stored value: humidity, temperature, battery level and low-battery
    status after the event are what they were before it, whatever the
    event carries and whatever the hide flags are. *)
Theorem webhook_never_stored (convertUnits : Q -> string -> option string -> Q)
    (p : SwitchBotPlatform) (ctx : gmap string CharacteristicValue)
    (d : devicesConfig) (inputs : list Input) (w : Webhook.t) :
  HumiditySensor (handle convertUnits (run convertUnits (new p ctx d) inputs)
                    (WebhookPush w))
  = HumiditySensor (run convertUnits (new p ctx d) inputs)
  /\ TemperatureSensor (handle convertUnits (run convertUnits (new p ctx d) inputs)
                          (WebhookPush w))
     = TemperatureSensor (run convertUnits (new p ctx d) inputs)
  /\ BatteryLevel (handle convertUnits (run convertUnits (new p ctx d) inputs)
                     (WebhookPush w))
     = BatteryLevel (run convertUnits (new p ctx d) inputs)
  /\ StatusLowBattery (handle convertUnits (run convertUnits (new p ctx d) inputs)
                         (WebhookPush w))
     = StatusLowBattery (run convertUnits (new p ctx d) inputs).
Proof.
  destruct (run_invariant convertUnits p ctx d inputs) as (Hd & _ & Hh & Ht).
  generalize dependent (run convertUnits (new p ctx d) inputs). intros this Hd Hh Ht.
  cbn [handle]. unfold registerWebhook.
  destruct (webhook (device this)); [| repeat split].
  unfold webhookEventHandler. rewrite !exec_bind, exec_modify.
  assert (KH : Keeps HumiditySensor updateHomeKitCharacteristics)
    by (apply Keeps_updateHomeKitCharacteristics; reflexivity).
  assert (KT : Keeps TemperatureSensor updateHomeKitCharacteristics)
    by (apply Keeps_updateHomeKitCharacteristics; reflexivity).
  assert (KB : Keeps BatteryLevel updateHomeKitCharacteristics)
    by (apply Keeps_updateHomeKitCharacteristics; reflexivity).
  assert (KS : Keeps StatusLowBattery updateHomeKitCharacteristics)
    by (apply Keeps_updateHomeKitCharacteristics; reflexivity).
  rewrite KH, KT, KB, KS, exec_parseStatusWebhook.
  cbn [HumiditySensor TemperatureSensor BatteryLevel StatusLowBattery
       set_webhookContext].
  change (device (set_webhookContext w this)) with (device this).
  rewrite Hd.
  destruct (hide_humidity d), (hide_temperature d),
    (HumiditySensor this), (TemperatureSensor this);
    try discriminate Hh; try discriminate Ht; repeat split.
Qed.

End IOSensorFacts.

(** ** Motion *)

Module MotionFacts.
Import Motion.

Lemma exec_BLEparseStatus_battery (sd : ServiceData.t) (this : t) :
  BatteryLevel (exec (BLEparseStatus sd) this)
  = nullish (ServiceData.battery sd) (BatteryLevel this)
  /\ StatusLowBattery (exec (BLEparseStatus sd) this)
     = match ServiceData.battery sd with
       | Some b => if Qltb b 10 then BATTERY_LEVEL_LOW else BATTERY_LEVEL_NORMAL
       | None => StatusLowBattery this
       end.
Proof.
  destruct this as [b bl sl md ls fl].
  unfold BLEparseStatus, exec, bind, gets, modify, skip, ret, device; simpl.
  destruct (negb (hide_lightsensor (deviceBase.device b)) && defined ls); simpl;
    destruct (ServiceData.battery sd); simpl; split; reflexivity.
Qed.

(** The radio decoder in closed form. *)
Lemma exec_motion_BLEparseStatus (sd : ServiceData.t) (this : t) :
  exec (BLEparseStatus sd) this
  = {| base := base this;
       BatteryLevel := nullish (ServiceData.battery sd) (BatteryLevel this);
       StatusLowBattery :=
         match ServiceData.battery sd with
         | Some b => if Qltb b 10 then BATTERY_LEVEL_LOW else BATTERY_LEVEL_NORMAL
         | None => StatusLowBattery this
         end;
       MotionDetected := ServiceData.movement sd;
       LightSensor :=
         if negb (hide_lightsensor (device this)) && defined (LightSensor this)
         then Some (storedLightLevel (strict_eq_str (ServiceData.lightLevel sd) "bright")
                               this)
         else LightSensor this;
       motionUbpdateInProgress := motionUbpdateInProgress this |}.
Proof.
  destruct this as [b bl sl md ls fl].
  unfold BLEparseStatus, storedLightLevel, exec, bind, gets, modify, skip, ret, device.
  cbn -[deviceBase.getLightLevel Qltb].
  destruct (negb (hide_lightsensor (deviceBase.device b)) && defined ls);
    destruct (ServiceData.battery sd); reflexivity.
Qed.

(** The cloud decoder in closed form. *)
Lemma exec_motion_openAPIparseStatus (st : Status.t) (this : t) :
  exec (openAPIparseStatus st) this
  = {| base := exec (firmwareVersion (Status.version st)) (base this);
       BatteryLevel := Status.battery st;
       StatusLowBattery :=
         if Qltb (Status.battery st) 10
         then BATTERY_LEVEL_LOW else BATTERY_LEVEL_NORMAL;
       MotionDetected := Some (Status.moveDetected st);
       LightSensor :=
         if negb (hide_lightsensor (device this)) && defined (LightSensor this)
         then Some (storedLightLevel (String.eqb (Status.brightness st) "bright") this)
         else LightSensor this;
       motionUbpdateInProgress := motionUbpdateInProgress this |}.
Proof.
  destruct this as [b bl sl md ls fl].
  unfold openAPIparseStatus, storedLightLevel, exec, bind, gets, modify, skip, ret,
    super, zoom, device.
  generalize (firmwareVersion (Status.version st)). intros fw.
  cbn -[deviceBase.getLightLevel Qltb].
  destruct (negb (hide_lightsensor (deviceBase.device b)) && defined ls);
    reflexivity.
Qed.

Lemma Qeq_bool_false (a b : Q) : ~ a == b -> Qeq_bool a b = false.
Proof.
  intros H. apply not_true_is_false. intros E. apply H, Qeq_bool_eq, E.
Qed.

(** X18.  What the motion sensor's radio decoder stores as ambient light
    level.  It hands [getLightLevel] the configured lux bound (maximum for
    a "bright" reading, minimum otherwise) where that function takes a
    level number.  So a reading that is not bright is stored as the
    minimum when the minimum is 1 (the default), and a bright reading with
    a maximum other than 1 and 3 is stored as
    (max - min) / 2 * (max - 1), not as the maximum. *)
Theorem BLEparseStatus_light_level (sd : ServiceData.t) (this : t) :
  negb (hide_lightsensor (device this)) && defined (LightSensor this) = true ->
  (strict_eq_str (ServiceData.lightLevel sd) "bright" = false ->
   nullish (set_minLux (device this)) 1 == 1 ->
   LightSensor (exec (BLEparseStatus sd) this)
   = Some (nullish (set_minLux (device this)) 1))
  /\ (strict_eq_str (ServiceData.lightLevel sd) "bright" = true ->
      ~ nullish (set_maxLux (device this)) 6001 == 1 ->
      ~ nullish (set_maxLux (device this)) 6001 == 3 ->
      LightSensor (exec (BLEparseStatus sd) this)
      = Some ((nullish (set_maxLux (device this)) 6001
               - nullish (set_minLux (device this)) 1) / 2
              * (nullish (set_maxLux (device this)) 6001 - 1))).
Proof.
  intros Hexp. rewrite exec_motion_BLEparseStatus. cbn [LightSensor]. rewrite Hexp.
  unfold storedLightLevel. split.
  - intros -> Hmin. unfold deviceBase.getLightLevel.
    rewrite (proj2 (Qeq_bool_iff _ _) Hmin). reflexivity.
  - intros -> H1 H3. unfold deviceBase.getLightLevel.
    rewrite (Qeq_bool_false _ _ H1).
    rewrite Qeq_bool_false; [reflexivity |].
    intros E. apply H3. rewrite E. reflexivity.
Qed.

Lemma BLEparseStatus_light_level_witness :
  LightSensor (exec (BLEparseStatus (Sample.motion_payload true "bright" (Some 80)))
                    (new Sample.platform ∅ (Sample.device "BLE")))
  = Some ((6001 - 1) / 2 * (6001 - 1)).
Proof.
  apply (BLEparseStatus_light_level
           (Sample.motion_payload true "bright" (Some 80))
           (new Sample.platform ∅ (Sample.device "BLE"))).
  - reflexivity.
  - reflexivity.
  - intros H; vm_compute in H; discriminate.
  - intros H; vm_compute in H; discriminate.
Defined.

(** With the default bounds a dark reading is stored as 1 lux and a bright
    one as 18,000,000, above the default maximum of 6001. *)
Example BLEparseStatus_light_defaults :
  (6001 - 1) / 2 * (6001 - 1) == 18000000
  /\ LightSensor (exec (BLEparseStatus (Sample.motion_payload false "dark" None))
                       (new Sample.platform ∅ (Sample.device "BLE")))
     = Some 1.
Proof. split; reflexivity. Qed.

(** X19.  The cloud decoder of the motion sensor does what the radio
    decoder does on a payload with the same movement, light reading and
    battery, and then the firmware version block: the two leave the same
    stored values, and the same object when the cloud answer carries no
    version.  With a version the objects differ in what the block writes:
    the revisions on the host and [accessory.context.version].  On a
    radio payload without 'battery' the stored motion state and light
    level still agree, and the radio decoder keeps the battery level and
    the low-battery status. *)
Theorem decoders_agree (sd : ServiceData.t) (st : Status.t) (this : t) :
  ServiceData.movement sd = Some (Status.moveDetected st) ->
  ServiceData.lightLevel sd = Some (Status.brightness st) ->
  (ServiceData.battery sd = Some (Status.battery st) ->
   exec (openAPIparseStatus st) this
   = exec (super (firmwareVersion (Status.version st)))
          (exec (BLEparseStatus sd) this)
   /\ (truthy_str (Status.version st) = false ->
       exec (openAPIparseStatus st) this = exec (BLEparseStatus sd) this))
  /\ (ServiceData.battery sd = None ->
      MotionDetected (exec (BLEparseStatus sd) this)
      = MotionDetected (exec (openAPIparseStatus st) this)
      /\ LightSensor (exec (BLEparseStatus sd) this)
         = LightSensor (exec (openAPIparseStatus st) this)
      /\ BatteryLevel (exec (BLEparseStatus sd) this) = BatteryLevel this
      /\ StatusLowBattery (exec (BLEparseStatus sd) this) = StatusLowBattery this).
Proof.
  intros Hm Hl.
  rewrite exec_motion_BLEparseStatus, exec_motion_openAPIparseStatus, Hm, Hl.
  cbn [strict_eq_str]. split.
  - intros ->. cbn [nullish]. split; [reflexivity |].
    intros Hv. rewrite deviceBaseFacts.exec_firmwareVersion, Hv. reflexivity.
  - intros ->. repeat split.
Qed.

Lemma decoders_agree_witness :
  exec (openAPIparseStatus (Sample.motion_status true "bright" 8 None))
       (new Sample.platform ∅ (Sample.device "BLE"))
  = exec (BLEparseStatus (Sample.motion_payload true "bright" (Some 8)))
         (new Sample.platform ∅ (Sample.device "BLE")).
Proof.
  exact (proj2 (proj1 (decoders_agree
           (Sample.motion_payload true "bright" (Some 8))
           (Sample.motion_status true "bright" 8 None)
           (new Sample.platform ∅ (Sample.device "BLE"))
           eq_refl eq_refl) eq_refl) eq_refl).
Defined.

(** A cloud answer carrying the version "V1.3-beta": the revision "1.3" is
    given to the host and written to [accessory.context.version], which
    the radio decoder leaves alone. *)
Example openAPIparseStatus_version :
  deviceBase.context
    (base (exec (openAPIparseStatus
                   (Sample.motion_status true "bright" 8 (Some "V1.3-beta")))
                (new Sample.platform ∅ (Sample.device "OpenAPI"))))
    !! "version" = Some (Text "1.3")
  /\ deviceBase.hapValues
       (base (exec (openAPIparseStatus
                      (Sample.motion_status true "bright" 8 (Some "V1.3-beta")))
                   (new Sample.platform ∅ (Sample.device "OpenAPI"))))
       !! Characteristic.FirmwareRevision = Some (Text "1.3")
  /\ deviceBase.context
       (base (exec (BLEparseStatus (Sample.motion_payload true "bright" (Some 8)))
                   (new Sample.platform ∅ (Sample.device "OpenAPI"))))
       !! "version" = None.
Proof. repeat split; vm_compute; reflexivity. Qed.

End MotionFacts.

(** ** The battery capability over the radio *)

Lemma low_battery_iff (b : Q) :
  (if Qltb b 10 then BATTERY_LEVEL_LOW else BATTERY_LEVEL_NORMAL) = BATTERY_LEVEL_LOW
  <-> b < 10.
Proof.
  destruct (Qltb b 10) eqn:E.
  - apply Qltb_lt in E. tauto.
  - apply Qltb_ge in E. split; [discriminate |].
    intros H. exfalso. apply (Qlt_not_le _ _ H E).
Qed.

(** C8.  The radio decoders of the indoor/outdoor sensor and of the motion
    sensor touch the battery capability exactly when the payload has a
    'battery' field.  With the field, [BatteryLevel] becomes its value and
    [StatusLowBattery] is LOW exactly when the value is below 10, NORMAL
    otherwise; without it both keep their previous values. *)
Theorem battery_capability_over_BLE :
  (forall (sd : IOSensor.ServiceData.t) (this : IOSensor.t),
      match IOSensor.ServiceData.battery sd with
      | Some b =>
          IOSensor.BatteryLevel (exec (IOSensor.BLEparseStatus sd) this) = b
          /\ (IOSensor.StatusLowBattery (exec (IOSensor.BLEparseStatus sd) this)
               = BATTERY_LEVEL_LOW <-> b < 10)
          /\ (IOSensor.StatusLowBattery (exec (IOSensor.BLEparseStatus sd) this)
               = BATTERY_LEVEL_NORMAL <-> 10 <= b)
      | None =>
          IOSensor.BatteryLevel (exec (IOSensor.BLEparseStatus sd) this)
          = IOSensor.BatteryLevel this
          /\ IOSensor.StatusLowBattery (exec (IOSensor.BLEparseStatus sd) this)
             = IOSensor.StatusLowBattery this
      end)
  /\ (forall (sd : Motion.ServiceData.t) (this : Motion.t),
      match Motion.ServiceData.battery sd with
      | Some b =>
          Motion.BatteryLevel (exec (Motion.BLEparseStatus sd) this) = b
          /\ (Motion.StatusLowBattery (exec (Motion.BLEparseStatus sd) this)
               = BATTERY_LEVEL_LOW <-> b < 10)
          /\ (Motion.StatusLowBattery (exec (Motion.BLEparseStatus sd) this)
               = BATTERY_LEVEL_NORMAL <-> 10 <= b)
      | None =>
          Motion.BatteryLevel (exec (Motion.BLEparseStatus sd) this)
          = Motion.BatteryLevel this
          /\ Motion.StatusLowBattery (exec (Motion.BLEparseStatus sd) this)
             = Motion.StatusLowBattery this
      end).
Proof.
  assert (Hn : forall b : Q,
    (if Qltb b 10 then BATTERY_LEVEL_LOW else BATTERY_LEVEL_NORMAL)
    = BATTERY_LEVEL_NORMAL <-> 10 <= b).
  { intros b. destruct (Qltb b 10) eqn:E.
    - apply Qltb_lt in E. split; [discriminate |].
      intros H. exfalso. apply (Qlt_not_le _ _ E H).
    - apply Qltb_ge in E. tauto. }
  split; intros sd this.
  - rewrite IOSensorFacts.exec_BLEparseStatus; simpl.
    destruct (IOSensor.ServiceData.battery sd) as [b|]; simpl.
    + split; [reflexivity | split; [apply low_battery_iff | apply Hn]].
    + split; reflexivity.
  - destruct (MotionFacts.exec_BLEparseStatus_battery sd this) as [Hb Hs].
    rewrite Hb, Hs.
    destruct (Motion.ServiceData.battery sd) as [b|]; simpl.
    + split; [reflexivity | split; [apply low_battery_iff | apply Hn]].
    + split; reflexivity.
Qed.

(** The scenarios of the specification: battery 45 is NORMAL, 5 is LOW, and
    a payload without the field keeps a previous 45. *)
Example battery_scenarios :
  IOSensor.StatusLowBattery
    (exec (IOSensor.BLEparseStatus (Sample.payload (Some 45) 22 60))
          (Sample.sensor "BLE")) = BATTERY_LEVEL_NORMAL
  /\ IOSensor.StatusLowBattery
       (exec (IOSensor.BLEparseStatus (Sample.payload (Some 5) 22 60))
             (Sample.sensor "BLE")) = BATTERY_LEVEL_LOW
  /\ IOSensor.BatteryLevel
       (exec (IOSensor.BLEparseStatus (Sample.payload None 22 60))
             (exec (IOSensor.BLEparseStatus (Sample.payload (Some 45) 22 60))
                   (Sample.sensor "BLE"))) = 45.
Proof. repeat split; vm_compute; reflexivity. Qed.

